(** * Airbnb listings pipeline (src/airbnb.py): a shallow embedding

    The script is one top-to-bottom run over a pandas data frame: header
    normalisation, column pruning, duplicate removal, currency and numeric
    parsing, two derived columns, a few summaries, eight charts and an export.

    Modelling choices, all in one place:
    - a character is a code point below 256 ([ascii]); text outside that range
      is not covered;
    - a number is an exact rational ([Q]) or an infinity; the rounding and the
      overflow of binary64 are not modelled, the missing value (NaN) is the
      cell [NaN];
    - a frame is a list of column labels and a list of rows; the pipeline is
      read for frames that are rectangular and whose labels are pairwise
      distinct once normalised (pandas answers [df[c]] with a sub-frame
      otherwise);
    - a step that can raise returns in the [result] monad; charts are
      modelled by the column lookups they perform, which is where they can
      raise on a missing column; printing has no effect on the frame. *)

From Stdlib Require Import Strings.String Strings.Ascii Lists.List Bool.Bool.
From Stdlib Require Import Arith.Arith micromega.Lia ZArith.ZArith QArith.QArith.
From Stdlib Require Import Sorting.Permutation Sorting.Sorted.
From Stdlib Require Import micromega.Lqa.
Import ListNotations.

Close Scope Q_scope.
Open Scope string_scope.
Open Scope bool_scope.
Open Scope nat_scope.

(** ** Python string methods used by the script *)

Module PyStr.

(** [str.isspace] on a single code point below 256. *)
Definition is_space (c : ascii) : bool :=
  let n := nat_of_ascii c in
  ((9 <=? n) && (n <=? 13)) || ((28 <=? n) && (n <=? 32))
  || (n =? 133) || (n =? 160).

(** [str.lower] on a single code point below 256. *)
Definition to_lower (c : ascii) : ascii :=
  let n := nat_of_ascii c in
  if ((65 <=? n) && (n <=? 90))
     || ((192 <=? n) && (n <=? 222) && negb (n =? 215))
  then ascii_of_nat (n + 32) else c.

Fixpoint lower (s : string) : string :=
  match s with
  | EmptyString => EmptyString
  | String c s' => String (to_lower c) (lower s')
  end.

Fixpoint lstrip (s : string) : string :=
  match s with
  | EmptyString => EmptyString
  | String c s' => if is_space c then lstrip s' else s
  end.

Fixpoint rstrip (s : string) : string :=
  match s with
  | EmptyString => EmptyString
  | String c s' =>
      match rstrip s' with
      | EmptyString => if is_space c then EmptyString else String c EmptyString
      | r => String c r
      end
  end.

(** [s.strip()] *)
Definition strip (s : string) : string := rstrip (lstrip s).

(** [s.replace(old, new)]: occurrences are found left to right and do not
    overlap; [skip] counts the characters of a match still to be passed. *)
Fixpoint replace_from (old new : string) (skip : nat) (s : string) : string :=
  match s with
  | EmptyString => EmptyString
  | String c s' =>
      match skip with
      | S k => replace_from old new k s'
      | O =>
          if prefix old s
          then new ++ replace_from old new (String.length old - 1) s'
          else String c (replace_from old new 0 s')
      end
  end.

(** With an empty [old], Python puts [new] at both ends and between any two
    characters. *)
Fixpoint intersperse (new s : string) : string :=
  match s with
  | EmptyString => new
  | String c s' => new ++ String c (intersperse new s')
  end.

Definition replace (old new s : string) : string :=
  match old with
  | EmptyString => intersperse new s
  | _ => replace_from old new 0 s
  end.


(** [c in s] for a character. *)
Fixpoint mem (c : ascii) (s : string) : bool :=
  match s with
  | EmptyString => false
  | String d s' => Ascii.eqb c d || mem c s'
  end.

(** Every character of [s] satisfies [p]. *)
Fixpoint all_chars (p : ascii -> bool) (s : string) : bool :=
  match s with
  | EmptyString => true
  | String c s' => p c && all_chars p s'
  end.

(** Characters that [lower] leaves alone. *)
Definition is_lowered (c : ascii) : bool := Ascii.eqb (to_lower c) c.

Definition not_blank (c : ascii) : bool := negb (Ascii.eqb c " ").

(** No white space at either end. *)
Definition trimmed (s : string) : Prop := lstrip s = s /\ rstrip s = s.

(** [old in s] for a string: some suffix of [s] starts with [old]. *)
Fixpoint occurs (old s : string) : bool :=
  match s with
  | EmptyString => prefix old EmptyString
  | String _ s' => prefix old s || occurs old s'
  end.

End PyStr.

(** ** Step 3: header normalisation (lines 42-48) *)

Definition normalize_header (name : string) : string :=
  PyStr.replace "neighbourhood" "neighborhood"
    (PyStr.replace " " "_" (PyStr.strip (PyStr.lower name))).

Definition normalize_columns (names : list string) : list string :=
  map normalize_header names.

(** ** Numbers and cells *)

(** A float of the frame: an exact rational or an infinity. *)
Inductive number : Type :=
  | Fin (q : Q)
  | PInf
  | NInf.

(** A cell: the missing value, a number, or a string (spec section 3). *)
Inductive cell : Type :=
  | NaN
  | Num (x : number)
  | Str (s : string).

Module Number.

Definition eqb (x y : number) : bool :=
  match x, y with
  | Fin a, Fin b => Qeq_bool a b
  | PInf, PInf => true
  | NInf, NInf => true
  | _, _ => false
  end.

Definition leb (x y : number) : bool :=
  match x, y with
  | NInf, _ => true
  | _, PInf => true
  | Fin a, Fin b => Qle_bool a b
  | _, _ => false
  end.

Definition ltb (x y : number) : bool := negb (leb y x).

Definition neg (x : number) : number :=
  match x with
  | Fin a => Fin (Qred (- a))
  | PInf => NInf
  | NInf => PInf
  end.

(** Addition; [inf + -inf] is NaN. *)
Definition add (x y : number) : cell :=
  match x, y with
  | Fin a, Fin b => Num (Fin (Qred (a + b)))
  | PInf, NInf | NInf, PInf => NaN
  | PInf, _ | _, PInf => Num PInf
  | NInf, _ | _, NInf => Num NInf
  end.

(** [k - x] for an integer constant [k]. *)
Definition rsub (k : Z) (x : number) : number :=
  match x with
  | Fin a => Fin (Qred (inject_Z k - a))
  | PInf => NInf
  | NInf => PInf
  end.

(** [x / n] for a positive count [n]. *)
Definition div_count (x : number) (n : positive) : number :=
  match x with
  | Fin a => Fin (Qred (a / inject_Z (Zpos n)))
  | _ => x
  end.

End Number.

Module Cell.

(** Equality of cells as [duplicated] sees it: missing values are equal to
    one another. *)
Definition eqb (x y : cell) : bool :=
  match x, y with
  | NaN, NaN => true
  | Num a, Num b => Number.eqb a b
  | Str a, Str b => String.eqb a b
  | _, _ => false
  end.

Definition is_nan (x : cell) : bool :=
  match x with NaN => true | _ => false end.

Definition is_str (x : cell) : bool :=
  match x with Str _ => true | _ => false end.

(** Order of group keys: numbers before strings, strings by code point. *)
Definition leb (x y : cell) : bool :=
  match x, y with
  | Num a, Num b => Number.leb a b
  | Num _, _ => true
  | Str a, Str b => String.leb a b
  | Str _, NaN => true
  | NaN, NaN => true
  | _, _ => false
  end.

End Cell.

(** ** [float(s)]: the literal grammar of Python *)

Module PyFloat.

Definition is_digit (c : ascii) : bool :=
  let n := nat_of_ascii c in (48 <=? n) && (n <=? 57).

Definition digit_val (c : ascii) : N := N.of_nat (nat_of_ascii c - 48).

(** digitpart ::= digit (["_"] digit)*, read from the front of [s]; [acc] is
    the value read so far and [cnt] the number of digits read so far. *)
Fixpoint digitpart (acc : N) (cnt : nat) (s : string) : N * nat * string :=
  match s with
  | EmptyString => (acc, cnt, s)
  | String c s' =>
      if is_digit c then digitpart (10 * acc + digit_val c)%N (S cnt) s'
      else if Ascii.eqb c "_" && (0 <? cnt) then
        match s' with
        | String d _ => if is_digit d then digitpart acc cnt s' else (acc, cnt, s)
        | EmptyString => (acc, cnt, s)
        end
      else (acc, cnt, s)
  end.

(** An optional sign; [true] is minus. *)
Definition sign (s : string) : bool * string :=
  match s with
  | String "-" s' => (true, s')
  | String "+" s' => (false, s')
  | _ => (false, s)
  end.

(** [m * 10^e] as a reduced fraction. *)
Definition scale (m : N) (e : Z) : Q :=
  match e with
  | Zneg p => Qred (Qmake (Z.of_N m) (Pos.pow 10 p))
  | _ => inject_Z (Z.of_N m * 10 ^ e)
  end.

(** exponent ::= ("e" | "E") ["+" | "-"] digitpart, then the end of [s]. *)
Definition exponent (s : string) : option Z :=
  match s with
  | EmptyString => Some 0%Z
  | String c s1 =>
      if Ascii.eqb c "e" || Ascii.eqb c "E" then
        let '(neg, s2) := sign s1 in
        match digitpart 0 0 s2 with
        | (_, O, _) => None
        | (e, S _, EmptyString) =>
            Some (if neg then (- Z.of_N e)%Z else Z.of_N e)
        | (_, S _, String _ _) => None
        end
      else None
  end.

(** floatnumber, unsigned: digits, an optional point and digits, an optional
    exponent; at least one digit before the exponent. *)
Definition unsigned_literal (s : string) : option Q :=
  let '(ip, ni, s1) := digitpart 0 0 s in
  let '(m, nf, s2) :=
    match s1 with
    | String "." s1' => digitpart ip 0 s1'
    | _ => (ip, 0, s1)
    end in
  if (ni + nf =? 0) then None
  else
    match exponent s2 with
    | Some e => Some (scale m (e - Z.of_nat nf))
    | None => None
    end.



(** [float(s)]: [None] stands for ValueError. *)
Definition parse (s : string) : option cell :=
  let '(neg, body) := sign (PyStr.strip s) in
  let word := PyStr.lower body in
  if String.eqb word "nan" then Some NaN
  else if String.eqb word "inf" || String.eqb word "infinity"
  then Some (Num (if neg then NInf else PInf))
  else
    match unsigned_literal body with
    | Some q => Some (Num (Fin (if neg then Qred (- q) else q)))
    | None => None
    end.

End PyFloat.

(** ** Errors and the result monad *)

Inductive error : Type :=
  | KeyError (label : string)        (* a label that is not a column *)
  | ValueError (what : string)       (* a failed parse, an empty arg-max, a
                                        chart variable that is not a column *)
  | TypeError                        (* arithmetic on a string cell *)
  | AttributeError.                  (* [.str] on a column without strings *)

Inductive result (A : Type) : Type :=
  | Ok (a : A)
  | Err (e : error).

Arguments Ok {A} a.
Arguments Err {A} e.

Definition bind {A B : Type} (r : result A) (k : A -> result B) : result B :=
  match r with
  | Ok a => k a
  | Err e => Err e
  end.

Notation "x <- r ;; k" := (bind r (fun x => k))
  (at level 61, r at next level, right associativity).

Fixpoint mapM {A B : Type} (f : A -> result B) (l : list A) : result (list B) :=
  match l with
  | [] => Ok []
  | a :: l' => b <- f a ;; bs <- mapM f l' ;; Ok (b :: bs)
  end.

Definition is_ok {A : Type} (r : result A) : bool :=
  match r with Ok _ => true | Err _ => false end.

(** ** The data frame *)

Record DataFrame : Type := mkDataFrame {
  columns : list string;
  rows : list (list cell)
}.

(** [len(df)] *)
Definition len (df : DataFrame) : nat := List.length (rows df).

(** [c in df.columns] *)
Definition has_column (c : string) (df : DataFrame) : bool :=
  existsb (String.eqb c) (columns df).

Fixpoint index_of (c : string) (labels : list string) : option nat :=
  match labels with
  | [] => None
  | l :: labels' =>
      if String.eqb c l then Some 0
      else match index_of c labels' with
           | Some i => Some (S i)
           | None => None
           end
  end.

Definition get_cell (i : nat) (r : list cell) : cell := nth i r NaN.

Fixpoint set_cell (i : nat) (v : cell) (r : list cell) : list cell :=
  match i, r with
  | _, [] => []
  | O, _ :: r' => v :: r'
  | S j, x :: r' => x :: set_cell j v r'
  end.

(** [df[c]]: the column as a list, KeyError when [c] is not a label. *)
Definition get_column (c : string) (df : DataFrame) : result (list cell) :=
  match index_of c (columns df) with
  | Some i => Ok (map (get_cell i) (rows df))
  | None => Err (KeyError c)
  end.

(** [df[c] = vals], for [vals] with one value per row as every assignment of
    the script has: overwrite the column [c], or append it as the last one. *)
Definition set_column (c : string) (vals : list cell) (df : DataFrame)
  : DataFrame :=
  match index_of c (columns df) with
  | Some i =>
      mkDataFrame (columns df)
        (map (fun rv => set_cell i (snd rv) (fst rv)) (combine (rows df) vals))
  | None =>
      mkDataFrame (columns df ++ [c])%list
        (map (fun rv => (fst rv ++ [snd rv])%list) (combine (rows df) vals))
  end.

Fixpoint select {A : Type} (mask : list bool) (l : list A) : list A :=
  match mask, l with
  | b :: mask', x :: l' => if b then x :: select mask' l' else select mask' l'
  | _, _ => []
  end.

(** [df.drop(columns=names)] for labels that are all present: every column
    with one of these labels goes. *)
Definition drop_columns (names : list string) (df : DataFrame) : DataFrame :=
  let keep := map (fun c => negb (existsb (String.eqb c) names)) (columns df) in
  mkDataFrame (select keep (columns df)) (map (select keep) (rows df)).

(** Every row has one cell per label. *)
Definition rectangular (df : DataFrame) : bool :=
  forallb (fun r => List.length r =? List.length (columns df)) (rows df).

Fixpoint distinct_labels (labels : list string) : bool :=
  match labels with
  | [] => true
  | l :: labels' =>
      negb (existsb (String.eqb l) labels') && distinct_labels labels'
  end.

(** A frame as pandas holds it and as the script expects it: rectangular,
    with labels that are pairwise distinct. *)
Definition well_formed (df : DataFrame) : bool :=
  rectangular df && distinct_labels (columns df).

(** ** Step 3 on the frame: [df.columns = ...] (lines 42-48) *)

Definition rename_columns (df : DataFrame) : DataFrame :=
  mkDataFrame (normalize_columns (columns df)) (rows df).

(** ** Step 4: column pruning (lines 57-59) *)

Definition columns_to_drop : list string :=
  ["host_id"; "id"; "country"; "country_code"].

Definition prune (df : DataFrame) : DataFrame :=
  drop_columns (filter (fun c => has_column c df) columns_to_drop) df.

(** ** Step 6: duplicate removal (lines 74-78) *)

Fixpoint row_eqb (r1 r2 : list cell) : bool :=
  match r1, r2 with
  | [], [] => true
  | x :: r1', y :: r2' => Cell.eqb x y && row_eqb r1' r2'
  | _, _ => false
  end.

(** Rows in order, each kept unless an equal row was met before. *)
Fixpoint keep_first (seen : list (list cell)) (l : list (list cell))
  : list (list cell) :=
  match l with
  | [] => []
  | r :: l' =>
      if existsb (row_eqb r) seen then keep_first seen l'
      else r :: keep_first (r :: seen) l'
  end.

(** [df.empty]: no column or no row. *)
Definition empty (df : DataFrame) : bool :=
  match columns df, rows df with
  | [], _ | _, [] => true
  | _, _ => false
  end.

(** [df.drop_duplicates()]: an empty frame is returned as it is. *)
Definition drop_duplicates (df : DataFrame) : DataFrame :=
  if empty df then df
  else mkDataFrame (columns df) (keep_first [] (rows df)).

(** ** Step 7: currency and numeric parsing (lines 86-110) *)

(** The substitution of [[\$,]] by the empty string in one string. *)
Fixpoint strip_currency (s : string) : string :=
  match s with
  | EmptyString => EmptyString
  | String c s' =>
      if Ascii.eqb c "$" || Ascii.eqb c ","
      then strip_currency s'
      else String c (strip_currency s')
  end.

(** [Series.replace(..., regex=True)] touches string cells only. *)
Definition replace_currency (x : cell) : cell :=
  match x with
  | Str s => Str (strip_currency s)
  | _ => x
  end.

(** [astype(float)] on one cell. *)
Definition astype_float (x : cell) : result cell :=
  match x with
  | Str s =>
      match PyFloat.parse s with
      | Some v => Ok v
      | None => Err (ValueError s)
      end
  | _ => Ok x
  end.

Definition clean_currency_cell (x : cell) : result cell :=
  astype_float (replace_currency x).

Definition clean_currency_column (column : string) (df : DataFrame)
  : result (list cell) :=
  col <- get_column column df ;;
  mapM astype_float (map replace_currency col).

Definition clean_currency (column : string) (df : DataFrame)
  : result DataFrame :=
  if has_column column df
  then vals <- clean_currency_column column df ;;
       Ok (set_column column vals df)
  else Ok df.

(** The literals [pd.to_numeric] reads from a string: those of [float],
    without digit-group underscores. *)
Definition numeric_literal (s : string) : option cell :=
  if PyStr.mem "_" s then None else PyFloat.parse s.

(** [pd.to_numeric(..., errors="coerce")] on one cell. *)
Definition to_numeric_cell (x : cell) : cell :=
  match x with
  | Str s =>
      match numeric_literal s with
      | Some v => v
      | None => NaN
      end
  | _ => x
  end.

Definition to_numeric (col : list cell) : list cell := map to_numeric_cell col.

Definition numeric_columns : list string :=
  ["review_rate_number"; "number_of_reviews"; "reviews_per_month";
   "construction_year"; "availability_365"].

Definition coerce_column (df : DataFrame) (col : string) : result DataFrame :=
  if has_column col df
  then vals <- get_column col df ;;
       Ok (set_column col (to_numeric vals) df)
  else Ok df.

(** A [for] loop whose body may raise. *)
Fixpoint for_each {A S : Type} (body : S -> A -> result S) (l : list A) (s : S)
  : result S :=
  match l with
  | [] => Ok s
  | a :: l' => s' <- body s a ;; for_each body l' s'
  end.

(** The loop of lines 108-110. *)
Definition coerce_numeric (df : DataFrame) : result DataFrame :=
  for_each coerce_column numeric_columns df.

(** ** Step 8: derived columns (lines 120-127) *)

(** [k - x] on one cell; the missing value propagates, a string raises. *)
Definition rsub_cell (k : Z) (x : cell) : result cell :=
  match x with
  | NaN => Ok NaN
  | Num n => Ok (Num (Number.rsub k n))
  | Str _ => Err TypeError
  end.

Definition add_days_booked (df : DataFrame) : result DataFrame :=
  if has_column "availability_365" df
  then col <- get_column "availability_365" df ;;
       vals <- mapM (rsub_cell 365) col ;;
       Ok (set_column "days_booked" vals df)
  else Ok df.

(** [str(x).lower() == "t"]. [str] of the missing value is "nan" and [str]
    of a number starts with a digit or a sign or is "inf": neither lowers to
    "t". *)
Definition is_t (x : cell) : bool :=
  match x with
  | Str s => String.eqb (PyStr.lower s) "t"
  | _ => false
  end.

Definition superhost_label (x : cell) : cell :=
  if is_t x then Str "Superhost" else Str "Regular Host".

Definition add_is_superhost (df : DataFrame) : result DataFrame :=
  if has_column "host_is_superhost" df
  then col <- get_column "host_is_superhost" df ;;
       Ok (set_column "is_superhost" (map superhost_label col) df)
  else Ok df.

(** Sections 3 to 8 of the script: the cleaned frame. *)
Definition clean (raw : DataFrame) : result DataFrame :=
  let df := rename_columns raw in
  let df := prune df in
  let df := drop_duplicates df in
  df <- clean_currency "price" df ;;
  df <- clean_currency "service_fee" df ;;
  df <- coerce_numeric df ;;
  df <- add_days_booked df ;;
  add_is_superhost df.

(** ** Step 9: summaries (lines 134-151) *)

(** The distinct values of a column that are not missing, in order of first
    appearance. *)
Fixpoint distinct (seen : list cell) (col : list cell) : list cell :=
  match col with
  | [] => []
  | x :: col' =>
      if Cell.is_nan x || existsb (Cell.eqb x) seen then distinct seen col'
      else x :: distinct (x :: seen) col'
  end.

Definition count_of (v : cell) (col : list cell) : nat :=
  List.length (filter (Cell.eqb v) col).

(** [Series.value_counts()]: the counts of the values that are not missing
    (the order among equal counts is left to the sort of pandas; here it is
    the order of first appearance). *)
Definition value_counts (col : list cell) : list (cell * nat) :=
  map (fun v => (v, count_of v col)) (distinct [] col).

(** [Series.idxmax()]: the label of the first largest count; ValueError on an
    empty series. *)
Definition idxmax (counts : list (cell * nat)) : result cell :=
  match counts with
  | [] => Err (ValueError "attempt to get argmax of an empty sequence")
  | first :: rest =>
      Ok (fst (fold_left
                 (fun best x => if snd best <? snd x then x else best)
                 rest first))
  end.

(** The [.str] accessor exists on a column of object dtype: an empty column or
    one that holds a string. *)
Definition has_str_accessor (col : list cell) : bool :=
  match col with
  | [] => true
  | _ => existsb Cell.is_str col
  end.

(** [col.str.lower()] *)
Definition series_str_lower (col : list cell) : result (list cell) :=
  if has_str_accessor col
  then Ok (map (fun x => match x with
                         | Str s => Str (PyStr.lower s)
                         | _ => NaN
                         end) col)
  else Err AttributeError.

(** [df[mask]] *)
Definition filter_rows (mask : list bool) (df : DataFrame) : DataFrame :=
  mkDataFrame (columns df) (select mask (rows df)).

Definition strict_room (df : DataFrame) : result cell :=
  policy <- get_column "cancellation_policy" df ;;
  low <- series_str_lower policy ;;
  room <- get_column "room_type"
            (filter_rows (map (Cell.eqb (Str "strict")) low) df) ;;
  idxmax (value_counts room).

Definition report_strict_room (df : DataFrame) : result unit :=
  if has_column "cancellation_policy" df && has_column "room_type" df
  then _ <- strict_room df ;; Ok tt
  else Ok tt.

(** Stable insertion sort: [x] goes before the first [y] with [le x y]. *)
Fixpoint insert_by {A : Type} (le : A -> A -> bool) (x : A) (l : list A)
  : list A :=
  match l with
  | [] => [x]
  | y :: l' => if le x y then x :: l else y :: insert_by le x l'
  end.

Definition sort_by {A : Type} (le : A -> A -> bool) (l : list A) : list A :=
  fold_right (insert_by le) [] l.

(** The numbers of a column, the missing ones skipped; a string raises. *)
Fixpoint numeric_values (vals : list cell) : result (list number) :=
  match vals with
  | [] => Ok []
  | NaN :: vals' => numeric_values vals'
  | Num x :: vals' => xs <- numeric_values vals' ;; Ok (x :: xs)
  | Str _ :: _ => Err TypeError
  end.

Definition sum (xs : list number) : cell :=
  fold_left (fun acc x => match acc with
                          | Num a => Number.add a x
                          | _ => NaN
                          end) xs (Num (Fin 0)).

(** The mean of the numbers of a group; missing when the group has none. *)
Definition mean (xs : list number) : cell :=
  match xs with
  | [] => NaN
  | _ :: _ =>
      match sum xs with
      | Num s => Num (Number.div_count s (Pos.of_nat (List.length xs)))
      | other => other
      end
  end.

(** [df.groupby(key)[val].mean()]: one row per key that is not missing, keys
    in increasing order. *)
Definition groupby_mean (key val : string) (df : DataFrame)
  : result (list (cell * cell)) :=
  keys <- get_column key df ;;
  vals <- get_column val df ;;
  mapM (fun k =>
          xs <- numeric_values (select (map (Cell.eqb k) keys) vals) ;;
          Ok (k, mean xs))
       (sort_by Cell.leb (distinct [] keys)).

Definition report_avg_price_group (df : DataFrame) : result unit :=
  if has_column "neighborhood_group" df
  then _ <- groupby_mean "neighborhood_group" "price" df ;; Ok tt
  else Ok tt.

(** ** Step 10: the most and least expensive neighborhoods (lines 157-196) *)

Definition avg_price_neighborhood (df : DataFrame)
  : result (list (cell * cell)) :=
  groupby_mean "neighborhood" "price" df.

(** Order of two aggregate rows by their mean. *)
Definition price_leb (r1 r2 : cell * cell) : bool :=
  match snd r1, snd r2 with
  | Num a, Num b => Number.leb a b
  | _, _ => true
  end.

(** The mean of [r1] is a number at most that of [r2]; at least; below. *)
Definition mean_le (r1 r2 : cell * cell) : Prop :=
  match snd r1, snd r2 with
  | Num a, Num b => Number.leb a b = true
  | _, _ => False
  end.

Definition mean_ge (r1 r2 : cell * cell) : Prop := mean_le r2 r1.

Definition mean_lt (r1 r2 : cell * cell) : Prop :=
  match snd r1, snd r2 with
  | Num a, Num b => Number.ltb a b = true
  | _, _ => False
  end.

(** The mean of [r] is a number. *)
Definition has_mean (r : cell * cell) : Prop := exists x, snd r = Num x.

(** No two rows of [l] have the same mean. *)
Definition distinct_means (l : list (cell * cell)) : Prop :=
  forall r1 r2, In r1 l -> In r2 l ->
                Cell.eqb (snd r1) (snd r2) = true -> r1 = r2.

(** The neighbourhoods of two lists of aggregate rows are disjoint. *)
Definition disjoint_keys (l1 l2 : list (cell * cell)) : Prop :=
  forall r1 r2, In r1 l1 -> In r2 l2 -> fst r1 <> fst r2.

Definition valid (l : list (cell * cell)) : list (cell * cell) :=
  filter (fun r => negb (Cell.is_nan (snd r))) l.

Definition invalid (l : list (cell * cell)) : list (cell * cell) :=
  filter (fun r => Cell.is_nan (snd r)) l.

(** [nsmallest(n, "price")] and [nlargest(n, "price")] with the default
    [keep="first"]: among equal means the earlier row wins; rows with a
    missing mean come last. (On a frame of at most [n] rows pandas sorts the
    whole column instead; the order among equal means is then that of its
    sort, taken here to be the same.) *)
Definition nsmallest (n : nat) (l : list (cell * cell)) : list (cell * cell) :=
  firstn n (sort_by price_leb (valid l) ++ invalid l)%list.

Definition nlargest (n : nat) (l : list (cell * cell)) : list (cell * cell) :=
  firstn n (sort_by (fun a b => price_leb b a) (valid l) ++ invalid l)%list.

Definition top_10_expensive (df : DataFrame) : result (list (cell * cell)) :=
  avg <- avg_price_neighborhood df ;; Ok (nlargest 10 avg).

Definition top_10_cheap (df : DataFrame) : result (list (cell * cell)) :=
  avg <- avg_price_neighborhood df ;; Ok (nsmallest 10 avg).

(** A chart drawn from [data=df] with named variables: each name must be a
    column, or the plotting library raises ValueError. *)
Definition chart (variables : list string) (df : DataFrame) : result unit :=
  for_each (fun _ v => if has_column v df then Ok tt else Err (ValueError v))
           variables tt.

Definition neighborhood_charts (df : DataFrame) : result unit :=
  if has_column "neighborhood" df
  then _ <- top_10_expensive df ;;
       _ <- top_10_cheap df ;;
       _ <- chart ["room_type"; "price"] df ;;
       chart ["service_fee"; "price"] df
  else Ok tt.

(** ** Steps 11 and 12 (lines 202-258) *)

(** [value_counts().sort_index()] of the construction years; the line chart
    is drawn from it, under the guard of line 202. *)
Definition listings_per_year (df : DataFrame) : result (list (cell * nat)) :=
  col <- get_column "construction_year" df ;;
  Ok (sort_by (fun a b => Cell.leb (fst a) (fst b)) (value_counts col)).

Definition construction_year_chart (df : DataFrame) : result unit :=
  if has_column "construction_year" df
  then _ <- listings_per_year df ;; Ok tt
  else Ok tt.

(** The box plot of line 220 is drawn without a guard; the scatter plot that
    follows is guarded and works on a copy. *)
Definition review_rate_charts (df : DataFrame) : result unit :=
  chart ["review_rate_number"; "price"] df.

(** ** Step 13: host category (lines 264-278) *)

Definition verified_label (x : cell) : cell :=
  if is_t x then Str "Verified Host" else Str "Non-Verified Host".

Definition add_host_category (df : DataFrame) : result DataFrame :=
  col <- get_column "host_identity_verified" df ;;
  Ok (set_column "is_superhost" (map verified_label col) df).

Definition host_charts (df : DataFrame) : result unit :=
  _ <- chart ["is_superhost"; "number_of_reviews"] df ;;
  chart ["is_superhost"; "reviews_per_month"] df.

(** ** The whole run: the frame that step 14 exports *)

Definition run (raw : DataFrame) : result DataFrame :=
  df <- clean raw ;;
  _ <- report_strict_room df ;;
  _ <- report_avg_price_group df ;;
  _ <- neighborhood_charts df ;;
  _ <- construction_year_chart df ;;
  _ <- review_rate_charts df ;;
  df <- add_host_category df ;;
  _ <- host_charts df ;;
  Ok df.

(** ** Words for the statements *)

(** [x.lower() == "strict"] on a cell of the policy column. *)
Definition is_strict (x : cell) : bool :=
  match x with
  | Str s => String.eqb (PyStr.lower s) "strict"
  | _ => false
  end.

(** A label that pruning does not drop. *)
Definition kept_label (c : string) : bool :=
  negb (existsb (String.eqb c) columns_to_drop).

(** The labels after [df[c] = ...]: [c] is appended unless it is there. *)
Definition append_label (c : string) (labels : list string) : list string :=
  if existsb (String.eqb c) labels then labels else (labels ++ [c])%list.

(** The labels that the cleaning and step 13 parse or assign. *)
Definition assigned_labels : list string :=
  (["price"; "service_fee"] ++ numeric_columns
   ++ ["days_booked"; "is_superhost"])%list.

(** A column without a string cell. *)
Definition no_str (vals : list cell) : Prop :=
  Forall (fun x => Cell.is_str x = false) vals.

(** ** Sample frames *)

Module Samples.

(** The row of the end-to-end example of the spec, alone in its frame. *)
Definition spec_example : DataFrame :=
  mkDataFrame
    ["price"; "service_fee"; "availability_365"; "host_is_superhost"]
    [[Str "$100.00"; Str "$5"; Num (Fin 300); Str "t"]].

(** The same row in a frame that has every column the charts and step 13
    read, under the headers of the public data set. *)
Definition spec_example_charted : DataFrame :=
  mkDataFrame
    ["price"; "service fee"; "availability 365"; "host_is_superhost";
     "review rate number"; "number of reviews"; "reviews per month";
     "host_identity_verified"]
    [[Str "$100.00"; Str "$5"; Num (Fin 300); Str "t";
      Num (Fin 4); Num (Fin 10); Num (Fin (3 # 2)); Str "t"];
     [Str "$80.00"; Str "$4"; Num (Fin 200); Str "f";
      Num (Fin 3); Num (Fin 2); Num (Fin (1 # 2)); Str "f"];
     [Str "$120.00"; Str "$6"; Num (Fin 100); Str "f";
      Num (Fin 5); Num (Fin 7); Num (Fin 1); Str "t"];
     [Str "$95.50"; Str "$4.50"; Num (Fin 365); Str "t";
      Num (Fin 2); Num (Fin 0); NaN; NaN]].

(** A frame without [host_identity_verified]. *)
Definition no_verified_column : DataFrame :=
  mkDataFrame ["price"; "review rate number"]
    [[Str "$80"; Num (Fin 4)]; [Str "$95"; Num (Fin 3)];
     [Str "$120"; Num (Fin 5)]; [Str "$60"; Num (Fin 2)]].

(** A frame with a neighbourhood group and no price. *)
Definition no_price_column : DataFrame :=
  mkDataFrame ["neighbourhood group"; "room type"]
    [[Str "Brooklyn"; Str "Private room"]].

(** A frame without [review_rate_number]. *)
Definition no_review_rate_column : DataFrame :=
  mkDataFrame ["price"; "host_identity_verified"]
    [[Str "$80"; Str "verified"]].



(** Twenty neighbourhoods "a" to "t", one listing each, all at 100. *)
Definition flat_prices : DataFrame :=
  mkDataFrame ["neighbourhood"; "price"]
    (map (fun i => [Str (String (ascii_of_nat (97 + i)) ""); Str "$100"])
         (seq 0 20)).

(** Twenty neighbourhoods "a" to "t" at 100, 101, ..., 119. *)
Definition rising_prices : DataFrame :=
  mkDataFrame ["neighbourhood"; "price"]
    (map (fun i => [Str (String (ascii_of_nat (97 + i)) "");
                    Num (Fin (inject_Z (Z.of_nat (100 + i))))])
         (seq 0 20)).

(** The mean price of each neighbourhood of [rising_prices]. *)
Definition rising_avg : list (cell * cell) :=
  map (fun i => (Str (String (ascii_of_nat (97 + i)) ""),
                 Num (Fin (inject_Z (Z.of_nat (100 + i))))))
      (seq 0 20).

(** Two policies, neither of them strict. *)
Definition no_strict_policy : DataFrame :=
  mkDataFrame ["cancellation_policy"; "room type"]
    [[Str "moderate"; Str "Private room"];
     [Str "flexible"; Str "Entire home/apt"]].

(** Availability as text, a number, an empty field and a word. *)
Definition mixed_availability : DataFrame :=
  mkDataFrame ["availability 365"; "name"]
    [[Str "300"; Str "a"]; [Num (Fin 12); Str "b"]; [NaN; Str "c"];
     [Str "soon"; Str "d"]].

(** The frame above with its labels normalised and its columns coerced. *)
Definition mixed_availability_coerced : DataFrame :=
  mkDataFrame ["availability_365"; "name"]
    [[Num (Fin 300); Str "a"]; [Num (Fin 12); Str "b"]; [NaN; Str "c"];
     [NaN; Str "d"]].

(** Five rows, the second a copy of the first. *)
Definition repeated_rows : DataFrame :=
  mkDataFrame
    ["price"; "review rate number"; "number of reviews"; "reviews per month";
     "host_identity_verified"]
    [[Str "$80"; Num (Fin 4); Num (Fin 10); Num (Fin 1); Str "t"];
     [Str "$80"; Num (Fin 4); Num (Fin 10); Num (Fin 1); Str "t"];
     [Str "$90"; Num (Fin 5); Num (Fin 20); Num (Fin 2); NaN];
     [Str "$120"; Num (Fin 3); Num (Fin 5); Num (Fin (1 # 2)); Str "f"];
     [Str "$60"; Num (Fin 2); Num (Fin 1); NaN; Str "t"]].

(** What the run of [spec_example_charted] exports. *)
Definition spec_example_exported : DataFrame :=
  mkDataFrame
    ["price"; "service_fee"; "availability_365"; "host_is_superhost";
     "review_rate_number"; "number_of_reviews"; "reviews_per_month";
     "host_identity_verified"; "days_booked"; "is_superhost"]
    [[Num (Fin 100); Num (Fin 5); Num (Fin 300); Str "t";
      Num (Fin 4); Num (Fin 10); Num (Fin (3 # 2)); Str "t";
      Num (Fin 65); Str "Verified Host"];
     [Num (Fin 80); Num (Fin 4); Num (Fin 200); Str "f";
      Num (Fin 3); Num (Fin 2); Num (Fin (1 # 2)); Str "f";
      Num (Fin 165); Str "Non-Verified Host"];
     [Num (Fin 120); Num (Fin 6); Num (Fin 100); Str "f";
      Num (Fin 5); Num (Fin 7); Num (Fin 1); Str "t";
      Num (Fin 265); Str "Verified Host"];
     [Num (Fin (191 # 2)); Num (Fin (9 # 2)); Num (Fin 365); Str "t";
      Num (Fin 2); Num (Fin 0); NaN; NaN;
      Num (Fin 0); Str "Non-Verified Host"]].

(** [repeated_rows] without the copy of its first row. *)
Definition repeated_rows_once : DataFrame :=
  mkDataFrame
    ["price"; "review rate number"; "number of reviews"; "reviews per month";
     "host_identity_verified"]
    [[Str "$80"; Num (Fin 4); Num (Fin 10); Num (Fin 1); Str "t"];
     [Str "$90"; Num (Fin 5); Num (Fin 20); Num (Fin 2); NaN];
     [Str "$120"; Num (Fin 3); Num (Fin 5); Num (Fin (1 # 2)); Str "f"];
     [Str "$60"; Num (Fin 2); Num (Fin 1); NaN; Str "t"]].

(** Policies in several letter cases, one strict row without a room type. *)
Definition strict_policies : DataFrame :=
  mkDataFrame ["cancellation_policy"; "room type"]
    [[Str "strict"; Str "Private room"];
     [Str "Strict"; Str "Entire home/apt"];
     [Str "moderate"; Str "Shared room"];
     [Str "STRICT"; Str "Private room"];
     [Str "strict"; NaN];
     [NaN; Str "Shared room"]].

(** Listings of three neighbourhoods, one of them without a price. *)
Definition three_neighbourhoods : DataFrame :=
  mkDataFrame ["neighborhood"; "price"]
    [[Str "Harlem"; Num (Fin 100)]; [Str "Chelsea"; Num (Fin 300)];
     [Str "Harlem"; Num (Fin 150)]; [Str "Astoria"; NaN];
     [Str "Chelsea"; Num (Fin 250)]; [NaN; Num (Fin 999)];
     [Str "Harlem"; NaN]].

(** The grouped mean of [three_neighbourhoods]. *)
Definition three_neighbourhoods_avg : list (cell * cell) :=
  [(Str "Astoria", NaN); (Str "Chelsea", Num (Fin 275));
   (Str "Harlem", Num (Fin 125))].

(** A frame with the four columns that pruning drops and two others. *)
Definition with_identifiers : DataFrame :=
  mkDataFrame ["id"; "NAME"; "host id"; "country"; "country code"; "price"]
    [[Num (Fin 1001); Str "Loft"; Num (Fin 7); Str "US"; Str "US";
      Str "$100"];
     [Num (Fin 1002); Str "Flat"; Num (Fin 8); Str "US"; Str "US";
      Str "$80"]].

(** Construction years as text and as numbers, one missing and one that is
    no number. *)
Definition built_years : DataFrame :=
  mkDataFrame ["Construction year"; "price"]
    [[Str "2010"; Str "$100"]; [Num (Fin 2005); Str "$80"];
     [Str "2010"; Str "$95"]; [NaN; Str "$120"]; [Str "new"; Str "$60"];
     [Num (Fin 2019); Str "$70"]].

(** The frame above after the cleaning. *)
Definition built_years_cleaned : DataFrame :=
  mkDataFrame ["construction_year"; "price"]
    [[Num (Fin 2010); Num (Fin 100)]; [Num (Fin 2005); Num (Fin 80)];
     [Num (Fin 2010); Num (Fin 95)]; [NaN; Num (Fin 120)];
     [NaN; Num (Fin 60)]; [Num (Fin 2019); Num (Fin 70)]].

End Samples.

(** * Properties *)

Example normalize_header_ex1 :
  normalize_header "  Neighbourhood Group " = "neighborhood_group".
Proof. reflexivity. Qed.

Example normalize_header_ex2 :
  normalize_header "host id" = "host_id"
  /\ normalize_header "Construction year" = "construction_year"
  /\ normalize_header "neighbouneighbourhoodrhood" = "neighbouneighborhoodrhood".
Proof. repeat split. Qed.

Example py_float_ex :
  PyFloat.parse "1234.50" = Some (Num (Fin (2469 # 2)))
  /\ PyFloat.parse "0" = Some (Num (Fin 0))
  /\ PyFloat.parse "1e5" = Some (Num (Fin 100000))
  /\ PyFloat.parse " -1_000.5E-1 " = Some (Num (Fin (-2001 # 20)))
  /\ PyFloat.parse "-Infinity" = Some (Num NInf)
  /\ PyFloat.parse "NaN" = Some NaN
  /\ PyFloat.parse ".5" = Some (Num (Fin (1 # 2)))
  /\ PyFloat.parse "5." = Some (Num (Fin 5))
  /\ PyFloat.parse "." = None
  /\ PyFloat.parse "1_" = None
  /\ PyFloat.parse "1__0" = None
  /\ PyFloat.parse "1e" = None
  /\ PyFloat.parse "" = None
  /\ PyFloat.parse "12abc" = None
  /\ PyFloat.parse "1 2" = None.
Proof. repeat split. Qed.

(** ** Python string methods: basic facts *)

Module PyStrFacts.
Import PyStr.

Lemma to_lower_idem (c : ascii) : to_lower (to_lower c) = to_lower c.
Proof. destruct c as [[] [] [] [] [] [] [] []]; reflexivity. Qed.

Lemma prefix_nil (s : string) : prefix "" s = true.
Proof. destruct s; reflexivity. Qed.

Lemma prefix_cons (a b : ascii) (p s : string) :
  prefix (String a p) (String b s) = true <-> a = b /\ prefix p s = true.
Proof.
  simpl. destruct (ascii_dec a b) as [->|Hne]; split; intros H.
  - now split.
  - now destruct H.
  - discriminate.
  - destruct H as [H _]. contradiction.
Qed.

Lemma prefix_app (p s : string) : prefix p (p ++ s) = true.
Proof.
  induction p as [|a p IH]; simpl.
  - apply prefix_nil.
  - destruct (ascii_dec a a); [exact IH | congruence].
Qed.

Lemma prefix_inv (p s : string) :
  prefix p s = true -> exists t, s = p ++ t.
Proof.
  revert s. induction p as [|a p IH]; intros s H.
  - now exists s.
  - destruct s as [|b s]; [discriminate|].
    apply prefix_cons in H as [-> H].
    destruct (IH _ H) as [t ->]. now exists t.
Qed.

Lemma length_app (s t : string) :
  String.length (s ++ t) = String.length s + String.length t.
Proof. induction s; simpl; congruence. Qed.

Lemma app_nil_r (s : string) : s ++ "" = s.
Proof. induction s; simpl; congruence. Qed.

Lemma all_chars_app (p : ascii -> bool) (s t : string) :
  all_chars p (s ++ t) = all_chars p s && all_chars p t.
Proof.
  induction s as [|c s IH]; simpl; [reflexivity|].
  now rewrite IH, andb_assoc.
Qed.

Section Replace.

Variables (c0 : ascii) (old' new : string).
Let old := String c0 old'.

(** Once a match is found, its characters are passed without a look. *)
Lemma replace_from_skip (s t : string) :
  replace_from old new (String.length s) (s ++ t) = replace_from old new 0 t.
Proof. induction s as [|c s IH]; simpl; [reflexivity | exact IH]. Qed.

Lemma replace_match (t : string) :
  replace old new (old ++ t) = new ++ replace old new t.
Proof.
  unfold replace, old.
  change (String c0 old' ++ t) with (String c0 (old' ++ t)).
  cbn [replace_from].
  change (String c0 (old' ++ t)) with (String c0 old' ++ t).
  rewrite prefix_app. f_equal.
  replace (String.length (String c0 old') - 1) with (String.length old')
    by (simpl; lia).
  apply replace_from_skip.
Qed.

Lemma replace_nomatch (c : ascii) (s : string) :
  prefix old (String c s) = false ->
  replace old new (String c s) = String c (replace old new s).
Proof.
  intros H. unfold replace, old in *. cbn [replace_from]. now rewrite H.
Qed.

Lemma replace_nil : replace old new "" = "".
Proof. reflexivity. Qed.

(** Case analysis that follows the scan of [replace]. *)
Lemma replace_cases (P : string -> string -> Prop) :
  P "" "" ->
  (forall t, P t (replace old new t) ->
             P (old ++ t) (new ++ replace old new t)) ->
  (forall c s, prefix old (String c s) = false ->
               P s (replace old new s) ->
               P (String c s) (String c (replace old new s))) ->
  forall s, P s (replace old new s).
Proof.
  intros Hnil Hmatch Hstep s.
  remember (String.length s) as n eqn:Hn.
  revert s Hn. induction n as [n IH] using lt_wf_ind. intros s Hn.
  destruct s as [|c s].
  - exact Hnil.
  - destruct (prefix old (String c s)) eqn:Hp.
    + destruct (prefix_inv _ _ Hp) as [t Ht]. rewrite Ht.
      rewrite replace_match. apply Hmatch.
      apply (IH (String.length t)); [|reflexivity].
      subst n. rewrite Ht, length_app. unfold old. simpl. lia.
    + rewrite (replace_nomatch _ _ Hp). apply Hstep; [exact Hp|].
      apply (IH (String.length s)); [|reflexivity].
      subst n. simpl. lia.
Qed.

(** A string without an occurrence of [old] is left as it is. *)
Lemma replace_absent (s : string) :
  occurs old s = false -> replace old new s = s.
Proof.
  induction s as [|c s IH]; intros H; [reflexivity|].
  simpl in H. apply orb_false_iff in H as [Hp Ho].
  rewrite (replace_nomatch _ _ Hp). now rewrite IH.
Qed.

Lemma all_chars_replace (p : ascii -> bool) (s : string) :
  all_chars p new = true -> all_chars p s = true ->
  all_chars p (replace old new s) = true.
Proof.
  intros Hnew. apply (replace_cases (fun s r =>
    all_chars p s = true -> all_chars p r = true)).
  - trivial.
  - intros t IH H. rewrite all_chars_app in *.
    apply andb_true_iff in H as [_ H]. now rewrite Hnew, IH.
  - intros c t _ IH H. simpl in *.
    apply andb_true_iff in H as [Hc H]. now rewrite Hc, IH.
Qed.

End Replace.

End PyStrFacts.

(** ** Header normalisation is idempotent *)

Module Header.
Import PyStr PyStrFacts.

Lemma lower_lowered (s : string) : all_chars is_lowered (lower s) = true.
Proof.
  induction s as [|c s IH]; simpl; [reflexivity|].
  rewrite IH, andb_true_r. unfold is_lowered.
  rewrite to_lower_idem. apply Ascii.eqb_refl.
Qed.

Lemma lower_fixed (s : string) : all_chars is_lowered s = true -> lower s = s.
Proof.
  induction s as [|c s IH]; simpl; intros H; [reflexivity|].
  apply andb_true_iff in H as [Hc H].
  apply Ascii.eqb_eq in Hc. now rewrite Hc, IH.
Qed.

Lemma all_chars_lstrip (p : ascii -> bool) (s : string) :
  all_chars p s = true -> all_chars p (lstrip s) = true.
Proof.
  induction s as [|c s IH]; simpl; intros H; [reflexivity|].
  destruct (is_space c); [|exact H].
  apply andb_true_iff in H as [_ H]. auto.
Qed.

Lemma all_chars_rstrip (p : ascii -> bool) (s : string) :
  all_chars p s = true -> all_chars p (rstrip s) = true.
Proof.
  induction s as [|c s IH]; simpl; intros H; [reflexivity|].
  apply andb_true_iff in H as [Hc H]. specialize (IH H).
  destruct (rstrip s) as [|d r].
  - destruct (is_space c); simpl; [reflexivity | now rewrite Hc].
  - change (all_chars p (String c (String d r)))
      with (p c && all_chars p (String d r)).
    now rewrite Hc, IH.
Qed.

Lemma lstrip_length (s : string) : String.length (lstrip s) <= String.length s.
Proof.
  induction s as [|c s IH]; simpl; [lia|].
  destruct (is_space c); simpl; lia.
Qed.

(** A string that [lstrip] keeps is empty or starts with a character that is
    not white space. *)
Lemma lstrip_fixed_inv (c : ascii) (s : string) :
  lstrip (String c s) = String c s -> is_space c = false.
Proof.
  simpl. destruct (is_space c); [|reflexivity].
  intros H. pose proof (lstrip_length s) as Hl.
  rewrite H in Hl. simpl in Hl. lia.
Qed.

Lemma lstrip_idem (s : string) : lstrip (lstrip s) = lstrip s.
Proof.
  induction s as [|c s IH]; simpl; [reflexivity|].
  destruct (is_space c) eqn:Hc; [exact IH|].
  simpl. now rewrite Hc.
Qed.

Lemma rstrip_cons (c : ascii) (s : string) :
  rstrip (String c s) = String c s <->
  (s = "" /\ is_space c = false) \/ (s <> "" /\ rstrip s = s).
Proof.
  simpl. destruct (rstrip s) as [|d r] eqn:Hr.
  - destruct (is_space c); split; intros H.
    + discriminate.
    + destruct H as [[_ H]|[Hne H]]; [discriminate | congruence].
    + injection H as H. left. now split.
    + destruct H as [[-> _]|[Hne H]]; [reflexivity | congruence].
  - split; intros H.
    + injection H as H. right. split; [|now symmetry]. now rewrite <- H.
    + destruct H as [[-> _]|[_ H]]; [discriminate | now rewrite H].
Qed.

Lemma rstrip_idem (s : string) : rstrip (rstrip s) = rstrip s.
Proof.
  induction s as [|c s IH]; [reflexivity|].
  simpl. destruct (rstrip s) as [|d r] eqn:Hr.
  - destruct (is_space c) eqn:Hc; [reflexivity|].
    simpl. now rewrite Hc.
  - apply rstrip_cons. right. split; [discriminate | exact IH].
Qed.

Lemma rstrip_lstrip_fixed (s : string) :
  lstrip s = s -> lstrip (rstrip s) = rstrip s.
Proof.
  destruct s as [|c s]; [reflexivity|]. intros H.
  apply lstrip_fixed_inv in H.
  simpl. destruct (rstrip s); rewrite ?H; simpl; now rewrite H.
Qed.

Lemma strip_trimmed (s : string) : trimmed (strip s).
Proof.
  unfold trimmed, strip. split.
  - apply rstrip_lstrip_fixed, lstrip_idem.
  - apply rstrip_idem.
Qed.

Lemma trimmed_strip (s : string) : trimmed s -> strip s = s.
Proof. intros [Hl Hr]. unfold strip. now rewrite Hl. Qed.

Lemma rstrip_app (a b : string) :
  b <> "" -> rstrip b = b -> rstrip (a ++ b) = a ++ b.
Proof.
  intros Hne Hb. induction a as [|c a IH]; [exact Hb|].
  change (String c a ++ b) with (String c (a ++ b)).
  apply rstrip_cons. right. split; [|exact IH].
  destruct a; simpl; [exact Hne | discriminate].
Qed.

Lemma rstrip_app_inv (a b : string) :
  b <> "" -> rstrip (a ++ b) = a ++ b -> rstrip b = b.
Proof.
  intros Hne. induction a as [|c a IH]; [trivial|].
  change (String c a ++ b) with (String c (a ++ b)). intros H.
  apply rstrip_cons in H as [[H _]|[_ H]]; [|auto].
  destruct a; simpl in H; [contradiction | discriminate].
Qed.

Section ReplaceTrimmed.

Variables (c0 : ascii) (old' : string) (n0 : ascii) (new' : string).
Let old := String c0 old'.
Let new := String n0 new'.
Hypothesis new_first : is_space n0 = false.
Hypothesis new_last : rstrip new = new.

Lemma replace_nonempty (s : string) :
  s <> "" -> replace old new s <> "".
Proof.
  apply (replace_cases c0 old' new (fun s r => s <> "" -> r <> "")).
  - congruence.
  - intros; discriminate.
  - intros; discriminate.
Qed.

Lemma replace_rstrip (s : string) :
  rstrip s = s -> rstrip (replace old new s) = replace old new s.
Proof.
  apply (replace_cases c0 old' new (fun s r =>
    r = replace old new s -> rstrip s = s -> rstrip r = r));
    [reflexivity | | | reflexivity].
  - intros t IH _ H. destruct t as [|d t].
    + rewrite replace_nil, app_nil_r. exact new_last.
    + apply rstrip_app.
      * apply replace_nonempty. discriminate.
      * apply IH; [reflexivity|].
        apply (rstrip_app_inv old); [discriminate | exact H].
  - intros c t _ IH _ H. apply rstrip_cons.
    apply rstrip_cons in H as [[-> Hc]|[Hne H]].
    + left. now split.
    + right. split; [now apply replace_nonempty | now apply IH].
Qed.

Lemma replace_lstrip (s : string) :
  lstrip s = s -> lstrip (replace old new s) = replace old new s.
Proof.
  apply (replace_cases c0 old' new (fun s r => lstrip s = s -> lstrip r = r)).
  - trivial.
  - intros t _ _. unfold new. simpl. now rewrite new_first.
  - intros c t _ _ H. apply lstrip_fixed_inv in H. simpl. now rewrite H.
Qed.

Lemma replace_trimmed (s : string) :
  trimmed s -> trimmed (replace old new s).
Proof.
  intros [Hl Hr]. split; [now apply replace_lstrip | now apply replace_rstrip].
Qed.

End ReplaceTrimmed.

(** After the blanks are replaced, none is left. *)
Lemma replace_blank_no_blank (s : string) :
  all_chars not_blank (replace " " "_" s) = true.
Proof.
  apply (replace_cases " " "" "_" (fun _ r => all_chars not_blank r = true)).
  - reflexivity.
  - intros t IH. exact IH.
  - intros c t Hp IH. cbn [all_chars]. rewrite IH, andb_true_r.
    unfold not_blank. destruct (Ascii.eqb c " ") eqn:E; [|reflexivity].
    apply Ascii.eqb_eq in E. subst c.
    assert (prefix " " (String " " t) = true) as Hq
      by (apply prefix_cons; split; [reflexivity | apply prefix_nil]).
    congruence.
Qed.

Lemma no_blank_absent (s : string) :
  all_chars not_blank s = true -> occurs " " s = false.
Proof.
  induction s as [|c s IH]; cbn [all_chars occurs]; intros H; [reflexivity|].
  apply andb_true_iff in H as [Hc H]. rewrite (IH H), orb_false_r.
  destruct (prefix " " (String c s)) eqn:E; [|reflexivity].
  apply prefix_cons in E as [<- _]. discriminate.
Qed.

(** The replacement of the long spelling reads a prefix without "n" off the
    source unchanged. *)
Lemma replace_prefix_reflect (p : string) :
  mem "n" p = false ->
  forall s, prefix p (replace "neighbourhood" "neighborhood" s) = true ->
            prefix p s = true.
Proof.
  induction p as [|a p IH]; intros Hn s; [intros _; apply prefix_nil|].
  cbn [mem] in Hn. apply orb_false_iff in Hn as [Ha Hn].
  destruct s as [|c s]; [discriminate|].
  destruct (prefix "neighbourhood" (String c s)) eqn:Hp.
  - destruct (prefix_inv _ _ Hp) as [t ->].
    rewrite (replace_match "n" "eighbourhood"). intros H.
    change ("neighborhood" ++ replace "neighbourhood" "neighborhood" t)
      with (String "n" ("eighborhood"
                        ++ replace "neighbourhood" "neighborhood" t)) in H.
    apply prefix_cons in H as [-> _].
    now rewrite Ascii.eqb_refl in Ha.
  - rewrite (replace_nomatch "n" "eighbourhood" _ _ _ Hp). intros H.
    apply prefix_cons in H as [-> H].
    apply prefix_cons. split; [reflexivity | now apply IH].
Qed.

(** After the replacement, the long spelling does not occur. *)
Lemma replace_spelling_absent (s : string) :
  occurs "neighbourhood" (replace "neighbourhood" "neighborhood" s) = false.
Proof.
  apply (replace_cases "n" "eighbourhood" "neighborhood"
           (fun s r => r = replace "neighbourhood" "neighborhood" s ->
                       occurs "neighbourhood" r = false));
    [reflexivity | | | reflexivity].
  - intros t IH _. specialize (IH eq_refl).
    cbn -[prefix occurs replace].
    remember (replace "neighbourhood" "neighborhood" t) as r.
    cbn [occurs append]. rewrite IH.
    repeat match goal with
    | |- context [prefix ?p (String ?a ?x)] =>
        change (prefix p (String a x)) with false
    end.
    reflexivity.
  - intros c t Hp IH _. specialize (IH eq_refl).
    cbn [occurs]. rewrite IH, orb_false_r.
    destruct (prefix "neighbourhood"
                (String c (replace "neighbourhood" "neighborhood" t))) eqn:E;
      [|reflexivity].
    apply prefix_cons in E as [<- E].
    apply replace_prefix_reflect in E; [|reflexivity].
    rewrite <- Hp. symmetry. apply prefix_cons. now split.
Qed.

Lemma normalize_header_fixed (t : string) :
  all_chars is_lowered t = true ->
  trimmed t ->
  all_chars not_blank t = true ->
  occurs "neighbourhood" t = false ->
  normalize_header t = t.
Proof.
  intros Hlow Htrim Hblank Hocc. unfold normalize_header.
  rewrite (lower_fixed _ Hlow), (trimmed_strip _ Htrim).
  rewrite (replace_absent " " "" "_" t (no_blank_absent _ Hblank)).
  apply (replace_absent "n" "eighbourhood"), Hocc.
Qed.

Lemma normalize_header_idem (name : string) :
  normalize_header (normalize_header name) = normalize_header name.
Proof.
  apply normalize_header_fixed; unfold normalize_header.
  - apply (all_chars_replace "n" "eighbourhood"); [reflexivity|].
    apply (all_chars_replace " " ""); [reflexivity|].
    apply all_chars_rstrip, all_chars_lstrip, lower_lowered.
  - apply (replace_trimmed "n" "eighbourhood" "n" "eighborhood");
      [reflexivity | reflexivity |].
    apply (replace_trimmed " " "" "_" ""); [reflexivity | reflexivity |].
    apply strip_trimmed.
  - apply (all_chars_replace "n" "eighbourhood"); [reflexivity|].
    apply replace_blank_no_blank.
  - apply replace_spelling_absent.
Qed.

(** C8. Header normalisation (lower case, trim, blanks to underscores, the
    spelling "neighbourhood" folded onto "neighborhood") is idempotent: on
    every list of column names, normalising twice gives the same names as
    normalising once. *)
Theorem normalize_columns_idempotent (names : list string) :
  normalize_columns (normalize_columns names) = normalize_columns names.
Proof.
  unfold normalize_columns. rewrite map_map.
  apply map_ext. intros name. apply normalize_header_idem.
Qed.

End Header.

(** ** The result monad and the frame primitives *)

Lemma bind_ok {A B : Type} (r : result A) (k : A -> result B) (b : B) :
  bind r k = Ok b -> exists a, r = Ok a /\ k a = Ok b.
Proof. destruct r as [a|e]; simpl; [eauto | discriminate]. Qed.

(** Splits a successful sequence of steps into its steps. *)
Ltac inv_ok H :=
  lazymatch type of H with
  | bind _ _ = Ok _ =>
      let a := fresh "a" in
      let Ha := fresh "Ha" in
      apply bind_ok in H as (a & Ha & H); inv_ok Ha; inv_ok H
  | (if ?b then _ else _) = Ok _ => destruct b eqn:?; inv_ok H
  | Ok _ = Ok _ => injection H as H
  | Err _ = Ok _ => discriminate H
  | _ => idtac
  end.

Lemma mapM_length {A B : Type} (f : A -> result B) (l : list A) (l' : list B) :
  mapM f l = Ok l' -> List.length l' = List.length l.
Proof.
  revert l'. induction l as [|a l IH]; simpl; intros l' H.
  - injection H as <-. reflexivity.
  - inv_ok H. subst l'. simpl. f_equal. now apply IH.
Qed.



Lemma has_column_index (c : string) (df : DataFrame) :
  has_column c df = true <-> exists i, index_of c (columns df) = Some i.
Proof.
  unfold has_column. induction (columns df) as [|l ls IH]; simpl.
  - split; [discriminate | intros [i H]; discriminate].
  - destruct (String.eqb c l); simpl.
    + split; eauto.
    + rewrite IH. split; intros [i H].
      * rewrite H. eauto.
      * destruct (index_of c ls); [eauto | discriminate].
Qed.

Lemma has_column_get (c : string) (df : DataFrame) :
  has_column c df = true -> exists vals, get_column c df = Ok vals.
Proof.
  intros H. apply has_column_index in H as [i H].
  unfold get_column. rewrite H. eauto.
Qed.

Lemma no_column_get (c : string) (df : DataFrame) :
  has_column c df = false -> get_column c df = Err (KeyError c).
Proof.
  intros H. unfold get_column.
  destruct (index_of c (columns df)) as [i|] eqn:E; [|reflexivity].
  assert (has_column c df = true) by (apply has_column_index; eauto).
  congruence.
Qed.

Lemma get_column_length (c : string) (df : DataFrame) (vals : list cell) :
  get_column c df = Ok vals -> List.length vals = len df.
Proof.
  unfold get_column, len. destruct (index_of c (columns df)); [|discriminate].
  intros H. injection H as <-. apply length_map.
Qed.

Lemma len_set_column (c : string) (vals : list cell) (df : DataFrame) :
  List.length vals = len df -> len (set_column c vals df) = len df.
Proof.
  unfold set_column, len. intros H.
  destruct (index_of c (columns df)); simpl;
    rewrite length_map, length_combine; lia.
Qed.

(** Lengths of the columns that a step reads and computes. *)
Ltac col_length :=
  repeat match goal with
  | H : mapM _ _ = Ok ?l |- context [List.length ?l] =>
      rewrite (mapM_length _ _ _ H)
  | H : get_column _ _ = Ok ?l |- context [List.length ?l] =>
      rewrite (get_column_length _ _ _ H)
  | |- context [List.length (map _ _)] => rewrite length_map
  end;
  try reflexivity.

(** What a run that reaches the export went through. *)
Lemma run_inv (raw out : DataFrame) :
  run raw = Ok out ->
  exists df,
    clean raw = Ok df
    /\ report_strict_room df = Ok tt
    /\ report_avg_price_group df = Ok tt
    /\ neighborhood_charts df = Ok tt
    /\ review_rate_charts df = Ok tt
    /\ add_host_category df = Ok out
    /\ host_charts out = Ok tt.
Proof.
  unfold run. intros H.
  apply bind_ok in H as (df & Hclean & H). exists df.
  apply bind_ok in H as ([] & H1 & H). apply bind_ok in H as ([] & H2 & H).
  apply bind_ok in H as ([] & H3 & H). apply bind_ok in H as ([] & _ & H).
  apply bind_ok in H as ([] & H5 & H). apply bind_ok in H as (d & H6 & H).
  apply bind_ok in H as ([] & H7 & H). injection H as <-.
  repeat split; assumption.
Qed.

(** ** Row counts (duplicate removal and the other steps) *)

Module RowCount.

Lemma keep_first_length (seen l : list (list cell)) :
  List.length (keep_first seen l) <= List.length l.
Proof.
  revert seen. induction l as [|r l IH]; intros seen; simpl; [lia|].
  destruct (existsb (row_eqb r) seen); simpl.
  - specialize (IH seen). lia.
  - specialize (IH (r :: seen)). lia.
Qed.

(** A second pass that has seen no more than the first keeps everything. *)
Lemma keep_first_again (l seen1 seen2 : list (list cell)) :
  (forall r, existsb (row_eqb r) seen2 = true ->
             existsb (row_eqb r) seen1 = true) ->
  keep_first seen2 (keep_first seen1 l) = keep_first seen1 l.
Proof.
  revert seen1 seen2. induction l as [|r l IH]; intros seen1 seen2 Hsub;
    simpl; [reflexivity|].
  destruct (existsb (row_eqb r) seen1) eqn:E1; [now apply IH|].
  simpl. destruct (existsb (row_eqb r) seen2) eqn:E2.
  - apply Hsub in E2. congruence.
  - f_equal. apply IH. intros x. simpl.
    destruct (row_eqb x r); [reflexivity | apply Hsub].
Qed.

Lemma drop_duplicates_len (df : DataFrame) :
  len (drop_duplicates df) <= len df.
Proof.
  unfold drop_duplicates, len. destruct (empty df); simpl; [lia|].
  apply keep_first_length.
Qed.

Lemma drop_duplicates_idem (df : DataFrame) :
  drop_duplicates (drop_duplicates df) = drop_duplicates df.
Proof.
  unfold drop_duplicates. destruct (empty df) eqn:E; [now rewrite E|].
  destruct df as [cols rs]. unfold empty in *. simpl in *.
  destruct cols as [|c cols]; [discriminate|].
  destruct rs as [|r rs]; [discriminate|].
  simpl. f_equal. f_equal.
  apply (keep_first_again rs [r] [r]). trivial.
Qed.

Lemma prune_len (df : DataFrame) : len (prune df) = len df.
Proof. unfold prune, drop_columns, len. simpl. apply length_map. Qed.

Lemma clean_currency_len (c : string) (df df' : DataFrame) :
  clean_currency c df = Ok df' -> len df' = len df.
Proof.
  unfold clean_currency, clean_currency_column. intros H. inv_ok H.
  - subst df'. apply len_set_column. col_length.
  - now subst.
Qed.

Lemma coerce_column_len (df df' : DataFrame) (c : string) :
  coerce_column df c = Ok df' -> len df' = len df.
Proof.
  unfold coerce_column. intros H. inv_ok H.
  - subst df'. apply len_set_column. unfold to_numeric. col_length.
  - now subst.
Qed.

Lemma for_each_len {A : Type} (body : DataFrame -> A -> result DataFrame)
      (l : list A) :
  (forall df df' a, body df a = Ok df' -> len df' = len df) ->
  forall df df', for_each body l df = Ok df' -> len df' = len df.
Proof.
  intros Hbody. induction l as [|a l IH]; simpl; intros df df' H.
  - now injection H as <-.
  - apply bind_ok in H as (d & Hd & H).
    rewrite (IH _ _ H). eapply Hbody; eassumption.
Qed.

Lemma coerce_numeric_len (df df' : DataFrame) :
  coerce_numeric df = Ok df' -> len df' = len df.
Proof. apply for_each_len. exact coerce_column_len. Qed.

Lemma add_days_booked_len (df df' : DataFrame) :
  add_days_booked df = Ok df' -> len df' = len df.
Proof.
  unfold add_days_booked. intros H. inv_ok H.
  - subst df'. apply len_set_column. col_length.
  - now subst.
Qed.

Lemma add_is_superhost_len (df df' : DataFrame) :
  add_is_superhost df = Ok df' -> len df' = len df.
Proof.
  unfold add_is_superhost. intros H. inv_ok H.
  - subst df'. apply len_set_column. col_length.
  - now subst.
Qed.

Lemma add_host_category_len (df df' : DataFrame) :
  add_host_category df = Ok df' -> len df' = len df.
Proof.
  unfold add_host_category. intros H. inv_ok H.
  subst df'. apply len_set_column. col_length.
Qed.

(** The cleaned frame has the rows that duplicate removal left. *)
Lemma clean_len (raw df : DataFrame) :
  clean raw = Ok df ->
  len df = len (drop_duplicates
                  (prune (rename_columns raw))).
Proof.
  unfold clean. intros H.
  apply bind_ok in H as (d1 & H1 & H). apply bind_ok in H as (d2 & H2 & H).
  apply bind_ok in H as (d3 & H3 & H). apply bind_ok in H as (d4 & H4 & H).
  rewrite (add_is_superhost_len _ _ H), (add_days_booked_len _ _ H4),
    (coerce_numeric_len _ _ H3), (clean_currency_len _ _ _ H2).
  now apply clean_currency_len with (c := "price").
Qed.

Lemma run_len (raw out : DataFrame) :
  run raw = Ok out ->
  len out = len (drop_duplicates
                   (prune (rename_columns raw))).
Proof.
  intros H. apply run_inv in H as (df & Hclean & _ & _ & _ & _ & Hcat & _).
  rewrite (add_host_category_len _ _ Hcat). now apply clean_len.
Qed.

(** C9. The row count never grows: duplicate removal leaves at most as many
    rows as it finds and changes nothing on its own output; renaming and
    pruning the columns, the two currency columns, the numeric coercion and
    the three derived columns each keep the row count; so the exported frame
    has at most as many rows as the input. *)
Theorem row_count_never_grows (df : DataFrame) :
  len (drop_duplicates df) <= len df
  /\ drop_duplicates (drop_duplicates df) = drop_duplicates df
  /\ len (rename_columns df) = len df
  /\ len (prune df) = len df
  /\ (forall c df', clean_currency c df = Ok df' -> len df' = len df)
  /\ (forall df', coerce_numeric df = Ok df' -> len df' = len df)
  /\ (forall df', add_days_booked df = Ok df' -> len df' = len df)
  /\ (forall df', add_is_superhost df = Ok df' -> len df' = len df)
  /\ (forall df', add_host_category df = Ok df' -> len df' = len df)
  /\ (forall out, run df = Ok out -> len out <= len df).
Proof.
  repeat apply conj.
  - apply drop_duplicates_len.
  - apply drop_duplicates_idem.
  - reflexivity.
  - apply prune_len.
  - intros c df'. apply clean_currency_len.
  - apply coerce_numeric_len.
  - apply add_days_booked_len.
  - apply add_is_superhost_len.
  - apply add_host_category_len.
  - intros out H. rewrite (run_len _ _ H).
    etransitivity; [apply drop_duplicates_len|].
    rewrite prune_len. reflexivity.
Qed.

(** Five rows, two of them equal: four rows are exported. *)
Lemma row_count_never_grows_witness :
  len (drop_duplicates Samples.repeated_rows) <= len Samples.repeated_rows
  /\ exists out,
       run Samples.repeated_rows = Ok out
       /\ len out <= len Samples.repeated_rows.
Proof.
  destruct (row_count_never_grows Samples.repeated_rows)
    as (Hle & _ & _ & _ & _ & _ & _ & _ & _ & Hrun).
  split; [exact Hle|].
  eexists. split; [vm_compute; reflexivity|].
  apply Hrun. vm_compute; reflexivity.
Defined.

End RowCount.

(** ** Reading a column after an assignment *)

Module Frame.

Lemma rectangular_spec (df : DataFrame) :
  rectangular df = true <->
  forall r, In r (rows df) -> List.length r = List.length (columns df).
Proof.
  unfold rectangular. rewrite forallb_forall.
  split; intros H r Hr; specialize (H r Hr); now apply Nat.eqb_eq.
Qed.

Lemma well_formed_rectangular (df : DataFrame) :
  well_formed df = true -> rectangular df = true.
Proof. unfold well_formed. intros H. now apply andb_true_iff in H. Qed.

Lemma index_of_lt (c : string) (labels : list string) (i : nat) :
  index_of c labels = Some i -> i < List.length labels.
Proof.
  revert i. induction labels as [|l ls IH]; simpl; intros i H; [discriminate|].
  destruct (String.eqb c l).
  - injection H as <-. lia.
  - destruct (index_of c ls) as [j|]; [|discriminate].
    injection H as <-. specialize (IH j eq_refl). lia.
Qed.

Lemma index_of_inj (c c' : string) (labels : list string) (i : nat) :
  index_of c labels = Some i -> index_of c' labels = Some i -> c = c'.
Proof.
  revert i. induction labels as [|l ls IH]; simpl; intros i H H';
    [discriminate|].
  destruct (String.eqb c l) eqn:E, (String.eqb c' l) eqn:E'.
  - apply String.eqb_eq in E, E'. congruence.
  - injection H as <-.
    destruct (index_of c' ls); [injection H' as H'; lia | discriminate].
  - injection H' as <-.
    destruct (index_of c ls); [injection H as H; lia | discriminate].
  - destruct (index_of c ls) as [j|]; [|discriminate].
    destruct (index_of c' ls) as [j'|]; [|discriminate].
    injection H as <-. injection H' as H'. apply (IH j); congruence.
Qed.

Lemma index_of_app_other (c c' : string) (labels : list string) :
  c <> c' -> index_of c (labels ++ [c']) = index_of c labels.
Proof.
  intros Hne. induction labels as [|l ls IH]; simpl.
  - apply String.eqb_neq in Hne. now rewrite Hne.
  - destruct (String.eqb c l); [reflexivity | now rewrite IH].
Qed.

Lemma index_of_app_new (c : string) (labels : list string) :
  index_of c labels = None ->
  index_of c (labels ++ [c]) = Some (List.length labels).
Proof.
  induction labels as [|l ls IH]; simpl; intros H.
  - now rewrite String.eqb_refl.
  - destruct (String.eqb c l); [discriminate|].
    destruct (index_of c ls); [discriminate|]. now rewrite IH.
Qed.

Lemma set_cell_length (i : nat) (v : cell) (r : list cell) :
  List.length (set_cell i v r) = List.length r.
Proof.
  revert i. induction r as [|x r IH]; intros [|i]; simpl; auto.
Qed.

Lemma get_set_cell_same (i : nat) (v : cell) (r : list cell) :
  i < List.length r -> get_cell i (set_cell i v r) = v.
Proof.
  unfold get_cell. revert i. induction r as [|x r IH]; intros [|i]; simpl;
    intros H; try lia; [reflexivity|].
  apply IH. lia.
Qed.

Lemma get_set_cell_other (i j : nat) (v : cell) (r : list cell) :
  i <> j -> get_cell i (set_cell j v r) = get_cell i r.
Proof.
  unfold get_cell. revert i j.
  induction r as [|x r IH]; intros [|i] [|j] H; simpl; try reflexivity;
    try lia.
  apply IH. lia.
Qed.

Lemma get_cell_app (i : nat) (r : list cell) (v : cell) :
  i < List.length r -> get_cell i (r ++ [v]) = get_cell i r.
Proof. intros H. unfold get_cell. now apply app_nth1. Qed.

Lemma get_cell_app_new (r : list cell) (v : cell) :
  get_cell (List.length r) (r ++ [v]) = v.
Proof.
  unfold get_cell. rewrite app_nth2, Nat.sub_diag; [reflexivity | lia].
Qed.

Section Combine.

Context {B : Type}.
Variable g : list cell -> cell -> B.

Lemma map_combine_rows (h : list cell -> B) (rs : list (list cell)) :
  (forall r v, In r rs -> g r v = h r) ->
  forall vals, List.length vals = List.length rs ->
  map (fun rv => g (fst rv) (snd rv)) (combine rs vals) = map h rs.
Proof.
  induction rs as [|r rs IH]; intros Hg [|v vals] Hlen; simpl in *;
    try reflexivity; try discriminate.
  f_equal; [now apply Hg; left|].
  apply IH; [|lia]. intros r' v' Hin. apply Hg. now right.
Qed.

Lemma map_combine_vals (k : cell -> B) (rs : list (list cell)) :
  (forall r v, In r rs -> g r v = k v) ->
  forall vals, List.length vals = List.length rs ->
  map (fun rv => g (fst rv) (snd rv)) (combine rs vals) = map k vals.
Proof.
  induction rs as [|r rs IH]; intros Hg [|v vals] Hlen; simpl in *;
    try reflexivity; try discriminate.
  f_equal; [now apply Hg; left|].
  apply IH; [|lia]. intros r' v' Hin. apply Hg. now right.
Qed.

End Combine.

(** [df[c] = vals] followed by [df[c]] gives [vals]. *)
Lemma get_set_same (c : string) (vals : list cell) (df : DataFrame) :
  rectangular df = true -> List.length vals = len df ->
  get_column c (set_column c vals df) = Ok vals.
Proof.
  intros Hrect Hlen. rewrite rectangular_spec in Hrect.
  unfold set_column, get_column.
  destruct (index_of c (columns df)) as [i|] eqn:E; simpl.
  - rewrite E. f_equal. rewrite map_map.
    rewrite (map_combine_vals
               (fun r v => get_cell i (set_cell i v r)) (fun v => v));
      [apply map_id | | exact Hlen].
    intros r v Hin. apply get_set_cell_same.
    rewrite (Hrect r Hin). now apply index_of_lt with (c := c).
  - rewrite (index_of_app_new _ _ E). f_equal. rewrite map_map.
    rewrite (map_combine_vals
               (fun r v => get_cell (List.length (columns df)) (r ++ [v]))
               (fun v => v));
      [apply map_id | | exact Hlen].
    intros r v Hin. rewrite <- (Hrect r Hin). apply get_cell_app_new.
Qed.

(** [df[c'] = vals] leaves every other column as it was. *)
Lemma get_set_other (c c' : string) (vals : list cell) (df : DataFrame) :
  rectangular df = true -> List.length vals = len df -> c <> c' ->
  get_column c (set_column c' vals df) = get_column c df.
Proof.
  intros Hrect Hlen Hne. rewrite rectangular_spec in Hrect.
  unfold set_column, get_column.
  destruct (index_of c' (columns df)) as [j|] eqn:E'; simpl.
  - destruct (index_of c (columns df)) as [i|] eqn:E; [|reflexivity].
    f_equal. rewrite map_map.
    apply (map_combine_rows (fun r v => get_cell i (set_cell j v r)));
      [|exact Hlen].
    intros r v _. apply get_set_cell_other.
    intros ->. apply Hne. eapply index_of_inj; eassumption.
  - rewrite (index_of_app_other _ _ _ Hne).
    destruct (index_of c (columns df)) as [i|] eqn:E; [|reflexivity].
    f_equal. rewrite map_map.
    apply (map_combine_rows (fun r v => get_cell i (r ++ [v])));
      [|exact Hlen].
    intros r v Hin. apply get_cell_app.
    rewrite (Hrect r Hin). now apply index_of_lt with (c := c).
Qed.

Lemma set_column_rectangular (c : string) (vals : list cell) (df : DataFrame) :
  rectangular df = true -> rectangular (set_column c vals df) = true.
Proof.
  intros Hrect. rewrite rectangular_spec in *. unfold set_column.
  destruct (index_of c (columns df)); simpl; intros r Hr;
    apply in_map_iff in Hr as ([r0 v] & <- & Hin);
    apply in_combine_l in Hin; simpl.
  - rewrite set_cell_length. now apply Hrect.
  - rewrite !length_app. simpl. now rewrite (Hrect r0 Hin).
Qed.

Lemma has_column_set_same (c : string) (vals : list cell) (df : DataFrame) :
  has_column c (set_column c vals df) = true.
Proof.
  unfold set_column, has_column.
  destruct (index_of c (columns df)) as [i|] eqn:E; simpl.
  - apply (has_column_index c df). eauto.
  - rewrite existsb_app. simpl. now rewrite String.eqb_refl, orb_true_r.
Qed.

Lemma columns_set_present (c : string) (vals : list cell) (df : DataFrame) :
  has_column c df = true -> columns (set_column c vals df) = columns df.
Proof.
  intros H. apply has_column_index in H as [i H].
  unfold set_column. now rewrite H.
Qed.

End Frame.

(** ** The steps keep the frame rectangular *)

Module Shape.
Import Frame.

Lemma select_length {A B : Type} (mask : list bool) (l1 : list A) (l2 : list B) :
  List.length l1 = List.length l2 ->
  List.length (select mask l1) = List.length (select mask l2).
Proof.
  revert l1 l2. induction mask as [|b mask IH]; intros [|x l1] [|y l2] H;
    simpl in *; try reflexivity; try discriminate.
  destruct b; simpl; [f_equal|]; apply IH; lia.
Qed.

Lemma rename_rectangular (df : DataFrame) :
  rectangular df = true -> rectangular (rename_columns df) = true.
Proof.
  rewrite !rectangular_spec. unfold rename_columns, normalize_columns. simpl.
  intros H r Hr. rewrite length_map. now apply H.
Qed.

Lemma prune_rectangular (df : DataFrame) :
  rectangular df = true -> rectangular (prune df) = true.
Proof.
  rewrite !rectangular_spec. unfold prune, drop_columns. simpl.
  intros H r Hr. apply in_map_iff in Hr as (r0 & <- & Hin).
  apply select_length. now apply H.
Qed.

Lemma keep_first_in (seen l : list (list cell)) (r : list cell) :
  In r (keep_first seen l) -> In r l.
Proof.
  revert seen. induction l as [|x l IH]; intros seen; simpl; [trivial|].
  destruct (existsb (row_eqb x) seen); simpl.
  - intros H. right. eapply IH, H.
  - intros [->|H]; [now left | right; eapply IH, H].
Qed.

Lemma drop_duplicates_rectangular (df : DataFrame) :
  rectangular df = true -> rectangular (drop_duplicates df) = true.
Proof.
  unfold drop_duplicates. destruct (empty df); [trivial|].
  rewrite !rectangular_spec. simpl. intros H r Hr.
  apply H. eapply keep_first_in, Hr.
Qed.

Lemma clean_currency_rectangular (c : string) (df df' : DataFrame) :
  rectangular df = true -> clean_currency c df = Ok df' ->
  rectangular df' = true.
Proof.
  unfold clean_currency. intros Hrect H. inv_ok H; subst; [|assumption].
  now apply set_column_rectangular.
Qed.

Lemma coerce_column_rectangular (df df' : DataFrame) (c : string) :
  rectangular df = true -> coerce_column df c = Ok df' ->
  rectangular df' = true.
Proof.
  unfold coerce_column. intros Hrect H. inv_ok H; subst; [|assumption].
  now apply set_column_rectangular.
Qed.

Lemma coerce_numeric_rectangular (df df' : DataFrame) :
  rectangular df = true -> coerce_numeric df = Ok df' ->
  rectangular df' = true.
Proof.
  unfold coerce_numeric. revert df.
  induction numeric_columns as [|c l IH]; simpl; intros df Hrect H.
  - now injection H as <-.
  - apply bind_ok in H as (d & Hd & H).
    eapply IH; [|exact H]. eapply coerce_column_rectangular; eassumption.
Qed.

Lemma add_days_booked_rectangular (df df' : DataFrame) :
  rectangular df = true -> add_days_booked df = Ok df' ->
  rectangular df' = true.
Proof.
  unfold add_days_booked. intros Hrect H. inv_ok H; subst; [|assumption].
  now apply set_column_rectangular.
Qed.

Lemma add_is_superhost_rectangular (df df' : DataFrame) :
  rectangular df = true -> add_is_superhost df = Ok df' ->
  rectangular df' = true.
Proof.
  unfold add_is_superhost. intros Hrect H. inv_ok H; subst; [|assumption].
  now apply set_column_rectangular.
Qed.

(** What a successful cleaning went through. *)
Lemma clean_inv (raw df : DataFrame) :
  clean raw = Ok df ->
  exists d1 d2 d3 d4,
    clean_currency "price"
      (drop_duplicates (prune (rename_columns raw))) = Ok d1
    /\ clean_currency "service_fee" d1 = Ok d2
    /\ coerce_numeric d2 = Ok d3
    /\ add_days_booked d3 = Ok d4
    /\ add_is_superhost d4 = Ok df.
Proof.
  unfold clean. intros H.
  apply bind_ok in H as (d1 & H1 & H). apply bind_ok in H as (d2 & H2 & H).
  apply bind_ok in H as (d3 & H3 & H). apply bind_ok in H as (d4 & H4 & H).
  exists d1, d2, d3, d4. repeat split; assumption.
Qed.

Lemma clean_rectangular (raw df : DataFrame) :
  rectangular raw = true -> clean raw = Ok df -> rectangular df = true.
Proof.
  intros Hrect H.
  apply clean_inv in H as (d1 & d2 & d3 & d4 & H1 & H2 & H3 & H4 & H5).
  eapply add_is_superhost_rectangular; [|exact H5].
  eapply add_days_booked_rectangular; [|exact H4].
  eapply coerce_numeric_rectangular; [|exact H3].
  eapply clean_currency_rectangular; [|exact H2].
  eapply clean_currency_rectangular; [|exact H1].
  now apply drop_duplicates_rectangular, prune_rectangular,
    rename_rectangular.
Qed.

End Shape.

(** ** Numeric coercion (lines 100-110) *)

Module Coerce.
Import Frame Shape.

(** A parsed literal is a number or the missing value, never a string. *)
Lemma parse_not_str (s : string) (v : cell) :
  PyFloat.parse s = Some v -> Cell.is_str v = false.
Proof.
  unfold PyFloat.parse.
  destruct (PyFloat.sign (PyStr.strip s)) as [neg body].
  destruct (String.eqb (PyStr.lower body) "nan").
  - now intros [= <-].
  - destruct (String.eqb (PyStr.lower body) "inf"
              || String.eqb (PyStr.lower body) "infinity").
    + now intros [= <-].
    + destruct (PyFloat.unsigned_literal body); [|discriminate].
      now intros [= <-].
Qed.

Lemma to_numeric_cell_not_str (x : cell) :
  Cell.is_str (to_numeric_cell x) = false.
Proof.
  destruct x as [|n|s]; simpl; try reflexivity.
  unfold numeric_literal. destruct (PyStr.mem "_" s); [reflexivity|].
  destruct (PyFloat.parse s) as [v|] eqn:E; [|reflexivity].
  eapply parse_not_str, E.
Qed.

Lemma coerce_column_spec (df : DataFrame) (c : string) :
  rectangular df = true ->
  exists df',
    coerce_column df c = Ok df'
    /\ columns df' = columns df
    /\ forall c' vals,
         get_column c' df = Ok vals ->
         get_column c' df'
         = Ok (if String.eqb c' c then to_numeric vals else vals).
Proof.
  intros Hrect. unfold coerce_column.
  destruct (has_column c df) eqn:Hc.
  - destruct (has_column_get _ _ Hc) as [vals0 Hget]. rewrite Hget. simpl.
    eexists. split; [reflexivity|]. split; [now apply columns_set_present|].
    assert (List.length (to_numeric vals0) = len df) as Hlen
      by (unfold to_numeric; col_length).
    intros c' vals Hget'. destruct (String.eqb c' c) eqn:E.
    + apply String.eqb_eq in E. subst c'.
      rewrite get_set_same by assumption. congruence.
    + apply String.eqb_neq in E. now rewrite get_set_other.
  - exists df. split; [reflexivity|]. split; [reflexivity|].
    intros c' vals Hget'. destruct (String.eqb c' c) eqn:E; [|assumption].
    apply String.eqb_eq in E. subst c'.
    rewrite (no_column_get _ _ Hc) in Hget'. discriminate.
Qed.

Lemma coerce_each_spec (l : list string) :
  NoDup l ->
  forall df, rectangular df = true ->
  exists df',
    for_each coerce_column l df = Ok df'
    /\ columns df' = columns df
    /\ forall c vals,
         get_column c df = Ok vals ->
         get_column c df'
         = Ok (if existsb (String.eqb c) l then to_numeric vals else vals).
Proof.
  induction 1 as [|a l Hnotin Hnodup IH]; intros df Hrect.
  - exists df. repeat split; trivial.
  - destruct (coerce_column_spec df a Hrect) as (d1 & H1 & Hc1 & Hg1).
    assert (rectangular d1 = true) as Hrect1
      by (eapply coerce_column_rectangular; eassumption).
    destruct (IH d1 Hrect1) as (df' & H2 & Hc2 & Hg2).
    exists df'. simpl. rewrite H1. simpl.
    split; [exact H2|]. split; [congruence|].
    intros c vals Hget. rewrite (Hg2 _ _ (Hg1 _ _ Hget)). f_equal.
    destruct (String.eqb c a) eqn:E; simpl; [|reflexivity].
    apply String.eqb_eq in E. subst c.
    destruct (existsb (String.eqb a) l) eqn:Ex; [|reflexivity].
    apply existsb_exists in Ex as (x & Hin & Hx).
    apply String.eqb_eq in Hx. subst x. contradiction.
Qed.

Lemma numeric_columns_nodup : NoDup numeric_columns.
Proof.
  unfold numeric_columns.
  repeat (constructor; [simpl; intuition discriminate|]). constructor.
Qed.

Lemma coerce_numeric_spec (df : DataFrame) :
  rectangular df = true ->
  exists df',
    coerce_numeric df = Ok df'
    /\ columns df' = columns df
    /\ forall c vals,
         get_column c df = Ok vals ->
         get_column c df'
         = Ok (if existsb (String.eqb c) numeric_columns
               then map to_numeric_cell vals else vals).
Proof. apply coerce_each_spec, numeric_columns_nodup. Qed.



End Coerce.

(** ** The derived column [days_booked] (lines 120-121) *)

Module DaysBooked.
Import Frame Shape Coerce.

Lemma mapM_ok {A B : Type} (f : A -> result B) (l : list A) :
  (forall a, In a l -> exists b, f a = Ok b) ->
  exists l', mapM f l = Ok l'.
Proof.
  induction l as [|a l IH]; intros H; simpl; [eauto|].
  destruct (H a (or_introl eq_refl)) as [b ->]. simpl.
  destruct IH as [l' ->]; [intros x Hx; apply H; now right|].
  simpl. eauto.
Qed.




End DaysBooked.

(** ** The host label (lines 124-127 and 264-266) *)

Module HostCategory.
Import Frame Shape.

Lemma to_lower_t (c : ascii) :
  PyStr.to_lower c = "t"%char <-> c = "t"%char \/ c = "T"%char.
Proof.
  split.
  - destruct c as [[] [] [] [] [] [] [] []]; vm_compute; intros H;
      try discriminate H; auto.
  - intros [->| ->]; reflexivity.
Qed.

(** The token test holds for the strings "t" and "T" and for nothing else. *)
Lemma is_t_spec (x : cell) : is_t x = true <-> x = Str "t" \/ x = Str "T".
Proof.
  destruct x as [|n|s]; simpl.
  - split; [discriminate | intros [H|H]; discriminate].
  - split; [discriminate | intros [H|H]; discriminate].
  - rewrite String.eqb_eq. destruct s as [|c [|d s]]; simpl.
    + split; [discriminate | intros [H|H]; discriminate].
    + split.
      * intros [= H]. apply to_lower_t in H as [->| ->]; auto.
      * intros [[= ->]|[= ->]]; reflexivity.
    + split; [discriminate | intros [H|H]; discriminate].
Qed.

Lemma add_is_superhost_spec (df df' : DataFrame) :
  rectangular df = true ->
  add_is_superhost df = Ok df' ->
  has_column "host_is_superhost" df = true ->
  exists flags,
    get_column "host_is_superhost" df' = Ok flags
    /\ get_column "is_superhost" df' = Ok (map superhost_label flags).
Proof.
  intros Hrect H Hc. unfold add_is_superhost in H. rewrite Hc in H.
  apply bind_ok in H as (flags & Hget & H). injection H as <-.
  assert (List.length (map superhost_label flags) = len df) as Hlen
    by col_length.
  exists flags. split.
  - rewrite get_set_other; [assumption.. | discriminate].
  - now apply get_set_same.
Qed.

(** C2. The label is derived twice into the column [is_superhost]: the
    cleaning derives it from [host_is_superhost], and step 13 assigns the
    same column again from [host_identity_verified]. So in every exported
    frame [is_superhost] is the image of [host_identity_verified] under the
    second labelling, whatever [host_is_superhost] holds: "Verified Host"
    where the cell is the string "t" or "T", "Non-Verified Host" for any
    other cell, the missing value included. *)
Theorem is_superhost_is_overwritten (raw out : DataFrame) :
  well_formed (rename_columns raw) = true ->
  run raw = Ok out ->
  exists df verified,
    clean raw = Ok df
    /\ (has_column "host_is_superhost" df = true ->
        exists flags,
          get_column "host_is_superhost" df = Ok flags
          /\ get_column "is_superhost" df = Ok (map superhost_label flags))
    /\ out = set_column "is_superhost" (map verified_label verified) df
    /\ get_column "host_identity_verified" out = Ok verified
    /\ get_column "is_superhost" out = Ok (map verified_label verified)
    /\ (forall x, x = Str "t" \/ x = Str "T" ->
                  verified_label x = Str "Verified Host")
    /\ (forall x, x <> Str "t" -> x <> Str "T" ->
                  verified_label x = Str "Non-Verified Host").
Proof.
  intros Hwf Hrun. apply well_formed_rectangular in Hwf.
  assert (rectangular raw = true) as Hraw.
  { rewrite rectangular_spec in *. unfold rename_columns in Hwf.
    simpl in Hwf. unfold normalize_columns in Hwf.
    intros r Hr. rewrite (Hwf r Hr). apply length_map. }
  apply run_inv in Hrun as (df & Hclean & _ & _ & _ & _ & Hcat & _).
  pose proof (clean_rectangular _ _ Hraw Hclean) as Hrect.
  unfold add_host_category in Hcat.
  apply bind_ok in Hcat as (verified & Hget & Hout). injection Hout as <-.
  assert (List.length (map verified_label verified) = len df) as Hlen
    by col_length.
  exists df, verified. repeat apply conj.
  - exact Hclean.
  - intros Hc.
    apply clean_inv in Hclean as (d1 & d2 & d3 & d4 & H1 & H2 & H3 & H4 & H5).
    assert (rectangular d4 = true) as Hrect4.
    { eapply add_days_booked_rectangular; [|exact H4].
      eapply coerce_numeric_rectangular; [|exact H3].
      eapply clean_currency_rectangular; [|exact H2].
      eapply clean_currency_rectangular; [|exact H1].
      now apply drop_duplicates_rectangular, prune_rectangular,
        rename_rectangular. }
    apply (add_is_superhost_spec d4 df Hrect4 H5).
    unfold add_is_superhost in H5.
    destruct (has_column "host_is_superhost" d4) eqn:E; [reflexivity|].
    injection H5 as ->. congruence.
  - reflexivity.
  - rewrite get_set_other; [assumption.. | discriminate].
  - now apply get_set_same.
  - intros x Hx. apply is_t_spec in Hx. unfold verified_label.
    now rewrite Hx.
  - intros x H1 H2. unfold verified_label.
    destruct (is_t x) eqn:E; [|reflexivity].
    apply is_t_spec in E as [E|E]; contradiction.
Qed.

(** The charted example: the flag is "t", the exported label is
    "Verified Host". *)
Lemma is_superhost_is_overwritten_witness :
  exists df verified,
    clean Samples.spec_example_charted = Ok df
    /\ (has_column "host_is_superhost" df = true ->
        exists flags,
          get_column "host_is_superhost" df = Ok flags
          /\ get_column "is_superhost" df = Ok (map superhost_label flags))
    /\ Samples.spec_example_exported
       = set_column "is_superhost" (map verified_label verified) df
    /\ get_column "host_identity_verified" Samples.spec_example_exported
       = Ok verified
    /\ get_column "is_superhost" Samples.spec_example_exported
       = Ok (map verified_label verified)
    /\ (forall x, x = Str "t" \/ x = Str "T" ->
                  verified_label x = Str "Verified Host")
    /\ (forall x, x <> Str "t" -> x <> Str "T" ->
                  verified_label x = Str "Non-Verified Host").
Proof.
  apply (is_superhost_is_overwritten Samples.spec_example_charted
           Samples.spec_example_exported).
  - vm_compute; reflexivity.
  - vm_compute; reflexivity.
Defined.

End HostCategory.

(** ** Missing columns (lines 148-151, 220-221, 264-266) *)

Module MissingColumn.
Import Frame.

Lemma has_column_in (c : string) (df : DataFrame) :
  has_column c df = true <-> In c (columns df).
Proof.
  unfold has_column. rewrite existsb_exists. split.
  - intros (x & Hin & Hx). apply String.eqb_eq in Hx. now subst.
  - intros H. exists c. split; [assumption | apply String.eqb_refl].
Qed.

Lemma has_column_set_inv (c c' : string) (vals : list cell) (df : DataFrame) :
  has_column c (set_column c' vals df) = true -> c <> c' ->
  has_column c df = true.
Proof.
  rewrite !has_column_in. unfold set_column.
  destruct (index_of c' (columns df)); simpl; [trivial|].
  intros H Hne. apply in_app_or in H as [H|[H|[]]]; [assumption | congruence].
Qed.

Lemma select_in {A : Type} (mask : list bool) (l : list A) (x : A) :
  In x (select mask l) -> In x l.
Proof.
  revert l. induction mask as [|b mask IH]; intros [|y l]; simpl; try tauto.
  destruct b; simpl; [intros [H|H]; auto | auto].
Qed.

Lemma has_column_prune (c : string) (df : DataFrame) :
  has_column c (prune df) = true -> has_column c df = true.
Proof.
  rewrite !has_column_in. unfold prune, drop_columns. simpl.
  apply select_in.
Qed.

Lemma columns_drop_duplicates (df : DataFrame) :
  columns (drop_duplicates df) = columns df.
Proof. unfold drop_duplicates. now destruct (empty df). Qed.

Lemma columns_clean_currency (c : string) (df df' : DataFrame) :
  clean_currency c df = Ok df' -> columns df' = columns df.
Proof.
  unfold clean_currency. intros H. inv_ok H; subst; [|reflexivity].
  now apply columns_set_present.
Qed.

Lemma columns_coerce_numeric (df df' : DataFrame) :
  coerce_numeric df = Ok df' -> columns df' = columns df.
Proof.
  unfold coerce_numeric. revert df.
  induction numeric_columns as [|c l IH]; simpl; intros df H.
  - now injection H as <-.
  - apply bind_ok in H as (d & Hd & H). rewrite (IH _ H).
    unfold coerce_column in Hd. inv_ok Hd; subst; [|reflexivity].
    now apply columns_set_present.
Qed.

(** A column of the cleaned frame other than the two derived ones was a
    column of the renamed input. *)
Lemma clean_has_column (raw df : DataFrame) (c : string) :
  clean raw = Ok df ->
  c <> "days_booked" -> c <> "is_superhost" ->
  has_column c df = true -> has_column c (rename_columns raw) = true.
Proof.
  intros H Hd Hs Hc.
  apply Shape.clean_inv in H as (d1 & d2 & d3 & d4 & H1 & H2 & H3 & H4 & H5).
  assert (has_column c d4 = true) as Hc4.
  { unfold add_is_superhost in H5. inv_ok H5; subst; [|assumption].
    eapply has_column_set_inv; eassumption. }
  assert (has_column c d3 = true) as Hc3.
  { unfold add_days_booked in H4. inv_ok H4; subst; [|assumption].
    eapply has_column_set_inv; eassumption. }
  apply has_column_prune. unfold has_column in *.
  rewrite <- (columns_drop_duplicates (prune (rename_columns raw))).
  rewrite <- (columns_clean_currency _ _ _ H1).
  rewrite <- (columns_clean_currency _ _ _ H2).
  now rewrite <- (columns_coerce_numeric _ _ H3).
Qed.

(** No frame without the column [host_identity_verified] is exported. *)
Lemma export_needs_verified (raw out : DataFrame) :
  run raw = Ok out ->
  has_column "host_identity_verified" (rename_columns raw) = true.
Proof.
  intros H. apply run_inv in H as (df & Hclean & _ & _ & _ & _ & Hcat & _).
  apply (clean_has_column raw df); [assumption | discriminate.. |].
  unfold add_host_category in Hcat.
  apply bind_ok in Hcat as (vals & Hget & _).
  destruct (has_column "host_identity_verified" df) eqn:E; [reflexivity|].
  rewrite (no_column_get _ _ E) in Hget. discriminate.
Qed.

(** C1 fails on the code. A frame without [host_identity_verified] stops the
    run at step 13 with a KeyError; a frame with a neighbourhood group and no
    price stops it at the grouped mean; a frame without [review_rate_number]
    stops it at the box plot of line 220. Each of these frames is cleaned
    without an error, so it is the unguarded read that aborts the run. *)
Theorem missing_column_aborts_run :
  is_ok (clean Samples.no_verified_column) = true
  /\ run Samples.no_verified_column = Err (KeyError "host_identity_verified")
  /\ is_ok (clean Samples.no_price_column) = true
  /\ run Samples.no_price_column = Err (KeyError "price")
  /\ is_ok (clean Samples.no_review_rate_column) = true
  /\ run Samples.no_review_rate_column = Err (ValueError "review_rate_number").
Proof. repeat apply conj; reflexivity. Qed.

End MissingColumn.

(** ** The end-to-end example of the spec *)

Module EndToEnd.

(** C3 fails on the code. The cleaning turns the example row into price 100,
    service fee 5, 65 days booked and the label "Superhost"; the run then
    aborts at the unguarded box plot, so nothing is exported. In a frame that
    has every column the later steps read, the first three values are
    exported and the label is overwritten from [host_identity_verified]:
    "Verified Host", not "Superhost"; the exported label follows
    [host_identity_verified] in every row, whatever [host_is_superhost]
    holds. *)
Theorem spec_example_run :
  (exists df,
      clean Samples.spec_example = Ok df
      /\ get_column "price" df = Ok [Num (Fin 100)]
      /\ get_column "service_fee" df = Ok [Num (Fin 5)]
      /\ get_column "days_booked" df = Ok [Num (Fin 65)]
      /\ get_column "is_superhost" df = Ok [Str "Superhost"])
  /\ run Samples.spec_example = Err (ValueError "review_rate_number")
  /\ run Samples.spec_example_charted = Ok Samples.spec_example_exported
  /\ nth 0 (rows Samples.spec_example_charted) []
     = [Str "$100.00"; Str "$5"; Num (Fin 300); Str "t";
        Num (Fin 4); Num (Fin 10); Num (Fin (3 # 2)); Str "t"]
  /\ columns Samples.spec_example_exported
     = ["price"; "service_fee"; "availability_365"; "host_is_superhost";
        "review_rate_number"; "number_of_reviews"; "reviews_per_month";
        "host_identity_verified"; "days_booked"; "is_superhost"]
  /\ nth 0 (rows Samples.spec_example_exported) []
     = [Num (Fin 100); Num (Fin 5); Num (Fin 300); Str "t";
        Num (Fin 4); Num (Fin 10); Num (Fin (3 # 2)); Str "t";
        Num (Fin 65); Str "Verified Host"]
  /\ get_column "host_is_superhost" Samples.spec_example_exported
     = Ok [Str "t"; Str "f"; Str "f"; Str "t"]
  /\ get_column "is_superhost" Samples.spec_example_exported
     = Ok [Str "Verified Host"; Str "Non-Verified Host";
           Str "Verified Host"; Str "Non-Verified Host"].
Proof.
  split; [|repeat apply conj].
  - eexists. split; [vm_compute; reflexivity|]. repeat apply conj; reflexivity.
  - reflexivity.
  - vm_compute; reflexivity.
  - reflexivity.
  - reflexivity.
  - reflexivity.
  - reflexivity.
  - reflexivity.
Qed.

End EndToEnd.

(** ** The order of numbers and the equality of cells *)

Module Order.

Lemma leb_refl (x : number) : Number.leb x x = true.
Proof. destruct x; simpl; try reflexivity. apply Qle_bool_iff, Qle_refl. Qed.

Lemma leb_total (x y : number) :
  Number.leb x y = true \/ Number.leb y x = true.
Proof.
  destruct x as [a| |], y as [b| |]; simpl; auto.
  rewrite !Qle_bool_iff. destruct (Qlt_le_dec a b) as [H|H]; [left|right].
  - now apply Qlt_le_weak.
  - exact H.
Qed.

Lemma leb_trans (x y z : number) :
  Number.leb x y = true -> Number.leb y z = true -> Number.leb x z = true.
Proof.
  destruct x as [a| |], y as [b| |], z as [c| |]; simpl; auto;
    try discriminate.
  rewrite !Qle_bool_iff. apply Qle_trans.
Qed.

Lemma leb_antisym (x y : number) :
  Number.leb x y = true -> Number.leb y x = true -> Number.eqb x y = true.
Proof.
  destruct x as [a| |], y as [b| |]; simpl; auto; try discriminate.
  rewrite !Qle_bool_iff, Qeq_bool_iff. apply Qle_antisym.
Qed.

Lemma number_eqb_refl (x : number) : Number.eqb x x = true.
Proof. destruct x; simpl; try reflexivity. apply Qeq_bool_refl. Qed.

Lemma cell_eqb_refl (x : cell) : Cell.eqb x x = true.
Proof.
  destruct x; simpl; [reflexivity | apply number_eqb_refl
                      | apply String.eqb_refl].
Qed.

End Order.

(** ** From the input to the frame that step 7 parses *)

Module Upstream.
Import Frame.

(** A column that is not dropped is read from the pruned frame as from the
    frame itself. *)
Lemma select_column (f : string -> bool) (c : string) (labels : list string) :
  f c = true ->
  forall i, index_of c labels = Some i ->
  exists i',
    index_of c (select (map f labels) labels) = Some i'
    /\ forall r, List.length r = List.length labels ->
                 get_cell i' (select (map f labels) r) = get_cell i r.
Proof.
  intros Hf. induction labels as [|l ls IH]; simpl; intros i Hi;
    [discriminate|].
  destruct (String.eqb c l) eqn:E.
  - apply String.eqb_eq in E. subst l. injection Hi as <-. rewrite Hf.
    exists 0. simpl. rewrite String.eqb_refl. split; [reflexivity|].
    intros [|x r] Hr; [discriminate | reflexivity].
  - destruct (index_of c ls) as [j|]; [|discriminate]. injection Hi as <-.
    destruct (IH j eq_refl) as (j' & Hj' & Hget).
    destruct (f l).
    + exists (S j'). simpl. rewrite E, Hj'. split; [reflexivity|].
      intros [|x r] Hr; [discriminate|]. simpl in *.
      unfold get_cell in *. simpl. apply Hget. lia.
    + exists j'. split; [exact Hj'|].
      intros [|x r] Hr; [discriminate|]. simpl in *.
      unfold get_cell in *. simpl. apply Hget. lia.
Qed.

Lemma get_column_prune (c : string) (df : DataFrame) (vals : list cell) :
  rectangular df = true ->
  existsb (String.eqb c) columns_to_drop = false ->
  get_column c df = Ok vals ->
  get_column c (prune df) = Ok vals.
Proof.
  intros Hrect Hc Hget. rewrite rectangular_spec in Hrect.
  unfold prune, drop_columns.
  set (names := filter (fun c0 => has_column c0 df) columns_to_drop).
  set (f := fun c0 => negb (existsb (String.eqb c0) names)).
  assert (f c = true) as Hf.
  { unfold f. destruct (existsb (String.eqb c) names) eqn:E; [|reflexivity].
    apply existsb_exists in E as (x & Hin & Hx).
    unfold names in Hin. apply filter_In in Hin as [Hin _].
    assert (existsb (String.eqb c) columns_to_drop = true)
      by (apply existsb_exists; eauto).
    congruence. }
  unfold get_column in *.
  destruct (index_of c (columns df)) as [i|] eqn:Hi; [|discriminate].
  injection Hget as <-.
  destruct (select_column f c (columns df) Hf i Hi) as (i' & Hi' & Hcell).
  simpl. rewrite Hi'. f_equal. rewrite map_map.
  apply map_ext_in. intros r Hr. apply Hcell. now apply Hrect.
Qed.

Lemma row_eqb_refl (r : list cell) : row_eqb r r = true.
Proof.
  induction r as [|x r IH]; simpl; [reflexivity|].
  now rewrite Order.cell_eqb_refl, IH.
Qed.


(** Every row has an equal row among the rows that are kept. *)
Lemma keep_first_covers (l seen : list (list cell)) (r : list cell) :
  In r l ->
  existsb (row_eqb r) seen = true
  \/ exists r', In r' (keep_first seen l) /\ row_eqb r r' = true.
Proof.
  revert seen. induction l as [|a l IH]; intros seen Hin; [contradiction|].
  simpl. destruct Hin as [->|Hin].
  - destruct (existsb (row_eqb r) seen) eqn:E; [now left|].
    right. exists r. split; [now left | apply row_eqb_refl].
  - destruct (existsb (row_eqb a) seen) eqn:E.
    + apply IH, Hin.
    + destruct (IH (a :: seen) Hin) as [H|(r' & Hr' & Heq)].
      * simpl in H. apply orb_true_iff in H as [H|H]; [|now left].
        right. exists a. split; [now left | exact H].
      * right. exists r'. split; [now right | exact Heq].
Qed.



(** The rows that are kept are rows of the frame. *)
Lemma drop_duplicates_incl (c : string) (df : DataFrame) (vals : list cell) :
  get_column c df = Ok vals ->
  exists vals',
    get_column c (drop_duplicates df) = Ok vals' /\ incl vals' vals.
Proof.
  intros Hget. unfold drop_duplicates.
  destruct (empty df); [exists vals; split; [assumption | apply incl_refl]|].
  unfold get_column in *. simpl.
  destruct (index_of c (columns df)) as [i|]; [|discriminate].
  injection Hget as <-. eexists. split; [reflexivity|].
  intros x Hx. apply in_map_iff in Hx as (r & <- & Hr).
  apply in_map. eapply Shape.keep_first_in, Hr.
Qed.

Lemma clean_currency_other (c c0 : string) (d d1 : DataFrame) :
  rectangular d = true -> clean_currency c0 d = Ok d1 -> c <> c0 ->
  get_column c d1 = get_column c d.
Proof.
  intros Hrect H Hne. unfold clean_currency in H. inv_ok H; subst;
    [|reflexivity].
  apply get_set_other; [assumption | | assumption].
  unfold clean_currency_column in Ha. inv_ok Ha. col_length.
Qed.

Lemma add_days_booked_other (c : string) (d d1 : DataFrame) :
  rectangular d = true -> add_days_booked d = Ok d1 -> c <> "days_booked" ->
  get_column c d1 = get_column c d.
Proof.
  intros Hrect H Hne. unfold add_days_booked in H. inv_ok H; subst;
    [|reflexivity].
  apply get_set_other; [assumption | | assumption]. col_length.
Qed.

Lemma add_is_superhost_other (c : string) (d d1 : DataFrame) :
  rectangular d = true -> add_is_superhost d = Ok d1 -> c <> "is_superhost" ->
  get_column c d1 = get_column c d.
Proof.
  intros Hrect H Hne. unfold add_is_superhost in H. inv_ok H; subst;
    [|reflexivity].
  apply get_set_other; [assumption | | assumption]. col_length.
Qed.

(** The labels that the cleaning drops, parses or assigns. *)
Lemma cleaning_keeps_column (raw df : DataFrame) (c : string)
      (vals : list cell) :
  rectangular (rename_columns raw) = true ->
  existsb (String.eqb c)
    (columns_to_drop ++ ["price"; "service_fee"] ++ numeric_columns
     ++ ["days_booked"; "is_superhost"])%list = false ->
  clean raw = Ok df ->
  get_column c (rename_columns raw) = Ok vals ->
  exists vals', get_column c df = Ok vals' /\ incl vals' vals.
Proof.
  intros Hrect Hc Hclean Hget.
  rewrite !existsb_app in Hc.
  apply orb_false_iff in Hc as [Hdrop Hc].
  apply orb_false_iff in Hc as [Hcur Hc].
  apply orb_false_iff in Hc as [Hnum Hder].
  simpl in Hcur, Hder. rewrite !orb_false_r in Hcur, Hder.
  apply orb_false_iff in Hcur as [Hp Hs].
  apply orb_false_iff in Hder as [Hd Hi].
  apply String.eqb_neq in Hp, Hs, Hd, Hi.
  apply Shape.clean_inv in Hclean
    as (d1 & d2 & d3 & d4 & H1 & H2 & H3 & H4 & H5).
  set (d0 := drop_duplicates (prune (rename_columns raw))) in *.
  assert (rectangular d0 = true) as R0
    by now apply Shape.drop_duplicates_rectangular, Shape.prune_rectangular.
  pose proof (Shape.clean_currency_rectangular _ _ _ R0 H1) as R1.
  pose proof (Shape.clean_currency_rectangular _ _ _ R1 H2) as R2.
  pose proof (Shape.coerce_numeric_rectangular _ _ R2 H3) as R3.
  pose proof (Shape.add_days_booked_rectangular _ _ R3 H4) as R4.
  destruct (drop_duplicates_incl c (prune (rename_columns raw)) vals)
    as (vals' & Hget0 & Hincl);
    [now apply get_column_prune|].
  fold d0 in Hget0. exists vals'. split; [|exact Hincl].
  rewrite (add_is_superhost_other c d4 df R4 H5 Hi).
  rewrite (add_days_booked_other c d3 d4 R3 H4 Hd).
  destruct (Coerce.coerce_numeric_spec d2 R2) as (d3' & H3' & _ & Hspec).
  rewrite H3 in H3'. injection H3' as <-.
  assert (get_column c d2 = Ok vals') as Hget2.
  { rewrite (clean_currency_other c "service_fee" d1 d2 R1 H2 Hs).
    now rewrite (clean_currency_other c "price" d0 d1 R0 H1 Hp). }
  rewrite (Hspec c vals' Hget2). now rewrite Hnum.
Qed.

End Upstream.

(** ** The arg-max over the strict policy (lines 139-145) *)

Module StrictRoom.

Lemma select_none {A : Type} (mask : list bool) (l : list A) :
  forallb negb mask = true -> select mask l = [].
Proof.
  revert l. induction mask as [|b mask IH]; intros [|x l] H; simpl in *;
    try reflexivity.
  apply andb_true_iff in H as [Hb H]. destruct b; [discriminate|].
  now apply IH.
Qed.

Lemma no_strict_mask (policy : list cell) :
  (forall s, In (Str s) policy -> PyStr.lower s <> "strict") ->
  forallb negb
    (map (Cell.eqb (Str "strict"))
         (map (fun x => match x with
                        | Str s => Str (PyStr.lower s)
                        | _ => NaN
                        end) policy)) = true.
Proof.
  induction policy as [|x policy IH]; intros H; cbn [map forallb];
    [reflexivity|].
  rewrite IH by (intros s Hs; apply H; now right).
  rewrite andb_true_r. destruct x as [|n|s]; try reflexivity.
  cbn [Cell.eqb]. destruct (String.eqb "strict" (PyStr.lower s)) eqn:E;
    [|reflexivity].
  apply String.eqb_eq in E. exfalso. apply (H s); [now left | congruence].
Qed.

Lemma strict_room_empty (df : DataFrame) (policy : list cell) :
  has_column "room_type" df = true ->
  get_column "cancellation_policy" df = Ok policy ->
  (forall s, In (Str s) policy -> PyStr.lower s <> "strict") ->
  strict_room df = Err AttributeError
  \/ strict_room df
     = Err (ValueError "attempt to get argmax of an empty sequence").
Proof.
  intros Hroom Hget Hno. unfold strict_room. rewrite Hget. simpl.
  unfold series_str_lower. destruct (has_str_accessor policy); [|now left].
  right. simpl.
  apply has_column_index in Hroom as [i Hi].
  unfold get_column, filter_rows. simpl. rewrite Hi. simpl.
  now rewrite (select_none _ _ (no_strict_mask _ Hno)).
Qed.

Lemma strict_room_aborts (raw df : DataFrame) (policy : list cell) :
  clean raw = Ok df ->
  has_column "room_type" df = true ->
  get_column "cancellation_policy" df = Ok policy ->
  (forall s, In (Str s) policy -> PyStr.lower s <> "strict") ->
  exists e, strict_room df = Err e
            /\ report_strict_room df = Err e
            /\ run raw = Err e.
Proof.
  intros Hclean Hroom Hget Hno.
  assert (exists e, strict_room df = Err e) as [e He]
    by (destruct (strict_room_empty df policy Hroom Hget Hno) as [H|H];
        eauto).
  exists e. split; [exact He|].
  assert (has_column "cancellation_policy" df = true) as Hpol.
  { destruct (has_column "cancellation_policy" df) eqn:E; [reflexivity|].
    rewrite (no_column_get _ _ E) in Hget. discriminate. }
  assert (report_strict_room df = Err e) as Hrep
    by (unfold report_strict_room; now rewrite Hpol, Hroom, He).
  split; [exact Hrep|].
  unfold run. rewrite Hclean. simpl. now rewrite Hrep.
Qed.

(** C10. When the table has the columns [cancellation_policy] and
    [room_type] and no row whose policy is "strict" in any letter case, the
    run aborts and nothing is exported: if the cleaning goes through, the
    look-up of the most frequent room type fails (the arg-max of an empty
    series, or the string accessor on a column without strings) and its
    error ends the run; the step is not skipped as it is for a missing
    column. *)
Theorem no_strict_row_aborts (raw : DataFrame) (policy : list cell) :
  well_formed (rename_columns raw) = true ->
  has_column "room_type" (rename_columns raw) = true ->
  get_column "cancellation_policy" (rename_columns raw) = Ok policy ->
  (forall s, In (Str s) policy -> PyStr.lower s <> "strict") ->
  (exists e, run raw = Err e)
  /\ (forall df, clean raw = Ok df ->
                 exists e, strict_room df = Err e
                           /\ report_strict_room df = Err e
                           /\ run raw = Err e).
Proof.
  intros Hwf Hroom Hget Hno. apply Frame.well_formed_rectangular in Hwf.
  assert (forall df, clean raw = Ok df ->
                     exists e, strict_room df = Err e
                               /\ report_strict_room df = Err e
                               /\ run raw = Err e) as Hclean.
  { intros df Hdf.
    destruct (has_column_get _ _ Hroom) as [rooms Hrooms].
    destruct (Upstream.cleaning_keeps_column raw df "room_type" rooms)
      as (rooms' & Hrooms' & _); [assumption | reflexivity | assumption..|].
    destruct (Upstream.cleaning_keeps_column raw df "cancellation_policy"
                policy)
      as (policy' & Hpolicy' & Hincl);
      [assumption | reflexivity | assumption..|].
    apply (strict_room_aborts raw df policy'); try assumption.
    - destruct (has_column "room_type" df) eqn:E; [reflexivity|].
      rewrite (no_column_get _ _ E) in Hrooms'. discriminate.
    - intros s Hs. apply Hno, Hincl, Hs. }
  split; [|exact Hclean].
  destruct (clean raw) as [df|e] eqn:E.
  - destruct (Hclean df eq_refl) as (e & _ & _ & He). eauto.
  - exists e. unfold run. now rewrite E.
Qed.

(** The sample without a strict policy: the run stops at the arg-max. *)
Lemma no_strict_row_aborts_witness :
  (exists e, run Samples.no_strict_policy = Err e)
  /\ (forall df, clean Samples.no_strict_policy = Ok df ->
                 exists e, strict_room df = Err e
                           /\ report_strict_room df = Err e
                           /\ run Samples.no_strict_policy = Err e).
Proof.
  apply (no_strict_row_aborts Samples.no_strict_policy
           [Str "moderate"; Str "flexible"]).
  - vm_compute; reflexivity.
  - vm_compute; reflexivity.
  - vm_compute; reflexivity.
  - intros s [[= <-]|[[= <-]|[]]]; vm_compute; discriminate.
Defined.

Example no_strict_policy_run :
  run Samples.no_strict_policy
  = Err (ValueError "attempt to get argmax of an empty sequence").
Proof. reflexivity. Qed.

End StrictRoom.

(** ** Currency normalisation (lines 86-97) *)

Module Currency.
Import PyStr PyStrFacts PyFloat Frame.




















End Currency.

(** ** Stable insertion sort *)

Module Sorting.

Section SortBy.

Context {A : Type}.
Variable le : A -> A -> bool.
Variable P : A -> Prop.
Hypothesis le_total : forall a b, P a -> P b -> le a b = true \/ le b a = true.
Hypothesis le_trans :
  forall a b c, P a -> P b -> P c ->
                le a b = true -> le b c = true -> le a c = true.

Let R (a b : A) : Prop := le a b = true.

Lemma insert_by_perm (x : A) (l : list A) :
  Permutation (insert_by le x l) (x :: l).
Proof.
  induction l as [|y l IH]; simpl; [reflexivity|].
  destruct (le x y); [reflexivity|].
  rewrite IH. apply perm_swap.
Qed.

Lemma sort_by_perm (l : list A) : Permutation (sort_by le l) l.
Proof.
  induction l as [|x l IH]; simpl; [reflexivity|].
  unfold sort_by in *. simpl. rewrite insert_by_perm. now constructor.
Qed.

Lemma insert_by_sorted (x : A) (l : list A) :
  P x -> Forall P l -> StronglySorted R l ->
  StronglySorted R (insert_by le x l).
Proof.
  intros Hx Hl Hs. induction l as [|y l IH]; simpl.
  - repeat constructor.
  - apply Forall_cons_iff in Hl as [Hy Hl].
    apply StronglySorted_inv in Hs as [Hs Hy_l].
    destruct (le x y) eqn:E.
    + constructor; [now constructor|].
      constructor; [exact E|].
      rewrite Forall_forall in *. intros z Hz.
      apply (le_trans x y z); auto. now apply Hy_l.
    + constructor; [now apply IH|].
      rewrite Forall_forall in *. intros z Hz.
      apply (Permutation_in _ (insert_by_perm x l)) in Hz as [<-|Hz].
      * destruct (le_total x y Hx Hy) as [H|H]; [congruence | exact H].
      * now apply Hy_l.
Qed.

Lemma sort_by_sorted (l : list A) :
  Forall P l -> StronglySorted R (sort_by le l).
Proof.
  induction l as [|x l IH]; intros Hl; [constructor|].
  apply Forall_cons_iff in Hl as [Hx Hl].
  unfold sort_by in *. simpl. apply insert_by_sorted; auto.
  rewrite Forall_forall in *. intros z Hz. apply Hl.
  exact (Permutation_in _ (sort_by_perm l) Hz).
Qed.

End SortBy.

Lemma firstn_in {A : Type} (n : nat) (l : list A) (x : A) :
  In x (firstn n l) -> In x l.
Proof.
  revert l. induction n as [|n IH]; intros [|y l]; simpl; try tauto.
  intros [H|H]; [now left | right; now apply IH].
Qed.

Section Sorted.

Context {A : Type}.
Variable R : A -> A -> Prop.

Lemma firstn_sorted (n : nat) (l : list A) :
  StronglySorted R l -> StronglySorted R (firstn n l).
Proof.
  intros H. revert n. induction H as [|x l Hs IH Hx]; intros [|n]; simpl;
    try constructor; [apply IH|].
  rewrite Forall_forall in *. intros z Hz. apply Hx.
  eapply firstn_in, Hz.
Qed.

Lemma sorted_nth (l : list A) (d : A) :
  StronglySorted R l ->
  forall i j, i < j -> j < List.length l -> R (nth i l d) (nth j l d).
Proof.
  induction 1 as [|x l Hs IH Hx]; intros i j Hij Hj; simpl in *; [lia|].
  destruct j as [|j]; [lia|]. destruct i as [|i].
  - rewrite Forall_forall in Hx. apply Hx. apply nth_In. lia.
  - apply IH; lia.
Qed.

Lemma sorted_weaken (Q : A -> A -> Prop) (l : list A) :
  (forall a b, In a l -> In b l -> R a b -> Q a b) ->
  StronglySorted R l -> StronglySorted Q l.
Proof.
  intros HQ H. induction H as [|x l Hs IH Hx]; constructor.
  - apply IH. intros a b Ha Hb. apply HQ; now right.
  - rewrite Forall_forall in *. intros z Hz.
    apply HQ; [now left | now right | now apply Hx].
Qed.

Lemma sorted_app (l1 l2 : list A) :
  StronglySorted R l1 -> StronglySorted R l2 ->
  (forall a b, In a l1 -> In b l2 -> R a b) ->
  StronglySorted R (l1 ++ l2).
Proof.
  intros H1 H2 H. induction H1 as [|x l Hs IH Hx]; simpl; [exact H2|].
  constructor.
  - apply IH. intros a b Ha Hb. apply H; [now right | exact Hb].
  - apply Forall_app. split; [exact Hx|].
    rewrite Forall_forall. intros z Hz. apply H; [now left | exact Hz].
Qed.

End Sorted.

Lemma sorted_rev {A : Type} (R : A -> A -> Prop) (l : list A) :
  StronglySorted R l -> StronglySorted (fun a b => R b a) (rev l).
Proof.
  induction 1 as [|x l Hs IH Hx]; simpl; [constructor|].
  apply sorted_app; [exact IH | repeat constructor |].
  intros a b Ha [<-|[]]. rewrite Forall_forall in Hx.
  apply Hx. now apply in_rev.
Qed.

(** Two lists in strict order with the same elements are the same list. *)
Lemma sorted_unique {A : Type} (R : A -> A -> Prop) (l1 l2 : list A) :
  (forall a b, R a b -> R b a -> False) ->
  StronglySorted R l1 -> StronglySorted R l2 -> Permutation l1 l2 ->
  l1 = l2.
Proof.
  intros Hasym H1. revert l2.
  induction H1 as [|x l1 Hs1 IH Hx]; intros l2 H2 Hp.
  - apply Permutation_nil in Hp. now subst.
  - destruct l2 as [|y l2];
      [apply Permutation_sym, Permutation_nil in Hp; discriminate|].
    apply StronglySorted_inv in H2 as [Hs2 Hy].
    rewrite Forall_forall in Hx, Hy.
    assert (x = y) as ->.
    { assert (In x (y :: l2)) as Hin1
        by (apply (Permutation_in _ Hp); now left).
      assert (In y (x :: l1)) as Hin2
        by (apply (Permutation_in _ (Permutation_sym Hp)); now left).
      destruct Hin1 as [<-|Hin1]; [reflexivity|].
      destruct Hin2 as [<-|Hin2]; [reflexivity|].
      exfalso. apply (Hasym x y); auto. }
    f_equal. apply IH; [exact Hs2|].
    eapply Permutation_cons_inv, Hp.
Qed.



End Sorting.

(** ** The ten most and the ten least expensive neighbourhoods *)

Module TopTen.
Import Sorting Order.

Lemma price_leb_total (a b : cell * cell) :
  has_mean a -> has_mean b -> price_leb a b = true \/ price_leb b a = true.
Proof.
  intros [x Hx] [y Hy]. unfold price_leb. rewrite Hx, Hy. apply leb_total.
Qed.

Lemma price_leb_trans (a b c : cell * cell) :
  has_mean a -> has_mean b -> has_mean c ->
  price_leb a b = true -> price_leb b c = true -> price_leb a c = true.
Proof.
  intros [x Hx] [y Hy] [z Hz]. unfold price_leb. rewrite Hx, Hy, Hz.
  apply leb_trans.
Qed.

Lemma price_leb_mean_le (a b : cell * cell) :
  has_mean a -> has_mean b -> price_leb a b = true -> mean_le a b.
Proof.
  intros [x Hx] [y Hy]. unfold price_leb, mean_le. now rewrite Hx, Hy.
Qed.

Lemma mean_le_refl (a : cell * cell) : has_mean a -> mean_le a a.
Proof. intros [x Hx]. unfold mean_le. rewrite Hx. apply leb_refl. Qed.

Lemma mean_le_trans (a b c : cell * cell) :
  mean_le a b -> mean_le b c -> mean_le a c.
Proof.
  unfold mean_le.
  destruct (snd a) as [|x|], (snd b) as [|y|], (snd c) as [|z|];
    try contradiction.
  apply leb_trans.
Qed.

Lemma mean_lt_not_le (a b : cell * cell) : mean_lt a b -> mean_le b a -> False.
Proof.
  unfold mean_lt, mean_le, Number.ltb.
  destruct (snd a) as [|x|], (snd b) as [|y|]; try contradiction.
  intros H1 H2. rewrite H2 in H1. discriminate.
Qed.

Lemma mean_lt_asym (a b : cell * cell) : mean_lt a b -> mean_lt b a -> False.
Proof.
  unfold mean_lt, Number.ltb.
  destruct (snd a) as [|x|], (snd b) as [|y|]; try contradiction.
  destruct (leb_total x y) as [H|H]; rewrite H; simpl; intros; discriminate.
Qed.

Lemma sort_asc_sorted (l : list (cell * cell)) :
  Forall has_mean l -> StronglySorted mean_le (sort_by price_leb l).
Proof.
  intros Hl.
  assert (Forall has_mean (sort_by price_leb l)) as Hs.
  { rewrite Forall_forall in *. intros z Hz. apply Hl.
    exact (Permutation_in _ (sort_by_perm price_leb l) Hz). }
  rewrite Forall_forall in Hs.
  eapply sorted_weaken;
    [|exact (sort_by_sorted price_leb has_mean price_leb_total
               price_leb_trans l Hl)].
  intros a b Ha Hb. apply price_leb_mean_le; auto.
Qed.

Lemma sort_desc_sorted (l : list (cell * cell)) :
  Forall has_mean l ->
  StronglySorted mean_ge (sort_by (fun a b => price_leb b a) l).
Proof.
  intros Hl. set (ge := fun a b => price_leb b a).
  assert (Forall has_mean (sort_by ge l)) as Hs.
  { rewrite Forall_forall in *. intros z Hz. apply Hl.
    exact (Permutation_in _ (sort_by_perm ge l) Hz). }
  rewrite Forall_forall in Hs.
  eapply sorted_weaken;
    [|apply (sort_by_sorted ge has_mean); [| |exact Hl]].
  - intros a b Ha Hb H. apply price_leb_mean_le; auto.
  - intros a b Ha Hb. unfold ge.
    destruct (price_leb_total a b Ha Hb); auto.
  - intros a b c Ha Hb Hc H1 H2. unfold ge in *.
    now apply (price_leb_trans c b a).
Qed.

(** With ten valid rows or more, the rows without a mean play no part. *)
Lemma firstn_valid (n : nat) (l1 l2 : list (cell * cell)) :
  n <= List.length l1 -> firstn n (l1 ++ l2) = firstn n l1.
Proof.
  intros H. rewrite firstn_app.
  replace (n - List.length l1) with 0 by lia. simpl. apply List.app_nil_r.
Qed.

Lemma nth_firstn_lt {A : Type} (n i : nat) (l : list A) (d : A) :
  i < n -> nth i (firstn n l) d = nth i l d.
Proof.
  revert i l. induction n as [|n IH]; intros i [|x l] H; simpl; try lia;
    try reflexivity.
  destruct i as [|i]; [reflexivity|]. apply IH. lia.
Qed.

Lemma keys_inj (l : list (cell * cell)) (r1 r2 : cell * cell) :
  NoDup (map fst l) -> In r1 l -> In r2 l -> fst r1 = fst r2 -> r1 = r2.
Proof.
  induction l as [|x l IH]; simpl; intros Hn H1 H2 Hk; [contradiction|].
  apply NoDup_cons_iff in Hn as [Hx Hn].
  destruct H1 as [->|H1], H2 as [->|H2]; auto.
  - exfalso. apply Hx. rewrite Hk. now apply in_map.
  - exfalso. apply Hx. rewrite <- Hk. now apply in_map.
Qed.

(** Every element of a sorted list of ten is in order with the tenth. *)
Lemma before_tenth (R : cell * cell -> cell * cell -> Prop)
      (l : list (cell * cell)) (d r : cell * cell) :
  (forall a, In a l -> R a a) ->
  StronglySorted R l -> List.length l = 10 -> In r l -> R r (nth 9 l d).
Proof.
  intros Hrefl Hs Hlen Hin.
  destruct (In_nth _ _ d Hin) as (i & Hi & <-).
  destruct (Nat.eq_dec i 9) as [->|Hne].
  - apply Hrefl, nth_In. lia.
  - apply sorted_nth; [assumption | lia | lia].
Qed.

(** *** What the grouped mean returns *)

Lemma distinct_not_seen (l seen : list cell) (x : cell) :
  In x (distinct seen l) -> existsb (Cell.eqb x) seen = false.
Proof.
  revert seen. induction l as [|a l IH]; intros seen; simpl; [contradiction|].
  destruct (Cell.is_nan a || existsb (Cell.eqb a) seen) eqn:E; [apply IH|].
  apply orb_false_iff in E as [_ E].
  intros [<-|H]; [exact E|].
  apply IH in H. simpl in H. now apply orb_false_iff in H.
Qed.

Lemma distinct_nodup (l seen : list cell) : NoDup (distinct seen l).
Proof.
  revert seen. induction l as [|a l IH]; intros seen; simpl; [constructor|].
  destruct (Cell.is_nan a || existsb (Cell.eqb a) seen); [apply IH|].
  constructor; [|apply IH].
  intros H. apply distinct_not_seen in H. simpl in H.
  now rewrite cell_eqb_refl in H.
Qed.

Lemma mapM_keyed {K X V : Type} (g : K -> result X) (h : X -> V)
      (l : list K) (l' : list (K * V)) :
  mapM (fun k => x <- g k ;; Ok (k, h x)) l = Ok l' ->
  map fst l' = l /\ Forall (fun r => exists x, snd r = h x) l'.
Proof.
  revert l'. induction l as [|k l IH]; simpl; intros l' H.
  - injection H as <-. split; [reflexivity | constructor].
  - apply bind_ok in H as (r & Hr & H).
    apply bind_ok in Hr as (x & _ & Hr). injection Hr as <-.
    apply bind_ok in H as (rs & Hrs & H). injection H as <-.
    destruct (IH _ Hrs) as [Hk Hm]. simpl. split; [now f_equal|].
    constructor; [now exists x | exact Hm].
Qed.

Lemma sum_not_str (xs : list number) : Cell.is_str (sum xs) = false.
Proof.
  unfold sum. generalize (Num (Fin 0)) (eq_refl : Cell.is_str (Num (Fin 0)) = false).
  induction xs as [|x xs IH]; intros acc Hacc; simpl; [exact Hacc|].
  apply IH. destruct acc as [|a|]; try reflexivity; try discriminate.
  destruct a, x; reflexivity.
Qed.

Lemma mean_not_str (xs : list number) : Cell.is_str (mean xs) = false.
Proof.
  destruct xs as [|x xs]; [reflexivity|]. unfold mean.
  pose proof (sum_not_str (x :: xs)) as H.
  destruct (sum (x :: xs)); [reflexivity | reflexivity | discriminate].
Qed.

Lemma groupby_mean_facts (key val : string) (df : DataFrame)
      (avg : list (cell * cell)) :
  groupby_mean key val df = Ok avg ->
  NoDup (map fst avg) /\ Forall (fun r => Cell.is_str (snd r) = false) avg.
Proof.
  unfold groupby_mean. intros H.
  apply bind_ok in H as (keys & _ & H). apply bind_ok in H as (vals & _ & H).
  apply mapM_keyed in H as [Hk Hm]. split.
  - rewrite Hk.
    eapply Permutation_NoDup;
      [apply Permutation_sym, sort_by_perm | apply distinct_nodup].
  - rewrite Forall_forall in *. intros r Hr.
    destruct (Hm r Hr) as [xs ->]. apply mean_not_str.
Qed.

Lemma valid_has_mean (avg : list (cell * cell)) :
  Forall (fun r => Cell.is_str (snd r) = false) avg ->
  Forall has_mean (valid avg).
Proof.
  rewrite !Forall_forall. intros H r Hr. unfold valid in Hr.
  apply filter_In in Hr as [Hin Hv]. specialize (H r Hin).
  unfold has_mean. destruct (snd r) as [|x|]; [discriminate | eauto
                                              | discriminate].
Qed.

(** *** Distinct means put the two sorted lists in reverse order *)

Lemma sorted_strict {A : Type} (R Q : A -> A -> Prop) (l : list A) :
  NoDup l ->
  (forall a b, In a l -> In b l -> a <> b -> R a b -> Q a b) ->
  StronglySorted R l -> StronglySorted Q l.
Proof.
  intros Hn HQ H. induction H as [|x l Hs IH Hx]; constructor.
  - apply NoDup_cons_iff in Hn as [_ Hn]. apply IH; [exact Hn|].
    intros a b Ha Hb. apply HQ; now right.
  - apply NoDup_cons_iff in Hn as [Hnx _].
    rewrite Forall_forall in *. intros z Hz.
    apply HQ; [now left | now right | congruence | now apply Hx].
Qed.

Lemma mean_le_lt (l : list (cell * cell)) (a b : cell * cell) :
  distinct_means l -> In a l -> In b l -> a <> b ->
  mean_le a b -> mean_lt a b.
Proof.
  intros Hd Ha Hb Hne. unfold mean_le, mean_lt, Number.ltb.
  destruct (snd a) as [|x|] eqn:Ea, (snd b) as [|y|] eqn:Eb;
    try contradiction.
  intros Hle. destruct (Number.leb y x) eqn:E; [|reflexivity].
  exfalso. apply Hne, Hd; [assumption..|].
  rewrite Ea, Eb. simpl. now apply leb_antisym.
Qed.

Lemma distinct_means_perm (l l' : list (cell * cell)) :
  Permutation l l' -> distinct_means l -> distinct_means l'.
Proof.
  intros Hp Hd r1 r2 H1 H2.
  apply Hd; eapply Permutation_in; try eassumption;
    now apply Permutation_sym.
Qed.

Lemma sort_asc_is_rev_desc (l : list (cell * cell)) :
  Forall has_mean l -> NoDup l -> distinct_means l ->
  sort_by price_leb l = rev (sort_by (fun a b => price_leb b a) l).
Proof.
  intros Hm Hn Hd.
  set (asc := sort_by price_leb l).
  set (desc := sort_by (fun a b => price_leb b a) l).
  assert (Permutation asc l) as Pa by apply sort_by_perm.
  assert (Permutation desc l) as Pd by apply sort_by_perm.
  apply (sorted_unique mean_lt).
  - exact mean_lt_asym.
  - apply (sorted_strict mean_le);
      [eapply Permutation_NoDup; [apply Permutation_sym, Pa | exact Hn]
      | | now apply sort_asc_sorted].
    intros a b. apply mean_le_lt.
    eapply distinct_means_perm; [apply Permutation_sym, Pa | exact Hd].
  - apply (sorted_rev (fun a b => mean_lt b a)).
    apply (sorted_strict mean_ge);
      [eapply Permutation_NoDup; [apply Permutation_sym, Pd | exact Hn]
      | | now apply sort_desc_sorted].
    intros a b Ha Hb Hne. unfold mean_ge.
    apply (mean_le_lt desc); auto.
    eapply distinct_means_perm; [apply Permutation_sym, Pd | exact Hd].
  - rewrite Pa, <- Permutation_rev. now apply Permutation_sym.
Qed.

(** With twenty distinct means or more, the tenth cheapest mean is below the
    tenth most expensive one. *)
Lemma distinct_means_gap (l : list (cell * cell)) (d : cell * cell) :
  20 <= List.length l ->
  Forall has_mean l -> NoDup l -> distinct_means l ->
  mean_lt (nth 9 (sort_by price_leb l) d)
          (nth 9 (sort_by (fun a b => price_leb b a) l) d).
Proof.
  intros Hlen Hm Hn Hd.
  rewrite (sort_asc_is_rev_desc l Hm Hn Hd).
  set (desc := sort_by (fun a b => price_leb b a) l).
  assert (Permutation desc l) as Pd by apply sort_by_perm.
  assert (List.length desc = List.length l) as Hl
    by now apply Permutation_length.
  rewrite rev_nth by lia.
  assert (StronglySorted (fun a b => mean_lt b a) desc) as Hs.
  { apply (sorted_strict mean_ge);
      [eapply Permutation_NoDup; [apply Permutation_sym, Pd | exact Hn]
      | | now apply sort_desc_sorted].
    intros a b Ha Hb Hne. unfold mean_ge.
    apply (mean_le_lt desc); auto.
    eapply distinct_means_perm; [apply Permutation_sym, Pd | exact Hd]. }
  apply (sorted_nth _ desc d Hs); lia.
Qed.

(** *** The two lists *)

Lemma gap_disjoint (avg top cheap : list (cell * cell)) (d : cell * cell) :
  NoDup (map fst avg) ->
  incl top avg -> incl cheap avg ->
  Forall has_mean top -> Forall has_mean cheap ->
  List.length top = 10 -> List.length cheap = 10 ->
  StronglySorted mean_ge top -> StronglySorted mean_le cheap ->
  mean_lt (nth 9 cheap d) (nth 9 top d) ->
  disjoint_keys top cheap.
Proof.
  intros Hn Ht Hc Hmt Hmc Hlt Hlc Hst Hsc Hgap r1 r2 H1 H2 Hk.
  assert (r1 = r2) as <- by (apply (keys_inj avg); auto).
  rewrite Forall_forall in Hmt, Hmc.
  assert (mean_ge r1 (nth 9 top d)) as Hge.
  { apply before_tenth; auto. intros a Ha. apply mean_le_refl. auto. }
  assert (mean_le r1 (nth 9 cheap d)) as Hle.
  { apply before_tenth; auto. intros a Ha. apply mean_le_refl. auto. }
  apply (mean_lt_not_le _ _ Hgap).
  eapply mean_le_trans; [exact Hge | exact Hle].
Qed.

(** C5, amended. With twenty neighbourhoods or more that have a mean price,
    each list has ten rows, the most expensive ones in decreasing order of
    mean price and the cheapest ones in increasing order. The two lists have
    no neighbourhood in common when the tenth cheapest mean is below the
    tenth most expensive one, and so whenever no two neighbourhoods have the
    same mean price. *)
Theorem top_and_bottom_ten (df : DataFrame) (avg : list (cell * cell)) :
  avg_price_neighborhood df = Ok avg ->
  20 <= List.length (valid avg) ->
  let top := nlargest 10 avg in
  let cheap := nsmallest 10 avg in
  top_10_expensive df = Ok top
  /\ top_10_cheap df = Ok cheap
  /\ List.length top = 10
  /\ List.length cheap = 10
  /\ StronglySorted mean_ge top
  /\ StronglySorted mean_le cheap
  /\ (mean_lt (nth 9 cheap (NaN, NaN)) (nth 9 top (NaN, NaN)) ->
      disjoint_keys top cheap)
  /\ (distinct_means (valid avg) -> disjoint_keys top cheap).
Proof.
  intros Havg Hlen top cheap.
  destruct (groupby_mean_facts _ _ _ _ Havg) as [Hkeys Hstr].
  pose proof (valid_has_mean avg Hstr) as Hm.
  set (desc := sort_by (fun a b => price_leb b a) (valid avg)).
  set (asc := sort_by price_leb (valid avg)).
  assert (Permutation desc (valid avg)) as Pd by apply sort_by_perm.
  assert (Permutation asc (valid avg)) as Pa by apply sort_by_perm.
  assert (List.length desc = List.length (valid avg)) as Ld
    by now apply Permutation_length.
  assert (List.length asc = List.length (valid avg)) as La
    by now apply Permutation_length.
  assert (top = firstn 10 desc) as Htop
    by (unfold top, nlargest; apply firstn_valid; fold desc; lia).
  assert (cheap = firstn 10 asc) as Hcheap
    by (unfold cheap, nsmallest; apply firstn_valid; fold asc; lia).
  assert (incl top avg) as Itop.
  { intros r Hr. rewrite Htop in Hr. apply firstn_in in Hr.
    apply (Permutation_in _ Pd) in Hr. unfold valid in Hr.
    now apply filter_In in Hr. }
  assert (incl cheap avg) as Icheap.
  { intros r Hr. rewrite Hcheap in Hr. apply firstn_in in Hr.
    apply (Permutation_in _ Pa) in Hr. unfold valid in Hr.
    now apply filter_In in Hr. }
  assert (Forall has_mean top) as Mtop.
  { rewrite Forall_forall in *. intros r Hr. apply Hm.
    rewrite Htop in Hr. apply firstn_in in Hr.
    exact (Permutation_in _ Pd Hr). }
  assert (Forall has_mean cheap) as Mcheap.
  { rewrite Forall_forall in *. intros r Hr. apply Hm.
    rewrite Hcheap in Hr. apply firstn_in in Hr.
    exact (Permutation_in _ Pa Hr). }
  assert (List.length top = 10) as Ltop
    by (rewrite Htop, length_firstn; lia).
  assert (List.length cheap = 10) as Lcheap
    by (rewrite Hcheap, length_firstn; lia).
  assert (StronglySorted mean_ge top) as Stop
    by (rewrite Htop; apply firstn_sorted; now apply sort_desc_sorted).
  assert (StronglySorted mean_le cheap) as Scheap
    by (rewrite Hcheap; apply firstn_sorted; now apply sort_asc_sorted).
  assert (mean_lt (nth 9 cheap (NaN, NaN)) (nth 9 top (NaN, NaN)) ->
          disjoint_keys top cheap) as Hgap
    by now apply (gap_disjoint avg).
  repeat apply conj; try assumption.
  - unfold top_10_expensive. now rewrite Havg.
  - unfold top_10_cheap. now rewrite Havg.
  - intros Hd. apply Hgap. rewrite Htop, Hcheap.
    rewrite !nth_firstn_lt by lia.
    apply distinct_means_gap; [assumption | assumption | | assumption].
    unfold valid. apply NoDup_filter. eapply NoDup_map_inv, Hkeys.
Qed.

(** Twenty neighbourhoods at 100 to 119: the ten cheapest and the ten most
    expensive have no neighbourhood in common. *)
Lemma top_and_bottom_ten_witness :
  StronglySorted mean_ge (nlargest 10 Samples.rising_avg)
  /\ StronglySorted mean_le (nsmallest 10 Samples.rising_avg)
  /\ disjoint_keys (nlargest 10 Samples.rising_avg)
                   (nsmallest 10 Samples.rising_avg).
Proof.
  destruct (top_and_bottom_ten (rename_columns Samples.rising_prices)
              Samples.rising_avg)
    as (_ & _ & _ & _ & Hd & Ha & Hgap & _).
  - vm_compute; reflexivity.
  - vm_compute; lia.
  - split; [exact Hd|]. split; [exact Ha|].
    apply Hgap. vm_compute; reflexivity.
Defined.

(** C5 as stated fails: twenty neighbourhoods with the same mean price give
    the same ten rows as the most and as the least expensive. *)
Lemma flat_prices_counterexample :
  exists df avg,
    clean Samples.flat_prices = Ok df
    /\ avg_price_neighborhood df = Ok avg
    /\ List.length (valid avg) = 20
    /\ top_10_expensive df = Ok (nlargest 10 avg)
    /\ top_10_cheap df = Ok (nsmallest 10 avg)
    /\ nlargest 10 avg = nsmallest 10 avg
    /\ ~ disjoint_keys (nlargest 10 avg) (nsmallest 10 avg).
Proof.
  eexists. eexists.
  split; [vm_compute; reflexivity|].
  split; [vm_compute; reflexivity|].
  split; [vm_compute; reflexivity|].
  split; [vm_compute; reflexivity|].
  split; [vm_compute; reflexivity|].
  split; [vm_compute; reflexivity|].
  intros H.
  apply (H (Str "a", Num (Fin 100)) (Str "a", Num (Fin 100)));
    [vm_compute; now left | vm_compute; now left | reflexivity].
Qed.

End TopTen.

(** ** The frames the pipeline is read for *)

Module Domain.

(** Renaming the labels keeps their number, so the input is rectangular when
    the renamed frame is. *)
Lemma renamed_rectangular (raw : DataFrame) :
  well_formed (rename_columns raw) = true -> rectangular raw = true.
Proof.
  intros H. apply Frame.well_formed_rectangular in H.
  rewrite Frame.rectangular_spec in *. intros r Hr.
  specialize (H r Hr). unfold rename_columns, normalize_columns in H.
  cbn [columns] in H. now rewrite length_map in H.
Qed.

End Domain.

(** ** Equality of cells and rows is an equivalence *)

Module Equal.

Lemma number_eqb_sym (x y : number) : Number.eqb x y = Number.eqb y x.
Proof. destruct x, y; simpl; try reflexivity. apply Qeq_bool_comm. Qed.

Lemma number_eqb_trans (x y z : number) :
  Number.eqb x y = true -> Number.eqb y z = true -> Number.eqb x z = true.
Proof.
  destruct x, y, z; simpl; try discriminate; auto. apply Qeq_bool_trans.
Qed.

Lemma cell_eqb_sym (x y : cell) : Cell.eqb x y = Cell.eqb y x.
Proof.
  destruct x, y; simpl; try reflexivity.
  - apply number_eqb_sym.
  - apply String.eqb_sym.
Qed.

Lemma cell_eqb_trans (x y z : cell) :
  Cell.eqb x y = true -> Cell.eqb y z = true -> Cell.eqb x z = true.
Proof.
  destruct x, y, z; simpl; try discriminate; auto.
  - apply number_eqb_trans.
  - rewrite !String.eqb_eq. congruence.
Qed.

Lemma row_eqb_sym (r1 r2 : list cell) : row_eqb r1 r2 = row_eqb r2 r1.
Proof.
  revert r2. induction r1 as [|x r1 IH]; intros [|y r2]; simpl;
    try reflexivity.
  now rewrite cell_eqb_sym, IH.
Qed.

Lemma row_eqb_trans (r1 r2 r3 : list cell) :
  row_eqb r1 r2 = true -> row_eqb r2 r3 = true -> row_eqb r1 r3 = true.
Proof.
  revert r2 r3.
  induction r1 as [|x r1 IH]; intros [|y r2] [|z r3]; simpl;
    try discriminate; auto.
  intros H1 H2. apply andb_true_iff in H1 as [Hxy H1].
  apply andb_true_iff in H2 as [Hyz H2]. apply andb_true_iff. split.
  - eapply cell_eqb_trans; eassumption.
  - eapply IH; eassumption.
Qed.

End Equal.

(** ** Column pruning (lines 57-59) *)

Module Prune.
Import Frame.

Lemma select_filter {A : Type} (f : A -> bool) (l : list A) :
  select (map f l) l = filter f l.
Proof.
  induction l as [|x l IH]; simpl; [reflexivity|].
  destruct (f x); now rewrite IH.
Qed.

Lemma select_all {A : Type} (mask : list bool) (l : list A) :
  forallb (fun b => b) mask = true -> List.length l <= List.length mask ->
  select mask l = l.
Proof.
  revert l. induction mask as [|b mask IH]; intros [|x l] Hm Hl; simpl in *;
    try reflexivity; try lia.
  apply andb_true_iff in Hm as [-> Hm]. f_equal. apply IH; [assumption | lia].
Qed.

(** On the labels of the frame, dropping the labels that are present is
    dropping the four labels. *)
Lemma present_names (df : DataFrame) (c : string) :
  In c (columns df) ->
  existsb (String.eqb c) (filter (fun c0 => has_column c0 df) columns_to_drop)
  = existsb (String.eqb c) columns_to_drop.
Proof.
  intros Hin.
  induction columns_to_drop as [|d l IH]; simpl; [reflexivity|].
  destruct (has_column d df) eqn:Hd; simpl; [now rewrite IH|].
  destruct (String.eqb c d) eqn:E; [|exact IH].
  apply String.eqb_eq in E. subst d.
  assert (has_column c df = true)
    by now apply MissingColumn.has_column_in.
  congruence.
Qed.

Lemma prune_mask (df : DataFrame) :
  map (fun c => negb (existsb (String.eqb c)
                        (filter (fun c0 => has_column c0 df)
                                columns_to_drop)))
      (columns df)
  = map kept_label (columns df).
Proof.
  apply map_ext_in. intros c Hc. unfold kept_label.
  now rewrite present_names.
Qed.

Lemma prune_columns (df : DataFrame) :
  columns (prune df) = filter kept_label (columns df).
Proof.
  unfold prune, drop_columns. cbn [columns]. rewrite prune_mask.
  apply select_filter.
Qed.

Lemma prune_rows (df : DataFrame) :
  rows (prune df) = map (select (map kept_label (columns df))) (rows df).
Proof. unfold prune, drop_columns. cbn [rows]. now rewrite prune_mask. Qed.

(** X1. Pruning drops the columns labelled host_id, id, country and
    country_code and nothing else: the labels left are the other labels in
    their order, none of the four is a column afterwards, and every other
    column reads as before (a KeyError stays a KeyError). *)
Theorem prune_drops_the_four (df : DataFrame) :
  well_formed df = true ->
  columns (prune df) = filter kept_label (columns df)
  /\ (forall c, In c columns_to_drop -> has_column c (prune df) = false)
  /\ (forall c, ~ In c columns_to_drop ->
                get_column c (prune df) = get_column c df)
  /\ rectangular (prune df) = true.
Proof.
  intros Hwf. apply Frame.well_formed_rectangular in Hwf. revert Hwf.
  intros Hrect. repeat apply conj.
  - apply prune_columns.
  - intros c Hc. destruct (has_column c (prune df)) eqn:E; [|reflexivity].
    apply MissingColumn.has_column_in in E. rewrite prune_columns in E.
    apply filter_In in E as [_ E]. unfold kept_label in E.
    assert (existsb (String.eqb c) columns_to_drop = true) as Hex
      by (apply existsb_exists; exists c; split;
          [assumption | apply String.eqb_refl]).
    rewrite Hex in E. discriminate.
  - intros c Hc.
    assert (existsb (String.eqb c) columns_to_drop = false) as Hk.
    { destruct (existsb (String.eqb c) columns_to_drop) eqn:E;
        [|reflexivity].
      apply existsb_exists in E as (x & Hx & E).
      apply String.eqb_eq in E. subst x. contradiction. }
    destruct (get_column c df) as [vals|e] eqn:Hget.
    + now apply Upstream.get_column_prune.
    + assert (has_column c df = false) as Hno.
      { destruct (has_column c df) eqn:E; [|reflexivity].
        destruct (has_column_get _ _ E) as [v Hv]. congruence. }
      rewrite (no_column_get _ _ Hno) in Hget. rewrite <- Hget.
      apply no_column_get.
      destruct (has_column c (prune df)) eqn:E; [|reflexivity].
      apply MissingColumn.has_column_prune in E. congruence.
  - now apply Shape.prune_rectangular.
Qed.

(** The sample with identifiers keeps its name and its price. *)
Lemma prune_drops_the_four_witness :
  columns (prune (rename_columns Samples.with_identifiers))
  = ["name"; "price"]
  /\ get_column "price" (prune (rename_columns Samples.with_identifiers))
     = Ok [Str "$100"; Str "$80"].
Proof.
  destruct (prune_drops_the_four (rename_columns Samples.with_identifiers))
    as (Hcols & _ & Hget & _).
  - vm_compute; reflexivity.
  - split.
    + rewrite Hcols. vm_compute; reflexivity.
    + rewrite (Hget "price")
        by (vm_compute; intuition discriminate).
      vm_compute; reflexivity.
Defined.

(** X2. A frame that has none of the four labels is left as it is, and so
    pruning a second time changes nothing. *)
Theorem prune_twice_is_once (df : DataFrame) :
  well_formed df = true ->
  ((forall c, In c columns_to_drop -> has_column c df = false) ->
   prune df = df)
  /\ prune (prune df) = prune df.
Proof.
  intros Hwf. apply Frame.well_formed_rectangular in Hwf. revert Hwf.
  intros Hrect.
  assert (forall d, rectangular d = true ->
                    (forall c, In c columns_to_drop ->
                               has_column c d = false) ->
                    prune d = d) as Hid.
  { intros d Hd Hno.
    assert (forallb (fun b => b) (map kept_label (columns d)) = true)
      as Hall.
    { rewrite forallb_forall. intros b Hb.
      apply in_map_iff in Hb as (c & <- & Hc). unfold kept_label.
      destruct (existsb (String.eqb c) columns_to_drop) eqn:E;
        [|reflexivity].
      apply existsb_exists in E as (x & Hx & E).
      apply String.eqb_eq in E. subst x.
      apply MissingColumn.has_column_in in Hc.
      rewrite (Hno c Hx) in Hc. discriminate. }
    destruct d as [cols rs].
    assert (columns (prune (mkDataFrame cols rs)) = cols) as Hc
      by (rewrite prune_columns; simpl; rewrite <- select_filter;
          apply select_all; [exact Hall | rewrite length_map; lia]).
    assert (rows (prune (mkDataFrame cols rs)) = rs) as Hr.
    { rewrite prune_rows. simpl. rewrite <- (map_id rs) at 2.
      apply map_ext_in. intros r Hin. apply select_all; [exact Hall|].
      rewrite rectangular_spec in Hd. rewrite (Hd r Hin), length_map.
      simpl. lia. }
    destruct (prune (mkDataFrame cols rs)) as [cols' rs'].
    simpl in Hc, Hr. now subst. }
  split; [now apply Hid|].
  apply Hid; [now apply Shape.prune_rectangular|].
  intros c Hc. destruct (has_column c (prune df)) eqn:E; [|reflexivity].
  apply MissingColumn.has_column_in in E. rewrite prune_columns in E.
  apply filter_In in E as [_ E]. unfold kept_label in E.
  assert (existsb (String.eqb c) columns_to_drop = true) as Hex
    by (apply existsb_exists; exists c; split;
        [assumption | apply String.eqb_refl]).
  rewrite Hex in E. discriminate.
Qed.

(** The sample with identifiers: once pruned, pruning again is the
    identity. *)
Lemma prune_twice_is_once_witness :
  prune (prune (rename_columns Samples.with_identifiers))
  = prune (rename_columns Samples.with_identifiers).
Proof.
  apply (prune_twice_is_once (rename_columns Samples.with_identifiers)).
  vm_compute; reflexivity.
Defined.

End Prune.

(** ** Duplicate removal (lines 74-78) *)

Module Duplicates.
Import Equal.

Lemma keep_first_fresh (l seen : list (list cell)) (r : list cell) :
  In r (keep_first seen l) -> existsb (row_eqb r) seen = false.
Proof.
  revert seen. induction l as [|a l IH]; intros seen; simpl; [contradiction|].
  destruct (existsb (row_eqb a) seen) eqn:E; [apply IH|].
  intros [<-|H]; [exact E|].
  apply IH in H. simpl in H. now apply orb_false_iff in H.
Qed.

Lemma keep_first_distinct (l seen : list (list cell)) :
  ForallOrdPairs (fun a b => row_eqb a b = false) (keep_first seen l).
Proof.
  revert seen. induction l as [|a l IH]; intros seen; simpl; [constructor|].
  destruct (existsb (row_eqb a) seen); [apply IH|].
  constructor; [|apply IH].
  rewrite Forall_forall. intros b Hb. apply keep_first_fresh in Hb.
  simpl in Hb. apply orb_false_iff in Hb as [Hb _].
  now rewrite row_eqb_sym.
Qed.

Lemma keep_first_select (l seen : list (list cell)) :
  exists mask, keep_first seen l = select mask l.
Proof.
  revert seen. induction l as [|a l IH]; intros seen; simpl.
  - now exists [].
  - destruct (existsb (row_eqb a) seen).
    + destruct (IH seen) as [m ->]. now exists (false :: m).
    + destruct (IH (a :: seen)) as [m ->]. now exists (true :: m).
Qed.

Lemma keep_first_id (l seen : list (list cell)) :
  ForallOrdPairs (fun a b => row_eqb a b = false) l ->
  (forall r, In r l -> existsb (row_eqb r) seen = false) ->
  keep_first seen l = l.
Proof.
  intros H. revert seen. induction H as [|a l Ha Hl IH]; intros seen Hs;
    simpl; [reflexivity|].
  rewrite (Hs a (or_introl eq_refl)). f_equal. apply IH.
  intros r Hr. simpl. rewrite (Hs r (or_intror Hr)), orb_false_r.
  rewrite Forall_forall in Ha. rewrite row_eqb_sym. now apply Ha.
Qed.

(** X3. Duplicate removal keeps the labels and keeps rows of the frame in
    their order; every row of the frame has an equal row among the rows that
    are kept; when the frame has a column, no two rows that are kept are
    equal; and a frame without two equal rows is returned as it is. *)
Theorem drop_duplicates_keeps_one_of_each (df : DataFrame) :
  columns (drop_duplicates df) = columns df
  /\ (exists mask, rows (drop_duplicates df) = select mask (rows df))
  /\ (forall r, In r (rows df) ->
                exists r', In r' (rows (drop_duplicates df))
                           /\ row_eqb r r' = true)
  /\ (columns df <> [] ->
      ForallOrdPairs (fun a b => row_eqb a b = false)
                     (rows (drop_duplicates df)))
  /\ (ForallOrdPairs (fun a b => row_eqb a b = false) (rows df) ->
      drop_duplicates df = df).
Proof.
  unfold drop_duplicates. destruct (empty df) eqn:E; repeat apply conj.
  - reflexivity.
  - exists (map (fun _ => true) (rows df)).
    induction (rows df) as [|r l IH]; simpl; [reflexivity | now f_equal].
  - intros r Hr. exists r. split; [assumption | apply Upstream.row_eqb_refl].
  - intros Hne. unfold empty in E. destruct (columns df); [congruence|].
    destruct (rows df); [constructor | discriminate].
  - reflexivity.
  - reflexivity.
  - apply keep_first_select.
  - intros r Hr. simpl.
    destruct (Upstream.keep_first_covers _ [] r Hr) as [H|H];
      [discriminate | exact H].
  - intros _. apply keep_first_distinct.
  - intros H. destruct df as [cols rs]. simpl in *. f_equal.
    now apply keep_first_id.
Qed.

(** Five rows, the second a copy of the first: four rows are kept, the
    first row once. *)
Lemma drop_duplicates_keeps_one_of_each_witness :
  ForallOrdPairs (fun a b => row_eqb a b = false)
                 (rows (drop_duplicates Samples.repeated_rows))
  /\ rows (drop_duplicates Samples.repeated_rows)
     = rows Samples.repeated_rows_once.
Proof.
  destruct (drop_duplicates_keeps_one_of_each Samples.repeated_rows)
    as (_ & _ & _ & Hd & _).
  split; [apply Hd; discriminate | vm_compute; reflexivity].
Defined.

Lemma keep_first_app (l1 l seen : list (list cell)) :
  keep_first seen (l1 ++ l)
  = (keep_first seen l1
     ++ keep_first (rev (keep_first seen l1) ++ seen) l)%list.
Proof.
  revert seen. induction l1 as [|a l1 IH]; intros seen; simpl; [reflexivity|].
  destruct (existsb (row_eqb a) seen); [apply IH|].
  simpl. rewrite IH. f_equal. f_equal. f_equal.
  now rewrite <- List.app_assoc.
Qed.

(** A row that is equal to an earlier row is passed over. *)
Lemma keep_first_repeated (l1 l2 seen : list (list cell)) (r : list cell) :
  existsb (row_eqb r) l1 = true ->
  keep_first seen (l1 ++ r :: l2) = keep_first seen (l1 ++ l2).
Proof.
  intros Hr. rewrite !keep_first_app. f_equal. simpl.
  apply existsb_exists in Hr as (a & Ha & Hra).
  assert (existsb (row_eqb r) (rev (keep_first seen l1) ++ seen) = true)
    as ->; [|reflexivity].
  rewrite existsb_app. apply orb_true_iff.
  destruct (Upstream.keep_first_covers l1 seen a Ha) as [H|(a' & Ha' & H)].
  - right. apply existsb_exists in H as (x & Hx & H).
    apply existsb_exists. exists x. split; [assumption|].
    eapply row_eqb_trans; eassumption.
  - left. apply existsb_exists. exists a'. split; [now apply in_rev in Ha'|].
    eapply row_eqb_trans; eassumption.
Qed.

Lemma select_row_eqb (mask : list bool) (r a : list cell) :
  row_eqb r a = true -> row_eqb (select mask r) (select mask a) = true.
Proof.
  revert r a. induction mask as [|b mask IH]; intros [|x r] [|y a] H;
    simpl in *; try reflexivity; try discriminate.
  apply andb_true_iff in H as [Hxy H].
  destruct b; simpl; [rewrite Hxy|]; now apply IH.
Qed.

(** X4. A row of the input that is equal to a row before it has no effect:
    as long as pruning leaves a column, the cleaning and the run give the
    same result with the row and without it. *)
Theorem repeated_row_has_no_effect
        (labels : list string) (l1 l2 : list (list cell)) (r : list cell) :
  existsb (row_eqb r) l1 = true ->
  filter kept_label (normalize_columns labels) <> [] ->
  clean (mkDataFrame labels (l1 ++ r :: l2))
  = clean (mkDataFrame labels (l1 ++ l2))
  /\ run (mkDataFrame labels (l1 ++ r :: l2))
     = run (mkDataFrame labels (l1 ++ l2)).
Proof.
  intros Hr Hcols.
  assert (drop_duplicates
            (prune (rename_columns (mkDataFrame labels (l1 ++ r :: l2))))
          = drop_duplicates
              (prune (rename_columns (mkDataFrame labels (l1 ++ l2)))))
    as Heq.
  { set (m := map kept_label (normalize_columns labels)).
    assert (forall rs,
               prune (rename_columns (mkDataFrame labels rs))
               = mkDataFrame (filter kept_label (normalize_columns labels))
                             (map (select m) rs)) as Hp.
    { intros rs.
      pose proof (Prune.prune_columns
                    (rename_columns (mkDataFrame labels rs))) as Hc.
      pose proof (Prune.prune_rows
                    (rename_columns (mkDataFrame labels rs))) as Hrows.
      destruct (prune (rename_columns (mkDataFrame labels rs))).
      simpl in Hc, Hrows. now subst. }
    rewrite !Hp. unfold drop_duplicates, empty. cbn [columns rows].
    destruct (filter kept_label (normalize_columns labels)) as [|c cs];
      [congruence|].
    destruct l1 as [|a l1]; [discriminate|].
    cbn [map app]. f_equal.
    change (select m a :: map (select m) (l1 ++ r :: l2))
      with (map (select m) ((a :: l1) ++ r :: l2)).
    change (select m a :: map (select m) (l1 ++ l2))
      with (map (select m) ((a :: l1) ++ l2)).
    rewrite !map_app. cbn [map].
    apply keep_first_repeated.
    apply existsb_exists in Hr as (x & Hx & Hrx).
    apply existsb_exists. exists (select m x).
    split; [exact (in_map (select m) _ _ Hx) | now apply select_row_eqb]. }
  assert (clean (mkDataFrame labels (l1 ++ r :: l2))
          = clean (mkDataFrame labels (l1 ++ l2))) as Hclean
    by (unfold clean; cbv zeta; now rewrite Heq).
  split; [exact Hclean|]. unfold run. now rewrite Hclean.
Qed.

(** The sample with the copy of its first row and the sample without it
    export the same frame. *)
Lemma repeated_row_has_no_effect_witness :
  run Samples.repeated_rows = run Samples.repeated_rows_once.
Proof.
  apply (repeated_row_has_no_effect
           (columns Samples.repeated_rows)
           [[Str "$80"; Num (Fin 4); Num (Fin 10); Num (Fin 1); Str "t"]]
           [[Str "$90"; Num (Fin 5); Num (Fin 20); Num (Fin 2); NaN];
            [Str "$120"; Num (Fin 3); Num (Fin 5); Num (Fin (1 # 2));
             Str "f"];
            [Str "$60"; Num (Fin 2); Num (Fin 1); NaN; Str "t"]]
           [Str "$80"; Num (Fin 4); Num (Fin 10); Num (Fin 1); Str "t"]).
  - vm_compute; reflexivity.
  - vm_compute; discriminate.
Defined.

End Duplicates.

(** ** The form of a normalised header (lines 42-48) *)

Module HeaderForm.
Import PyStr PyStrFacts Header.





End HeaderForm.

(** ** The currency symbols, wherever they stand (lines 86-91) *)

Module Separators.
Import PyStr.

Lemma strip_currency_app (a b : string) :
  strip_currency (a ++ b) = strip_currency a ++ strip_currency b.
Proof.
  induction a as [|c a IH]; cbn [strip_currency append]; [reflexivity|].
  destruct (Ascii.eqb c "$" || Ascii.eqb c ","); cbn [append];
    now rewrite IH.
Qed.

Lemma strip_currency_clean (s : string) :
  mem "$" (strip_currency s) = false /\ mem "," (strip_currency s) = false.
Proof.
  induction s as [|c s [IH1 IH2]]; cbn [strip_currency mem]; [now split|].
  destruct (Ascii.eqb c "$") eqn:E1; cbn [orb]; [now split|].
  destruct (Ascii.eqb c ",") eqn:E2; cbn [orb]; [now split|].
  cbn [mem]. rewrite IH1, IH2, !orb_false_r. split.
  - now rewrite Ascii.eqb_sym.
  - now rewrite Ascii.eqb_sym.
Qed.

Lemma strip_currency_idem (s : string) :
  strip_currency (strip_currency s) = strip_currency s.
Proof.
  induction s as [|c s IH]; cbn [strip_currency]; [reflexivity|].
  destruct (Ascii.eqb c "$" || Ascii.eqb c ",") eqn:E; [exact IH|].
  cbn [strip_currency]. now rewrite E, IH.
Qed.

(** X6. A dollar sign or a comma is dropped wherever it stands in a cell:
    the cell parses, or fails, as the cell without it ("1,5" reads as 15).
    What is left holds neither symbol, and a cell that is a number or the
    missing value is returned as it is. *)
Theorem currency_symbols_are_ignored (a b : string) :
  clean_currency_cell (Str (a ++ String "$" b))
  = clean_currency_cell (Str (a ++ b))
  /\ clean_currency_cell (Str (a ++ String "," b))
     = clean_currency_cell (Str (a ++ b))
  /\ clean_currency_cell (Str (strip_currency a))
     = clean_currency_cell (Str a)
  /\ mem "$" (strip_currency a) = false
  /\ mem "," (strip_currency a) = false
  /\ (forall x, Cell.is_str x = false -> clean_currency_cell x = Ok x).
Proof.
  unfold clean_currency_cell. cbn [replace_currency].
  repeat apply conj.
  - now rewrite !strip_currency_app.
  - now rewrite !strip_currency_app.
  - now rewrite strip_currency_idem.
  - apply strip_currency_clean.
  - apply strip_currency_clean.
  - intros [|n|s] H; [reflexivity | reflexivity | discriminate].
Qed.

Example decimal_comma_is_dropped :
  clean_currency_cell (Str "1,5") = Ok (Num (Fin 15))
  /\ clean_currency_cell (Str "$1,234.50$") = Ok (Num (Fin (2469 # 2)))
  /\ clean_currency_cell (Str "-$5") = Ok (Num (Fin (-5)))
  /\ clean_currency_cell (Str "$") = Err (ValueError "").
Proof. repeat split. Qed.

End Separators.

(** ** What the parsed columns hold (lines 86-121) *)

Module Parsed.
Import Frame Shape.

Lemma set_get_cell (i : nat) (r : list cell) : set_cell i (get_cell i r) r = r.
Proof.
  unfold get_cell. revert i. induction r as [|x r IH]; intros [|i]; simpl;
    try reflexivity.
  now rewrite IH.
Qed.

(** Assigning to a column the values it holds changes nothing. *)
Lemma set_get_id (c : string) (df : DataFrame) (vals : list cell) :
  get_column c df = Ok vals -> set_column c vals df = df.
Proof.
  unfold get_column, set_column.
  destruct (index_of c (columns df)) as [i|]; [|discriminate].
  intros [= <-]. destruct df as [cols rs]. simpl. f_equal.
  induction rs as [|r rs IH]; simpl; [reflexivity|].
  now rewrite set_get_cell, IH.
Qed.

Lemma astype_float_no_str (x y : cell) :
  astype_float x = Ok y -> Cell.is_str y = false.
Proof.
  destruct x as [|n|s]; simpl; try (now intros [= <-]).
  destruct (PyFloat.parse s) as [v|] eqn:E; [|discriminate].
  intros [= <-]. eapply Coerce.parse_not_str, E.
Qed.

Lemma mapM_astype_no_str (l l' : list cell) :
  mapM astype_float l = Ok l' -> no_str l'.
Proof.
  revert l'. induction l as [|x l IH]; simpl; intros l' H.
  - injection H as <-. constructor.
  - apply bind_ok in H as (y & Hy & H). apply bind_ok in H as (ys & Hys & H).
    injection H as <-. constructor; [eapply astype_float_no_str, Hy|].
    now apply IH.
Qed.


Lemma to_numeric_no_str (l : list cell) : no_str l -> to_numeric l = l.
Proof.
  unfold to_numeric.
  induction 1 as [|x l Hx Hl IH]; cbn [map]; [reflexivity|].
  rewrite IH. destruct x; [reflexivity | reflexivity | discriminate].
Qed.



Lemma for_each_fixed {A : Type} (body : DataFrame -> A -> result DataFrame)
      (l : list A) (d : DataFrame) :
  (forall a, In a l -> body d a = Ok d) -> for_each body l d = Ok d.
Proof.
  induction l as [|a l IH]; intros H; simpl; [reflexivity|].
  rewrite (H a (or_introl eq_refl)). simpl. apply IH.
  intros x Hx. apply H. now right.
Qed.

(** After the coercion none of the five columns holds a string. *)
Lemma coerce_numeric_no_str (df df' : DataFrame) :
  rectangular df = true ->
  coerce_numeric df = Ok df' ->
  forall c vals, In c numeric_columns -> get_column c df' = Ok vals ->
                 no_str vals.
Proof.
  intros Hrect Hco.
  destruct (Coerce.coerce_numeric_spec df Hrect) as (d & Hd & Hcols & Hspec).
  rewrite Hco in Hd. injection Hd as <-.
  intros c vals Hin Hget.
  assert (has_column c df = true) as Hc.
  { destruct (has_column c df') eqn:E.
    - unfold has_column in *. now rewrite <- Hcols.
    - rewrite (no_column_get _ _ E) in Hget. discriminate. }
  destruct (has_column_get _ _ Hc) as [vals0 Hget0].
  rewrite (Hspec c vals0 Hget0) in Hget.
  assert (existsb (String.eqb c) numeric_columns = true) as Hex
    by (apply existsb_exists; exists c; split;
        [assumption | apply String.eqb_refl]).
  rewrite Hex in Hget. injection Hget as <-.
  unfold no_str. rewrite Forall_forall. intros x Hx.
  apply in_map_iff in Hx as (x0 & <- & _).
  apply Coerce.to_numeric_cell_not_str.
Qed.

(** X8. After the numeric coercion none of the five columns holds a string,
    and coercing again changes nothing. *)
Theorem coerce_numeric_gives_numbers (df df' : DataFrame) :
  well_formed df = true ->
  coerce_numeric df = Ok df' ->
  (forall c vals, In c numeric_columns -> get_column c df' = Ok vals ->
                  no_str vals)
  /\ coerce_numeric df' = Ok df'.
Proof.
  intros Hwf. apply Frame.well_formed_rectangular in Hwf. revert Hwf.
  intros Hrect Hco.
  assert (forall c vals, In c numeric_columns -> get_column c df' = Ok vals ->
                         no_str vals) as Hno
    by (intros c vals; now apply (coerce_numeric_no_str df df')).
  split; [exact Hno|].
  apply for_each_fixed. intros c Hin. unfold coerce_column.
  destruct (has_column c df') eqn:E; [|reflexivity].
  destruct (has_column_get _ _ E) as [vals Hget]. rewrite Hget. cbn [bind].
  rewrite (to_numeric_no_str _ (Hno c vals Hin Hget)). f_equal.
  now apply set_get_id.
Qed.

(** The sample with availabilities as text, a number, nothing and a word. *)
Lemma coerce_numeric_gives_numbers_witness :
  get_column "availability_365" Samples.mixed_availability_coerced
  = Ok [Num (Fin 300); Num (Fin 12); NaN; NaN]
  /\ coerce_numeric Samples.mixed_availability_coerced
     = Ok Samples.mixed_availability_coerced.
Proof.
  split; [vm_compute; reflexivity|].
  apply (coerce_numeric_gives_numbers
           (rename_columns Samples.mixed_availability)
           Samples.mixed_availability_coerced).
  - vm_compute; reflexivity.
  - vm_compute; reflexivity.
Defined.




End Parsed.

(** ** Counts of values and their arg-max (lines 134-145, 203) *)

Module Counts.
Import Equal.

Lemma distinct_in (l seen : list cell) (d : cell) :
  In d (distinct seen l) -> In d l /\ Cell.is_nan d = false.
Proof.
  revert seen. induction l as [|a l IH]; intros seen; simpl; [contradiction|].
  destruct (Cell.is_nan a || existsb (Cell.eqb a) seen) eqn:E.
  - intros H. destruct (IH _ H). auto.
  - apply orb_false_iff in E as [E _].
    intros [<-|H]; [auto|]. destruct (IH _ H). auto.
Qed.

Lemma distinct_covers (l seen : list cell) (x : cell) :
  In x l -> Cell.is_nan x = false ->
  existsb (Cell.eqb x) seen = true
  \/ exists d, In d (distinct seen l) /\ Cell.eqb x d = true.
Proof.
  revert seen. induction l as [|a l IH]; intros seen Hin Hx; [contradiction|].
  simpl. destruct Hin as [->|Hin].
  - rewrite Hx. simpl.
    destruct (existsb (Cell.eqb x) seen) eqn:E; [now left|].
    right. exists x. split; [now left | apply Order.cell_eqb_refl].
  - destruct (Cell.is_nan a || existsb (Cell.eqb a) seen) eqn:E.
    + apply IH; assumption.
    + destruct (IH (a :: seen) Hin Hx) as [H|(d & Hd & H)].
      * simpl in H. apply orb_true_iff in H as [H|H]; [|now left].
        right. exists a. split; [now left | exact H].
      * right. exists d. split; [now right | exact H].
Qed.

(** The values that are listed are pairwise different. *)
Lemma distinct_apart (l seen : list cell) :
  ForallOrdPairs (fun a b => Cell.eqb a b = false) (distinct seen l).
Proof.
  revert seen. induction l as [|a l IH]; intros seen; simpl; [constructor|].
  destruct (Cell.is_nan a || existsb (Cell.eqb a) seen); [apply IH|].
  constructor; [|apply IH].
  rewrite Forall_forall. intros b Hb.
  apply TopTen.distinct_not_seen in Hb. simpl in Hb.
  apply orb_false_iff in Hb as [Hb _]. now rewrite cell_eqb_sym.
Qed.

Lemma count_of_eqb (x y : cell) (l : list cell) :
  Cell.eqb x y = true -> count_of x l = count_of y l.
Proof.
  intros H. unfold count_of. f_equal. apply filter_ext. intros z.
  destruct (Cell.eqb x z) eqn:E1, (Cell.eqb y z) eqn:E2; try reflexivity.
  - rewrite cell_eqb_sym in H.
    rewrite (cell_eqb_trans _ _ _ H E1) in E2. discriminate.
  - rewrite (cell_eqb_trans _ _ _ H E2) in E1. discriminate.
Qed.

Lemma count_of_absent (w : cell) (l : list cell) :
  (forall z, In z l -> Cell.eqb w z = false) -> count_of w l = 0.
Proof.
  intros H. unfold count_of. induction l as [|z l IH]; simpl; [reflexivity|].
  rewrite (H z (or_introl eq_refl)). apply IH.
  intros y Hy. apply H. now right.
Qed.

Lemma count_of_present (d : cell) (l : list cell) :
  In d l -> 1 <= count_of d l.
Proof.
  unfold count_of. induction l as [|z l IH]; simpl; [contradiction|].
  intros [->|H].
  - rewrite Order.cell_eqb_refl. simpl. lia.
  - destruct (Cell.eqb d z); simpl; [lia | auto].
Qed.

(** The larger of the entries met so far is an entry and is the largest. *)
Lemma fold_max (rest : list (cell * nat)) (first : cell * nat) :
  let best := fold_left
                (fun best x => if snd best <? snd x then x else best)
                rest first in
  In best (first :: rest)
  /\ forall p, In p (first :: rest) -> snd p <= snd best.
Proof.
  revert first. induction rest as [|x rest IH]; intros first; simpl.
  - split; [now left|]. intros p [<-|[]]. lia.
  - destruct (snd first <? snd x) eqn:E.
    + apply Nat.ltb_lt in E. destruct (IH x) as [Hin Hmax]. split.
      * right. exact Hin.
      * intros p [<-|Hp]; [|now apply Hmax].
        specialize (Hmax x (or_introl eq_refl)). lia.
    + apply Nat.ltb_ge in E. destruct (IH first) as [Hin Hmax]. split.
      * destruct Hin as [Hin|Hin]; [now left | right; now right].
      * intros p [<-|[<-|Hp]].
        -- apply Hmax. now left.
        -- specialize (Hmax first (or_introl eq_refl)). lia.
        -- apply Hmax. now right.
Qed.

Lemma idxmax_largest (counts : list (cell * nat)) (v : cell) :
  idxmax counts = Ok v ->
  exists n, In (v, n) counts /\ forall p, In p counts -> snd p <= n.
Proof.
  destruct counts as [|first rest]; [discriminate|]. simpl.
  intros [= <-]. destruct (fold_max rest first) as [Hin Hmax].
  set (best := fold_left _ rest first) in *.
  exists (snd best). split; [|exact Hmax].
  now rewrite <- surjective_pairing.
Qed.

Lemma map_select {A B : Type} (f : A -> B) (mask : list bool) (l : list A) :
  map f (select mask l) = select mask (map f l).
Proof.
  revert l. induction mask as [|b mask IH]; intros [|x l]; simpl;
    try reflexivity.
  destruct b; simpl; now rewrite IH.
Qed.

Lemma select_true {A B : Type} (f : A -> bool) (p : list A) (r : list B)
      (x : B) :
  In x (select (map f p) r) -> exists y, In y p /\ f y = true.
Proof.
  revert r. induction p as [|y p IH]; intros [|z r]; simpl; try contradiction.
  destruct (f y) eqn:E.
  - intros _. exists y. auto.
  - intros H. destruct (IH _ H) as (y' & Hy' & Hf). exists y'. auto.
Qed.

Lemma strict_mask (policy : list cell) :
  map (Cell.eqb (Str "strict"))
      (map (fun x => match x with
                     | Str s => Str (PyStr.lower s)
                     | _ => NaN
                     end) policy)
  = map is_strict policy.
Proof.
  rewrite map_map. apply map_ext. intros [|n|s]; try reflexivity.
  cbn [Cell.eqb is_strict]. apply String.eqb_sym.
Qed.

(** X10. When some row has a policy that is "strict" in any letter case and
    a room type that is not missing, the look-up goes through and returns a
    room type of such a row that is most frequent among them: no room type
    occurs more often in the strict rows. *)
Theorem strict_room_is_most_frequent
        (df : DataFrame) (policy rooms : list cell) :
  get_column "cancellation_policy" df = Ok policy ->
  get_column "room_type" df = Ok rooms ->
  (exists x, In x (select (map is_strict policy) rooms)
             /\ Cell.is_nan x = false) ->
  exists v,
    strict_room df = Ok v
    /\ In v (select (map is_strict policy) rooms)
    /\ Cell.is_nan v = false
    /\ forall w, Cell.is_nan w = false ->
                 count_of w (select (map is_strict policy) rooms)
                 <= count_of v (select (map is_strict policy) rooms).
Proof.
  intros Hpol Hroom (x & Hx & Hxn).
  set (strict := select (map is_strict policy) rooms) in *.
  assert (has_str_accessor policy = true) as Hacc.
  { destruct (select_true _ _ _ _ Hx) as (y & Hy & Hs).
    destruct policy as [|p0 policy]; [contradiction|].
    unfold has_str_accessor. apply existsb_exists. exists y.
    split; [assumption|]. destruct y; [discriminate.. | reflexivity]. }
  assert (get_column "room_type"
            (filter_rows (map is_strict policy) df) = Ok strict) as Hsel.
  { unfold get_column, filter_rows in *. cbn [columns rows].
    destruct (index_of "room_type" (columns df)) as [i|]; [|discriminate].
    injection Hroom as <-. f_equal. apply map_select. }
  assert (strict_room df = idxmax (value_counts strict)) as Hrun.
  { unfold strict_room. rewrite Hpol. cbn [bind].
    unfold series_str_lower. rewrite Hacc. cbn [bind].
    rewrite strict_mask, Hsel. reflexivity. }
  destruct (distinct_covers strict [] x Hx Hxn) as [H|(d0 & Hd0 & _)];
    [discriminate|].
  destruct (idxmax (value_counts strict)) as [v|e] eqn:Hidx.
  - exists v. split; [exact Hrun|].
    apply idxmax_largest in Hidx as (n & Hin & Hmax).
    unfold value_counts in Hin. apply in_map_iff in Hin as (d & Hd & Hin).
    injection Hd as <- <-.
    destruct (distinct_in _ _ _ Hin) as [Hv Hvn].
    repeat apply conj; try assumption.
    intros w Hw.
    destruct (existsb (Cell.eqb w) strict) eqn:E.
    + apply existsb_exists in E as (z & Hz & Hwz).
      assert (Cell.is_nan z = false) as Hzn
        by (destruct w, z; simpl in *; congruence).
      destruct (distinct_covers strict [] z Hz Hzn) as [H|(dz & Hdz & Hzd)];
        [discriminate|].
      rewrite (count_of_eqb w dz) by (eapply cell_eqb_trans; eassumption).
      apply (Hmax (dz, count_of dz strict)).
      unfold value_counts.
      exact (in_map (fun v0 => (v0, count_of v0 strict)) _ _ Hdz).
    + rewrite count_of_absent; [lia|].
      intros z Hz. destruct (Cell.eqb w z) eqn:E'; [|reflexivity].
      assert (existsb (Cell.eqb w) strict = true)
        by (apply existsb_exists; eauto).
      congruence.
  - exfalso. unfold value_counts in Hidx.
    destruct (distinct [] strict); [contradiction | discriminate].
Qed.

(** Three strict rows with a room type: "Private room" twice. *)
Lemma strict_room_is_most_frequent_witness :
  exists v,
    strict_room (rename_columns Samples.strict_policies) = Ok v
    /\ In v [Str "Private room"; Str "Entire home/apt"; Str "Private room";
             NaN]
    /\ Cell.is_nan v = false
    /\ forall w, Cell.is_nan w = false ->
                 count_of w [Str "Private room"; Str "Entire home/apt";
                             Str "Private room"; NaN]
                 <= count_of v [Str "Private room"; Str "Entire home/apt";
                                Str "Private room"; NaN].
Proof.
  apply (strict_room_is_most_frequent
           (rename_columns Samples.strict_policies)
           [Str "strict"; Str "Strict"; Str "moderate"; Str "STRICT";
            Str "strict"; NaN]
           [Str "Private room"; Str "Entire home/apt"; Str "Shared room";
            Str "Private room"; NaN; Str "Shared room"]).
  - vm_compute; reflexivity.
  - vm_compute; reflexivity.
  - exists (Str "Private room"). split; [vm_compute; now left | reflexivity].
Defined.

Example strict_room_sample :
  strict_room (rename_columns Samples.strict_policies)
  = Ok (Str "Private room").
Proof. reflexivity. Qed.

Lemma filter_split {A : Type} (p q : A -> bool) (l : list A) :
  (forall z, p z = true -> q z = false) ->
  List.length (filter (fun z => p z || q z) l)
  = List.length (filter p l) + List.length (filter q l).
Proof.
  intros H. induction l as [|z l IH]; simpl; [reflexivity|].
  destruct (p z) eqn:Ep; simpl.
  - rewrite (H z Ep). simpl. now rewrite IH.
  - destruct (q z); simpl; rewrite IH; lia.
Qed.

(** Values that are pairwise different count disjoint sets of cells. *)
Lemma counts_add_up (values l : list cell) :
  ForallOrdPairs (fun a b => Cell.eqb a b = false) values ->
  list_sum (map (fun d => count_of d l) values)
  = List.length (filter (fun z => existsb (fun d => Cell.eqb d z) values) l).
Proof.
  induction 1 as [|a values Ha Hv IH]; simpl.
  - induction l; simpl; auto.
  - rewrite IH. unfold count_of. symmetry. apply filter_split.
    intros z Haz.
    destruct (existsb (fun d => Cell.eqb d z) values) eqn:E; [|reflexivity].
    apply existsb_exists in E as (d & Hd & Hdz).
    rewrite Forall_forall in Ha. specialize (Ha d Hd).
    rewrite cell_eqb_sym in Hdz.
    rewrite (cell_eqb_trans _ _ _ Haz Hdz) in Ha. discriminate.
Qed.

(** The counts add up to the number of cells that are not missing. *)
Lemma value_counts_total (col : list cell) :
  list_sum (map snd (value_counts col))
  = List.length (filter (fun z => negb (Cell.is_nan z)) col).
Proof.
  unfold value_counts. rewrite map_map. cbn [snd].
  rewrite (counts_add_up _ col (distinct_apart col [])).
  f_equal. apply filter_ext_in. intros z Hz.
  destruct (Cell.is_nan z) eqn:En; simpl.
  - destruct (existsb (fun d => Cell.eqb d z) (distinct [] col)) eqn:E;
      [|reflexivity].
    apply existsb_exists in E as (d & Hd & Hdz).
    apply distinct_in in Hd as [_ Hd].
    destruct d, z; simpl in *; discriminate.
  - destruct (distinct_covers col [] z Hz En) as [H|(d & Hd & Hzd)];
      [discriminate|].
    apply existsb_exists. exists d. split; [assumption|].
    now rewrite cell_eqb_sym.
Qed.

(** X11. The counts of the values of a column list each value that is not
    missing once, with the number of cells equal to it, a number that is at
    least one; together the counts add up to the number of cells that are
    not missing. *)
Theorem value_counts_add_up (col : list cell) :
  list_sum (map snd (value_counts col))
  = List.length (filter (fun z => negb (Cell.is_nan z)) col)
  /\ ForallOrdPairs (fun a b => Cell.eqb a b = false)
                    (map fst (value_counts col))
  /\ (forall v n, In (v, n) (value_counts col) ->
                  In v col /\ Cell.is_nan v = false
                  /\ n = count_of v col /\ 1 <= n)
  /\ (forall x, In x col -> Cell.is_nan x = false ->
                exists v n, In (v, n) (value_counts col)
                            /\ Cell.eqb x v = true).
Proof.
  split; [apply value_counts_total|].
  unfold value_counts. repeat apply conj.
  - rewrite map_map. cbn [fst]. rewrite map_id. apply distinct_apart.
  - intros v n Hin. apply in_map_iff in Hin as (d & Hd & Hin).
    injection Hd as <- <-. destruct (distinct_in _ _ _ Hin) as [Hv Hn].
    repeat apply conj; try assumption; try reflexivity.
    now apply count_of_present.
  - intros x Hx Hn.
    destruct (distinct_covers col [] x Hx Hn) as [H|(d & Hd & Hxd)];
      [discriminate|].
    exists d, (count_of d col). split; [|exact Hxd].
    exact (in_map (fun v => (v, count_of v col)) _ _ Hd).
Qed.

End Counts.

(** ** The grouped mean (lines 148-163) *)

Module Groupby.
Import Equal.

Lemma mapM_keyed_in {K X V : Type} (g : K -> result X) (h : X -> V)
      (l : list K) (l' : list (K * V)) :
  mapM (fun k => x <- g k ;; Ok (k, h x)) l = Ok l' ->
  forall r, In r l' -> exists x, g (fst r) = Ok x /\ snd r = h x.
Proof.
  revert l'. induction l as [|k l IH]; simpl; intros l' H r Hr.
  - injection H as <-. contradiction.
  - apply bind_ok in H as (r0 & Hr0 & H).
    apply bind_ok in Hr0 as (x & Hx & Hr0). injection Hr0 as <-.
    apply bind_ok in H as (rs & Hrs & H). injection H as <-.
    destruct Hr as [<-|Hr]; [now exists x | eapply IH; eassumption].
Qed.

Lemma select_in_both {A B : Type} (f : A -> bool) (p : list A) (r : list B)
      (x : B) :
  In x (select (map f p) r) -> In x r.
Proof. apply MissingColumn.select_in. Qed.

Lemma numeric_values_ok (l : list cell) :
  no_str l -> exists xs, numeric_values l = Ok xs.
Proof.
  induction 1 as [|x l Hx Hl [xs IH]]; simpl; [eauto|].
  destruct x; [eauto | rewrite IH; simpl; eauto | discriminate].
Qed.



(** X12. On a value column without strings the grouped mean goes through
    and has one row per key: the keys listed are cells of the key column
    that are not missing, no two of them equal, every cell of the key column
    that is not missing equals one of them, and the value of a row is the
    mean of the numbers in the rows of its key. *)
Theorem groupby_mean_one_row_per_key
        (key val : string) (df : DataFrame) (keys vals : list cell) :
  get_column key df = Ok keys ->
  get_column val df = Ok vals ->
  no_str vals ->
  exists avg,
    groupby_mean key val df = Ok avg
    /\ NoDup (map fst avg)
    /\ (forall k1 k2, In k1 (map fst avg) -> In k2 (map fst avg) ->
                      Cell.eqb k1 k2 = true -> k1 = k2)
    /\ (forall k, In k (map fst avg) -> In k keys /\ Cell.is_nan k = false)
    /\ (forall x, In x keys -> Cell.is_nan x = false ->
                  exists k, In k (map fst avg) /\ Cell.eqb x k = true)
    /\ (forall k m, In (k, m) avg ->
          exists xs,
            numeric_values (select (map (Cell.eqb k) keys) vals) = Ok xs
            /\ m = mean xs).
Proof.
  intros Hk Hv Hno. unfold groupby_mean. rewrite Hk, Hv. cbn [bind].
  set (body := fun k =>
                 xs <- numeric_values (select (map (Cell.eqb k) keys) vals) ;;
                 Ok (k, mean xs)).
  set (sorted := sort_by Cell.leb (distinct [] keys)).
  assert (Permutation sorted (distinct [] keys)) as Hperm
    by apply Sorting.sort_by_perm.
  destruct (DaysBooked.mapM_ok body sorted) as [avg Havg].
  { intros k _. unfold body.
    destruct (numeric_values_ok (select (map (Cell.eqb k) keys) vals))
      as [xs ->]; [|simpl; eauto].
    unfold no_str in *. rewrite Forall_forall in *.
    intros x Hx. apply Hno. eapply select_in_both, Hx. }
  exists avg. split; [exact Havg|].
  destruct (TopTen.mapM_keyed _ _ _ _ Havg) as [Hfst _].
  rewrite Hfst. repeat apply conj.
  - eapply Permutation_NoDup;
      [apply Permutation_sym, Hperm | apply TopTen.distinct_nodup].
  - intros k1 k2 H1 H2 Heq.
    apply (Permutation_in _ Hperm) in H1, H2.
    destruct (ForallOrdPairs_In (Counts.distinct_apart keys []) _ _ H1 H2)
      as [H|[H|H]]; [assumption | congruence |].
    rewrite cell_eqb_sym in H. congruence.
  - intros k Hin. apply (Permutation_in _ Hperm) in Hin.
    now apply Counts.distinct_in in Hin.
  - intros x Hx Hn.
    destruct (Counts.distinct_covers keys [] x Hx Hn) as [H|(d & Hd & Hxd)];
      [discriminate|].
    exists d. split; [|exact Hxd].
    exact (Permutation_in _ (Permutation_sym Hperm) Hd).
  - intros k m Hin.
    destruct (mapM_keyed_in _ _ _ _ Havg _ Hin) as (xs & Hxs & Hm).
    exists xs. split; assumption.
Qed.

(** Three neighbourhoods: the listing without a neighbourhood is in no
    group, the neighbourhood without a price has a missing mean. *)
Lemma groupby_mean_one_row_per_key_witness :
  groupby_mean "neighborhood" "price" Samples.three_neighbourhoods
  = Ok Samples.three_neighbourhoods_avg
  /\ exists avg,
       groupby_mean "neighborhood" "price" Samples.three_neighbourhoods
       = Ok avg
       /\ NoDup (map fst avg).
Proof.
  split; [vm_compute; reflexivity|].
  destruct (groupby_mean_one_row_per_key
              "neighborhood" "price" Samples.three_neighbourhoods
              [Str "Harlem"; Str "Chelsea"; Str "Harlem"; Str "Astoria";
               Str "Chelsea"; NaN; Str "Harlem"]
              [Num (Fin 100); Num (Fin 300); Num (Fin 150); NaN;
               Num (Fin 250); Num (Fin 999); NaN])
    as (avg & Havg & Hnodup & _).
  - vm_compute; reflexivity.
  - vm_compute; reflexivity.
  - repeat constructor.
  - exists avg. split; assumption.
Defined.





End Groupby.

(** ** The rows that [nlargest] and [nsmallest] take (lines 165-166) *)

Module Extremes.
Import Sorting TopTen.

Lemma skipn_in {A : Type} (n : nat) (l : list A) (x : A) :
  In x (skipn n l) -> In x l.
Proof.
  revert l. induction n as [|n IH]; intros [|y l]; simpl; try tauto.
  intros H. right. now apply IH.
Qed.

(** In a list that starts with a sorted part, what is taken from the front
    is in order with what is left of the sorted part. *)
Lemma front_of_sorted {A : Type} (R : A -> A -> Prop) (sorted rest : list A)
      (n : nat) (x y : A) :
  StronglySorted R sorted ->
  In x (firstn n (sorted ++ rest)) -> In y (skipn n (sorted ++ rest)) ->
  In y rest \/ R x y.
Proof.
  intros Hs. revert n. induction Hs as [|a l Hl IH Ha]; intros n Hx Hy.
  - left. simpl in Hy. eapply skipn_in, Hy.
  - destruct n as [|n]; [contradiction|]. simpl in Hx, Hy.
    destruct Hx as [<-|Hx]; [|now apply (IH n)].
    apply skipn_in, in_app_or in Hy as [Hy|Hy]; [|now left].
    right. rewrite Forall_forall in Ha. now apply Ha.
Qed.

Lemma valid_invalid_length (l : list (cell * cell)) :
  List.length (valid l) + List.length (invalid l) = List.length l.
Proof.
  unfold valid, invalid. induction l as [|r l IH]; simpl; [reflexivity|].
  destruct (Cell.is_nan (snd r)); simpl; lia.
Qed.

Lemma valid_or_invalid (l : list (cell * cell)) (r : cell * cell) :
  In r l -> In r (valid l) \/ In r (invalid l).
Proof.
  intros H. unfold valid, invalid.
  destruct (Cell.is_nan (snd r)) eqn:E; [right | left];
    apply filter_In; split; try assumption.
  now rewrite E.
Qed.

Lemma invalid_is_missing (l : list (cell * cell)) (r : cell * cell) :
  In r (invalid l) -> snd r = NaN.
Proof.
  unfold invalid. intros H. apply filter_In in H as [_ H].
  destruct (snd r); [reflexivity | discriminate | discriminate].
Qed.

Section Take.

Variable le : cell * cell -> cell * cell -> bool.
Variable R : cell * cell -> cell * cell -> Prop.
Variable avg : list (cell * cell).
Variable n : nat.
Hypothesis sorted : StronglySorted R (sort_by le (valid avg)).

Let taken : list (cell * cell) :=
  firstn n (sort_by le (valid avg) ++ invalid avg).

Lemma taken_length : List.length taken = Nat.min n (List.length avg).
Proof.
  unfold taken. rewrite length_firstn, length_app.
  rewrite (Permutation_length (sort_by_perm le (valid avg))).
  now rewrite valid_invalid_length.
Qed.

Lemma taken_incl : incl taken avg.
Proof.
  intros r Hr. unfold taken in Hr. apply firstn_in, in_app_or in Hr as [Hr|Hr].
  - apply (Permutation_in _ (sort_by_perm le (valid avg))) in Hr.
    unfold valid in Hr. now apply filter_In in Hr.
  - unfold invalid in Hr. now apply filter_In in Hr.
Qed.

Lemma taken_first (r r' : cell * cell) :
  In r taken -> In r' avg -> ~ In r' taken -> snd r' = NaN \/ R r r'.
Proof.
  intros Hr Hr' Hnot.
  assert (In r' (sort_by le (valid avg) ++ invalid avg)) as Hall.
  { apply in_or_app. destruct (valid_or_invalid _ _ Hr') as [H|H];
      [left | now right].
    exact (Permutation_in _ (Permutation_sym (sort_by_perm le _)) H). }
  rewrite <- (firstn_skipn n) in Hall.
  apply in_app_or in Hall as [Hall|Hall]; [contradiction|].
  destruct (front_of_sorted R _ _ n r r' sorted Hr Hall) as [H|H];
    [left; eapply invalid_is_missing, H | now right].
Qed.

End Take.

(** X14. For every [n], the rows that [nlargest] takes from the grouped
    means are [n] rows of them (all of them when there are fewer), and no
    row left out has a larger mean: its mean is missing or at most the mean
    of every row taken. [nsmallest] takes [n] rows in the same way, and no
    row left out has a smaller mean. *)
Theorem nlargest_takes_the_largest
        (key val : string) (df : DataFrame) (avg : list (cell * cell))
        (n : nat) :
  groupby_mean key val df = Ok avg ->
  List.length (nlargest n avg) = Nat.min n (List.length avg)
  /\ List.length (nsmallest n avg) = Nat.min n (List.length avg)
  /\ incl (nlargest n avg) avg
  /\ incl (nsmallest n avg) avg
  /\ (forall r r', In r (nlargest n avg) -> In r' avg ->
                   ~ In r' (nlargest n avg) ->
                   snd r' = NaN \/ mean_le r' r)
  /\ (forall r r', In r (nsmallest n avg) -> In r' avg ->
                   ~ In r' (nsmallest n avg) ->
                   snd r' = NaN \/ mean_le r r').
Proof.
  intros Havg.
  destruct (groupby_mean_facts _ _ _ _ Havg) as [_ Hstr].
  pose proof (valid_has_mean avg Hstr) as Hm.
  pose proof (sort_desc_sorted _ Hm) as Hdesc.
  pose proof (sort_asc_sorted _ Hm) as Hasc.
  repeat apply conj.
  - apply taken_length.
  - apply taken_length.
  - apply taken_incl.
  - apply taken_incl.
  - exact (taken_first _ mean_ge avg n Hdesc).
  - exact (taken_first _ mean_le avg n Hasc).
Qed.

(** Of three neighbourhoods, the most expensive is Chelsea and the cheapest
    Harlem; Astoria, without a price, is taken by neither. *)
Lemma nlargest_takes_the_largest_witness :
  nlargest 1 Samples.three_neighbourhoods_avg
  = [(Str "Chelsea", Num (Fin 275))]
  /\ nsmallest 1 Samples.three_neighbourhoods_avg
     = [(Str "Harlem", Num (Fin 125))]
  /\ List.length (nlargest 5 Samples.three_neighbourhoods_avg) = 3.
Proof.
  destruct (nlargest_takes_the_largest
              "neighborhood" "price" Samples.three_neighbourhoods
              Samples.three_neighbourhoods_avg 5) as (Hlen & _).
  - vm_compute; reflexivity.
  - split; [vm_compute; reflexivity|].
    split; [vm_compute; reflexivity | exact Hlen].
Defined.

End Extremes.

(** ** What an exported frame is made of (lines 42-127, 220-284) *)

Module Exported.
Import Frame Shape.

Lemma chart_ok (variables : list string) (df : DataFrame) :
  chart variables df = Ok tt ->
  forall v, In v variables -> has_column v df = true.
Proof.
  unfold chart. induction variables as [|a l IH]; simpl; intros H v Hv;
    [contradiction|].
  destruct (has_column a df) eqn:E; [|discriminate]. simpl in H.
  destruct Hv as [<-|Hv]; [exact E | now apply IH].
Qed.

Lemma columns_set_column (c : string) (vals : list cell) (df : DataFrame) :
  columns (set_column c vals df) = append_label c (columns df).
Proof.
  unfold set_column, append_label.
  destruct (index_of c (columns df)) as [i|] eqn:E.
  - assert (has_column c df = true) as H
      by (apply has_column_index; eauto).
    unfold has_column in H. now rewrite H.
  - destruct (existsb (String.eqb c) (columns df)) eqn:H; [|reflexivity].
    apply (has_column_index c df) in H as [i H]. congruence.
Qed.

Lemma append_label_in (c c' : string) (labels : list string) :
  In c labels -> In c (append_label c' labels).
Proof.
  intros H. unfold append_label.
  destruct (existsb (String.eqb c') labels); [assumption|].
  apply in_or_app. now left.
Qed.

Lemma append_label_idem (c : string) (labels : list string) :
  append_label c (append_label c labels) = append_label c labels.
Proof.
  assert (existsb (String.eqb c) (append_label c labels) = true) as H.
  { unfold append_label.
    destruct (existsb (String.eqb c) labels) eqn:E; [exact E|].
    rewrite existsb_app. cbn [existsb]. rewrite String.eqb_refl.
    rewrite orb_true_l. apply orb_true_r. }
  unfold append_label at 1. now rewrite H.
Qed.

(** The labels of the frames of the cleaning, one after the other. *)
Lemma clean_columns (raw df : DataFrame) :
  clean raw = Ok df ->
  let base := filter kept_label (normalize_columns (columns raw)) in
  let with_days :=
    if existsb (String.eqb "availability_365") base
    then append_label "days_booked" base else base in
  columns df
  = if existsb (String.eqb "host_is_superhost") with_days
    then append_label "is_superhost" with_days else with_days.
Proof.
  intros H. cbv zeta.
  apply clean_inv in H as (d1 & d2 & d3 & d4 & H1 & H2 & H3 & H4 & H5).
  assert (columns d3 = filter kept_label (normalize_columns (columns raw)))
    as C3.
  { rewrite (MissingColumn.columns_coerce_numeric _ _ H3).
    rewrite (MissingColumn.columns_clean_currency _ _ _ H2).
    rewrite (MissingColumn.columns_clean_currency _ _ _ H1).
    rewrite MissingColumn.columns_drop_duplicates.
    apply Prune.prune_columns. }
  assert (columns d4
          = if existsb (String.eqb "availability_365") (columns d3)
            then append_label "days_booked" (columns d3)
            else columns d3) as C4.
  { unfold add_days_booked, has_column in H4.
    destruct (existsb (String.eqb "availability_365") (columns d3));
      [|now injection H4 as <-].
    apply bind_ok in H4 as (a & _ & H4). apply bind_ok in H4 as (b & _ & H4).
    injection H4 as <-. apply columns_set_column. }
  rewrite C3 in C4. rewrite <- C4.
  unfold add_is_superhost, has_column in H5.
  destruct (existsb (String.eqb "host_is_superhost") (columns d4));
    [|now injection H5 as <-].
  apply bind_ok in H5 as (a & _ & H5). injection H5 as <-.
  apply columns_set_column.
Qed.

(** X15. The labels of an exported frame are those of the input,
    normalised, without the four that are pruned, in their order; then
    [days_booked] when there is an availability and no such label yet; then
    [is_superhost] when there is no such label yet. An exported frame always
    has the column [is_superhost], with or without [host_is_superhost]. *)
Theorem exported_labels (raw out : DataFrame) :
  well_formed (rename_columns raw) = true ->
  run raw = Ok out ->
  let base := filter kept_label (normalize_columns (columns raw)) in
  let with_days :=
    if existsb (String.eqb "availability_365") base
    then append_label "days_booked" base else base in
  columns out = append_label "is_superhost" with_days
  /\ has_column "is_superhost" out = true
  /\ (forall c, In c base -> has_column c out = true).
Proof.
  intros _.
  intros H. cbv zeta.
  apply run_inv in H as (df & Hclean & _ & _ & _ & _ & Hcat & _).
  pose proof (clean_columns raw df Hclean) as Hcols. cbv zeta in Hcols.
  unfold add_host_category in Hcat.
  apply bind_ok in Hcat as (v & _ & Hcat). injection Hcat as <-.
  set (base := filter kept_label (normalize_columns (columns raw))) in *.
  set (with_days := if existsb (String.eqb "availability_365") base
                    then append_label "days_booked" base else base) in *.
  assert (columns (set_column "is_superhost" (map verified_label v) df)
          = append_label "is_superhost" with_days) as Hout.
  { rewrite columns_set_column, Hcols.
    destruct (existsb (String.eqb "host_is_superhost") with_days);
      [apply append_label_idem | reflexivity]. }
  repeat apply conj.
  - exact Hout.
  - apply has_column_set_same.
  - intros c Hc. apply MissingColumn.has_column_in. rewrite Hout.
    apply append_label_in. unfold with_days.
    destruct (existsb (String.eqb "availability_365") base);
      [now apply append_label_in | assumption].
Qed.

(** The charted example: eight labels, then the two derived ones. *)
Lemma exported_labels_witness :
  columns Samples.spec_example_exported
  = ["price"; "service_fee"; "availability_365"; "host_is_superhost";
     "review_rate_number"; "number_of_reviews"; "reviews_per_month";
     "host_identity_verified"; "days_booked"; "is_superhost"]
  /\ has_column "is_superhost" Samples.spec_example_exported = true.
Proof.
  destruct (exported_labels Samples.spec_example_charted
              Samples.spec_example_exported) as (Hcols & His & _).
  - vm_compute; reflexivity.
  - vm_compute; reflexivity.
  - split; [rewrite Hcols; vm_compute; reflexivity | exact His].
Defined.

Lemma clean_has_column_fwd (raw df : DataFrame) (c : string) :
  clean raw = Ok df ->
  kept_label c = true ->
  has_column c (rename_columns raw) = true -> has_column c df = true.
Proof.
  intros H Hk Hc. apply MissingColumn.has_column_in.
  pose proof (clean_columns raw df H) as Hcols. cbv zeta in Hcols.
  rewrite Hcols.
  assert (In c (filter kept_label (normalize_columns (columns raw)))) as Hb
    by (apply filter_In; split;
        [now apply (MissingColumn.has_column_in c (rename_columns raw))
        | assumption]).
  set (base := filter kept_label (normalize_columns (columns raw))) in *.
  assert (In c (if existsb (String.eqb "availability_365") base
                then append_label "days_booked" base else base)) as Hd
    by (destruct (existsb (String.eqb "availability_365") base);
        [now apply append_label_in | assumption]).
  destruct (existsb (String.eqb "host_is_superhost") _);
    [now apply append_label_in | assumption].
Qed.

(** X16. A run reaches the export only on an input that has the columns
    price, review_rate_number, number_of_reviews, reviews_per_month and
    host_identity_verified; an input with a neighborhood column must have
    room_type and service_fee as well. *)
Theorem export_requires_columns (raw out : DataFrame) :
  well_formed (rename_columns raw) = true ->
  run raw = Ok out ->
  (forall c,
      In c ["price"; "review_rate_number"; "number_of_reviews";
            "reviews_per_month"; "host_identity_verified"] ->
      has_column c (rename_columns raw) = true)
  /\ (has_column "neighborhood" (rename_columns raw) = true ->
      has_column "room_type" (rename_columns raw) = true
      /\ has_column "service_fee" (rename_columns raw) = true).
Proof.
  intros _.
  intros H.
  apply run_inv in H as (df & Hclean & _ & _ & Hnb & Hrate & Hcat & Hhost).
  assert (forall c, c <> "days_booked" -> c <> "is_superhost" ->
                    has_column c df = true ->
                    has_column c (rename_columns raw) = true) as Hback
    by (intros c; now apply MissingColumn.clean_has_column).
  pose proof (chart_ok _ _ Hrate) as Hr.
  unfold host_charts in Hhost.
  apply bind_ok in Hhost as ([] & Hh1 & Hh2).
  pose proof (chart_ok _ _ Hh1) as Hc1. pose proof (chart_ok _ _ Hh2) as Hc2.
  unfold add_host_category in Hcat.
  apply bind_ok in Hcat as (v & Hget & Hcat). injection Hcat as <-.
  assert (forall c, c <> "is_superhost" ->
                    has_column c
                      (set_column "is_superhost" (map verified_label v) df)
                    = true ->
                    has_column c df = true) as Hin
    by (intros c Hne Hc; eapply MissingColumn.has_column_set_inv;
        eassumption).
  split.
  - intros c [<-|[<-|[<-|[<-|[<-|[]]]]]]; apply Hback; try discriminate.
    + apply Hr. right. now left.
    + apply Hr. now left.
    + apply Hin; [discriminate|]. apply Hc1. right. now left.
    + apply Hin; [discriminate|]. apply Hc2. right. now left.
    + destruct (has_column "host_identity_verified" df) eqn:E;
        [reflexivity|].
      rewrite (no_column_get _ _ E) in Hget. discriminate.
  - intros Hn.
    assert (has_column "neighborhood" df = true) as Hn'
      by (apply (clean_has_column_fwd raw); auto).
    unfold neighborhood_charts in Hnb. rewrite Hn' in Hnb.
    apply bind_ok in Hnb as (t & _ & Hnb).
    apply bind_ok in Hnb as (t' & _ & Hnb).
    apply bind_ok in Hnb as ([] & Hb1 & Hb2).
    pose proof (chart_ok _ _ Hb1) as Hroom.
    pose proof (chart_ok _ _ Hb2) as Hfee.
    split; apply Hback; try discriminate.
    + apply Hroom. now left.
    + apply Hfee. now left.
Qed.

(** The charted example has the columns that are read without a guard. *)
Lemma export_requires_columns_witness :
  has_column "price" (rename_columns Samples.spec_example_charted) = true
  /\ has_column "host_identity_verified"
       (rename_columns Samples.spec_example_charted) = true.
Proof.
  destruct (export_requires_columns Samples.spec_example_charted
              Samples.spec_example_exported) as [Hcols _].
  - vm_compute; reflexivity.
  - vm_compute; reflexivity.
  - split; apply Hcols; [now left | do 4 right; now left].
Defined.

Lemma clean_currency_no_str (c : string) (df df' : DataFrame)
      (vals : list cell) :
  rectangular df = true -> clean_currency c df = Ok df' ->
  get_column c df' = Ok vals -> no_str vals.
Proof.
  intros Hrect H Hget. unfold clean_currency in H.
  destruct (has_column c df) eqn:Hc.
  - apply bind_ok in H as (vals' & Hclean & H). injection H as <-.
    unfold clean_currency_column in Hclean.
    apply bind_ok in Hclean as (vals0 & Hget0 & Hmap).
    rewrite get_set_same in Hget; [|assumption | col_length].
    injection Hget as <-. eapply Parsed.mapM_astype_no_str, Hmap.
  - injection H as <-. rewrite (no_column_get _ _ Hc) in Hget. discriminate.
Qed.

Lemma coerce_numeric_other (c : string) (d d' : DataFrame) :
  rectangular d = true -> coerce_numeric d = Ok d' ->
  existsb (String.eqb c) numeric_columns = false ->
  get_column c d' = get_column c d.
Proof.
  intros Hrect H Hc.
  destruct (Coerce.coerce_numeric_spec d Hrect) as (d0 & H0 & Hcols & Hspec).
  rewrite H in H0. injection H0 as <-.
  destruct (has_column c d) eqn:E.
  - destruct (has_column_get _ _ E) as [vals Hget].
    rewrite (Hspec c vals Hget), Hc. now symmetry.
  - rewrite (no_column_get _ _ E). apply no_column_get.
    unfold has_column in *. now rewrite Hcols.
Qed.

(** The frames between the steps of the cleaning have rows of one length. *)
Lemma clean_frames (raw df : DataFrame) :
  rectangular raw = true ->
  clean raw = Ok df ->
  exists d1 d2 d3 d4,
    (clean_currency "price"
       (drop_duplicates (prune (rename_columns raw))) = Ok d1
     /\ clean_currency "service_fee" d1 = Ok d2
     /\ coerce_numeric d2 = Ok d3
     /\ add_days_booked d3 = Ok d4
     /\ add_is_superhost d4 = Ok df)
    /\ rectangular (drop_duplicates (prune (rename_columns raw))) = true
    /\ rectangular d1 = true /\ rectangular d2 = true
    /\ rectangular d3 = true /\ rectangular d4 = true
    /\ rectangular df = true.
Proof.
  intros Hrect H.
  apply clean_inv in H as (d1 & d2 & d3 & d4 & H1 & H2 & H3 & H4 & H5).
  assert (rectangular (drop_duplicates (prune (rename_columns raw))) = true)
    as R0
    by now apply drop_duplicates_rectangular, prune_rectangular,
         rename_rectangular.
  pose proof (clean_currency_rectangular _ _ _ R0 H1) as R1.
  pose proof (clean_currency_rectangular _ _ _ R1 H2) as R2.
  pose proof (coerce_numeric_rectangular _ _ R2 H3) as R3.
  pose proof (add_days_booked_rectangular _ _ R3 H4) as R4.
  pose proof (add_is_superhost_rectangular _ _ R4 H5) as R5.
  exists d1, d2, d3, d4. repeat apply conj; assumption.
Qed.

(** After the cleaning the two currency columns and the five numeric
    columns hold no string. *)
Lemma cleaned_numbers (raw df : DataFrame) :
  rectangular raw = true ->
  clean raw = Ok df ->
  forall c vals,
    In c (["price"; "service_fee"] ++ numeric_columns)%list ->
    get_column c df = Ok vals -> no_str vals.
Proof.
  intros Hrect H c vals Hin Hget.
  destruct (clean_frames raw df Hrect H)
    as (d1 & d2 & d3 & d4 & (H1 & H2 & H3 & H4 & H5)
        & R0 & R1 & R2 & R3 & R4 & R5).
  assert (c <> "days_booked" /\ c <> "is_superhost") as [Hd Hs]
    by (cbn [app numeric_columns] in Hin;
        repeat (destruct Hin as [<-|Hin]; [split; discriminate|]);
        destruct Hin).
  rewrite (Upstream.add_is_superhost_other c d4 df R4 H5 Hs) in Hget.
  rewrite (Upstream.add_days_booked_other c d3 d4 R3 H4 Hd) in Hget.
  apply in_app_or in Hin as [Hin|Hin].
  - rewrite (coerce_numeric_other c d2 d3 R2 H3) in Hget
      by (destruct Hin as [<-|[<-|[]]]; reflexivity).
    destruct Hin as [<-|[<-|[]]].
    + rewrite (Upstream.clean_currency_other "price" "service_fee" d1 d2)
        in Hget by (assumption || discriminate).
      eapply clean_currency_no_str; [exact R0 | exact H1 | exact Hget].
    + eapply clean_currency_no_str; [exact R1 | exact H2 | exact Hget].
  - exact (Parsed.coerce_numeric_no_str d2 d3 R2 H3 c vals Hin Hget).
Qed.

(** X17. In an exported frame the columns price and service_fee and the
    five numeric columns hold numbers and missing values only, never a
    string. *)
Theorem exported_numbers (raw out : DataFrame) :
  well_formed (rename_columns raw) = true ->
  run raw = Ok out ->
  forall c vals,
    In c (["price"; "service_fee"] ++ numeric_columns)%list ->
    get_column c out = Ok vals -> no_str vals.
Proof.
  intros Hwf. apply Domain.renamed_rectangular in Hwf. revert Hwf.
  intros Hrect H c vals Hin Hget.
  apply run_inv in H as (df & Hclean & _ & _ & _ & _ & Hcat & _).
  unfold add_host_category in Hcat.
  apply bind_ok in Hcat as (v & Hv & Hcat). injection Hcat as <-.
  rewrite get_set_other in Hget.
  - eapply cleaned_numbers; eassumption.
  - eapply clean_rectangular; eassumption.
  - col_length.
  - cbn [app numeric_columns] in Hin.
    repeat (destruct Hin as [<-|Hin]; [discriminate|]). destruct Hin.
Qed.

(** The prices that the charted example exports. *)
Lemma exported_numbers_witness :
  no_str [Num (Fin 100); Num (Fin 80); Num (Fin 120); Num (Fin (191 # 2))].
Proof.
  apply (exported_numbers Samples.spec_example_charted
           Samples.spec_example_exported) with (c := "price").
  - vm_compute; reflexivity.
  - vm_compute; reflexivity.
  - now left.
  - vm_compute; reflexivity.
Defined.

(** X18. A column that the script neither parses nor assigns is exported as
    it stands once the four pruned columns and the repeated rows are gone:
    reading it from the exported frame gives what reading it from that frame
    gives, the same cells in the same order. *)
Theorem other_columns_are_exported_unchanged (raw out : DataFrame)
        (c : string) :
  well_formed (rename_columns raw) = true ->
  run raw = Ok out ->
  existsb (String.eqb c) assigned_labels = false ->
  get_column c out
  = get_column c (drop_duplicates (prune (rename_columns raw))).
Proof.
  intros Hwf. apply Domain.renamed_rectangular in Hwf. revert Hwf.
  intros Hrect H Hc.
  apply run_inv in H as (df & Hclean & _ & _ & _ & _ & Hcat & _).
  unfold add_host_category in Hcat.
  apply bind_ok in Hcat as (v & Hv & Hcat). injection Hcat as <-.
  destruct (clean_frames raw df Hrect Hclean)
    as (d1 & d2 & d3 & d4 & (H1 & H2 & H3 & H4 & H5)
        & R0 & R1 & R2 & R3 & R4 & R5).
  unfold assigned_labels in Hc. rewrite !existsb_app in Hc.
  apply orb_false_iff in Hc as [Hcur Hc].
  apply orb_false_iff in Hc as [Hnum Hder].
  cbn [existsb] in Hcur, Hder. rewrite !orb_false_r in Hcur, Hder.
  apply orb_false_iff in Hcur as [Hp Hs].
  apply orb_false_iff in Hder as [Hd Hi].
  apply String.eqb_neq in Hp, Hs, Hd, Hi.
  rewrite get_set_other; [|assumption | col_length | assumption].
  rewrite (Upstream.add_is_superhost_other c d4 df R4 H5 Hi).
  rewrite (Upstream.add_days_booked_other c d3 d4 R3 H4 Hd).
  rewrite (coerce_numeric_other c d2 d3 R2 H3 Hnum).
  rewrite (Upstream.clean_currency_other c "service_fee" d1 d2 R1 H2 Hs).
  apply (Upstream.clean_currency_other c "price" _ d1 R0 H1 Hp).
Qed.

(** The column host_identity_verified of the charted example. *)
Lemma other_columns_are_exported_unchanged_witness :
  get_column "host_identity_verified" Samples.spec_example_exported
  = get_column "host_identity_verified"
      (drop_duplicates (prune (rename_columns Samples.spec_example_charted))).
Proof.
  apply other_columns_are_exported_unchanged.
  - vm_compute; reflexivity.
  - vm_compute; reflexivity.
  - vm_compute; reflexivity.
Defined.

End Exported.

(** ** Listings by construction year (lines 202-210) *)

Module PerYear.
Import Equal.

Lemma sorted_nodup_strict {A : Type} (R : A -> A -> Prop) (l : list A) :
  StronglySorted R l -> NoDup l ->
  StronglySorted (fun a b => R a b /\ a <> b) l.
Proof.
  induction 1 as [|x l Hs IH Hx]; intros Hn; constructor.
  - apply IH. now apply NoDup_cons_iff in Hn.
  - apply NoDup_cons_iff in Hn as [Hn _].
    rewrite Forall_forall in *. intros z Hz. split; [now apply Hx|].
    intros ->. contradiction.
Qed.

Lemma value_counts_keys (col : list cell) :
  map fst (value_counts col) = distinct [] col.
Proof.
  unfold value_counts. rewrite map_map. cbn [fst]. apply map_id.
Qed.

(** X19. In a frame whose cleaning went through, the points of the chart of
    listings by construction year are the counts of the years, each year
    once, in strictly increasing order of the year; their counts add up to
    the number of listings that have a year. *)
Theorem listings_per_year_in_order (raw df : DataFrame) (col : list cell) :
  well_formed (rename_columns raw) = true ->
  clean raw = Ok df ->
  get_column "construction_year" df = Ok col ->
  exists pts,
    listings_per_year df = Ok pts
    /\ Permutation pts (value_counts col)
    /\ StronglySorted
         (fun a b => exists x y,
              fst a = Num x /\ fst b = Num y
              /\ Number.leb x y = true /\ Number.eqb x y = false)
         pts
    /\ list_sum (map snd pts)
       = List.length (filter (fun z => negb (Cell.is_nan z)) col).
Proof.
  intros Hwf. apply Domain.renamed_rectangular in Hwf. revert Hwf.
  intros Hrect Hclean Hget.
  assert (no_str col) as Hno.
  { eapply (Exported.cleaned_numbers raw df Hrect Hclean);
      [|exact Hget].
    cbn [app numeric_columns]. do 5 right. now left. }
  unfold listings_per_year. rewrite Hget. cbn [bind].
  set (le := fun a b : cell * nat => Cell.leb (fst a) (fst b)).
  set (P := fun a : cell * nat => exists x, fst a = Num x).
  assert (Permutation (sort_by le (value_counts col)) (value_counts col))
    as Hperm by apply Sorting.sort_by_perm.
  assert (Forall P (value_counts col)) as HP.
  { rewrite Forall_forall. intros [v n] Hin.
    assert (In v (distinct [] col)) as Hv
      by (rewrite <- value_counts_keys; exact (in_map fst _ _ Hin)).
    apply Counts.distinct_in in Hv as [Hv Hnan].
    unfold no_str in Hno. rewrite Forall_forall in Hno.
    specialize (Hno v Hv). unfold P. cbn [fst].
    destruct v; [discriminate | eauto | discriminate]. }
  assert (StronglySorted (fun a b => le a b = true)
            (sort_by le (value_counts col))) as Hsorted.
  { apply (Sorting.sort_by_sorted le P); [| |exact HP].
    - intros a b [x Ha] [y Hb]. unfold le. rewrite Ha, Hb.
      apply Order.leb_total.
    - intros a b c [x Ha] [y Hb] [z Hc'] . unfold le.
      rewrite Ha, Hb, Hc'. apply Order.leb_trans. }
  assert (NoDup (sort_by le (value_counts col))) as Hnodup.
  { apply (Permutation_NoDup (Permutation_sym Hperm)).
    apply (NoDup_map_inv fst). rewrite value_counts_keys.
    apply TopTen.distinct_nodup. }
  eexists. split; [reflexivity|]. repeat apply conj.
  - exact Hperm.
  - eapply Sorting.sorted_weaken;
      [|exact (sorted_nodup_strict _ _ Hsorted Hnodup)].
    intros a b Ha Hb [Hle Hne].
    apply (Permutation_in _ Hperm) in Ha, Hb.
    rewrite Forall_forall in HP.
    destruct (HP a Ha) as [x Hx], (HP b Hb) as [y Hy].
    exists x, y. unfold le in Hle. rewrite Hx, Hy in Hle.
    repeat apply conj; try assumption.
    assert (In (fst a) (distinct [] col)) as Ia
      by (rewrite <- value_counts_keys; exact (in_map fst _ _ Ha)).
    assert (In (fst b) (distinct [] col)) as Ib
      by (rewrite <- value_counts_keys; exact (in_map fst _ _ Hb)).
    destruct (ForallOrdPairs_In (Counts.distinct_apart col []) _ _ Ia Ib)
      as [H|[H|H]].
    + exfalso. apply Hne. unfold value_counts in Ha, Hb.
      apply in_map_iff in Ha as (u & <- & _).
      apply in_map_iff in Hb as (w & <- & _).
      cbn [fst] in H. now subst.
    + rewrite Hx, Hy in H. exact H.
    + rewrite Hx, Hy in H. cbn [Cell.eqb] in H.
      now rewrite number_eqb_sym.
  - rewrite (Permutation_map snd Hperm).
    apply Counts.value_counts_total.
Qed.

(** Years 2010, 2005, 2010, none, none, 2019: three points. *)
Lemma listings_per_year_in_order_witness :
  listings_per_year Samples.built_years_cleaned
  = Ok [(Num (Fin 2005), 1); (Num (Fin 2010), 2); (Num (Fin 2019), 1)]
  /\ exists pts,
       listings_per_year Samples.built_years_cleaned = Ok pts
       /\ Permutation pts
            (value_counts [Num (Fin 2010); Num (Fin 2005); Num (Fin 2010);
                           NaN; NaN; Num (Fin 2019)])
       /\ StronglySorted
            (fun a b => exists x y,
                 fst a = Num x /\ fst b = Num y
                 /\ Number.leb x y = true /\ Number.eqb x y = false)
            pts
       /\ list_sum (map snd pts)
          = List.length
              (filter (fun z => negb (Cell.is_nan z))
                 [Num (Fin 2010); Num (Fin 2005); Num (Fin 2010);
                  NaN; NaN; Num (Fin 2019)]).
Proof.
  split; [vm_compute; reflexivity|].
  apply (listings_per_year_in_order Samples.built_years).
  - vm_compute; reflexivity.
  - vm_compute; reflexivity.
  - vm_compute; reflexivity.
Defined.

End PerYear.

(** ** What makes the cleaning and the summaries stop (lines 86-166) *)

Module Reaches.
Import Frame Shape.








(** On a value column without strings the grouped mean cannot raise. *)
Lemma groupby_mean_ok (key val : string) (df : DataFrame)
      (vals : list cell) :
  has_column key df = true -> get_column val df = Ok vals -> no_str vals ->
  exists avg, groupby_mean key val df = Ok avg.
Proof.
  intros Hk Hv Hno. destruct (has_column_get _ _ Hk) as [keys Hkeys].
  unfold groupby_mean. rewrite Hkeys, Hv. cbn [bind].
  apply DaysBooked.mapM_ok. intros k _.
  destruct (Groupby.numeric_values_ok (select (map (Cell.eqb k) keys) vals))
    as [xs ->]; [|cbn [bind]; eauto].
  unfold no_str in *. rewrite Forall_forall in *.
  intros x Hx. apply Hno. eapply MissingColumn.select_in, Hx.
Qed.

(** X21. After the cleaning the summaries of steps 9 and 10 can raise on
    one thing only, a missing price column. When the cleaned frame has a
    price column, the mean price by neighborhood group is computed, and so
    are the mean price by neighborhood and its two rankings; when it has
    none, the summary of a frame with a neighborhood_group column raises
    KeyError, and so does that of a frame with a neighborhood column. *)
Theorem summaries_need_price_only (raw df : DataFrame) :
  well_formed (rename_columns raw) = true ->
  clean raw = Ok df ->
  (has_column "price" df = true ->
   report_avg_price_group df = Ok tt
   /\ (has_column "neighborhood" df = true ->
       exists avg,
         avg_price_neighborhood df = Ok avg
         /\ top_10_expensive df = Ok (nlargest 10 avg)
         /\ top_10_cheap df = Ok (nsmallest 10 avg)))
  /\ (has_column "price" df = false ->
      (has_column "neighborhood_group" df = true ->
       report_avg_price_group df = Err (KeyError "price"))
      /\ (has_column "neighborhood" df = true ->
          neighborhood_charts df = Err (KeyError "price"))).
Proof.
  intros Hwf. apply Domain.renamed_rectangular in Hwf. revert Hwf.
  intros Hrect Hclean. split.
  - intros Hprice.
    destruct (has_column_get _ _ Hprice) as [prices Hp].
    assert (no_str prices) as Hno
      by (apply (Exported.cleaned_numbers raw df Hrect Hclean "price");
          [now left | exact Hp]).
    split.
    + unfold report_avg_price_group.
      destruct (has_column "neighborhood_group" df) eqn:E; [|reflexivity].
      destruct (groupby_mean_ok "neighborhood_group" "price" df prices
                  E Hp Hno) as [avg ->].
      reflexivity.
    + intros E.
      destruct (groupby_mean_ok "neighborhood" "price" df prices E Hp Hno)
        as [avg Havg].
      exists avg. unfold top_10_expensive, top_10_cheap.
      unfold avg_price_neighborhood. rewrite Havg. repeat split.
  - intros Hprice. pose proof (no_column_get _ _ Hprice) as Hp. split.
    + intros E. unfold report_avg_price_group. rewrite E.
      destruct (has_column_get _ _ E) as [keys Hkeys].
      unfold groupby_mean. rewrite Hkeys, Hp. reflexivity.
    + intros E. unfold neighborhood_charts. rewrite E.
      destruct (has_column_get _ _ E) as [keys Hkeys].
      unfold top_10_expensive, avg_price_neighborhood, groupby_mean.
      rewrite Hkeys, Hp. reflexivity.
Qed.

(** Three neighbourhoods: Chelsea is the most expensive, Harlem the
    cheapest, Astoria has no price and comes last in both rankings. *)
Lemma summaries_need_price_only_witness :
  report_avg_price_group Samples.three_neighbourhoods = Ok tt
  /\ exists avg,
       avg_price_neighborhood Samples.three_neighbourhoods = Ok avg
       /\ top_10_expensive Samples.three_neighbourhoods
          = Ok (nlargest 10 avg)
       /\ top_10_cheap Samples.three_neighbourhoods = Ok (nsmallest 10 avg).
Proof.
  destruct (summaries_need_price_only
              Samples.three_neighbourhoods Samples.three_neighbourhoods)
    as [Hprice _].
  - vm_compute; reflexivity.
  - vm_compute; reflexivity.
  - destruct Hprice as [Hgroup Hnb]; [vm_compute; reflexivity|].
    split; [exact Hgroup|]. apply Hnb. vm_compute; reflexivity.
Defined.

End Reaches.
